(** * NC ABC spirits inventory: the resolution pipeline

    A shallow embedding of the scraping scripts of the repository
    ([scrape_item_details.py], [replace_missing_urls.py],
    [replace_x_image_urls.py], [scrape_pricing_site.py]) and the statements of the specification
    that are settled against them.

    Layout: the Python primitives the scripts rely on ([Py]), the retry
    decorator of tenacity ([Tenacity]), the part of BeautifulSoup the
    extractor calls ([Bs4]), asyncio's gather ([Asyncio]), then one module
    per script.  The theorems follow the definitions. *)

From stdpp Require Import gmap strings list fin_maps pretty.
From Stdlib Require Import ZArith Lia Ascii.

Open Scope string_scope.
Open Scope Z_scope.
Open Scope list_scope.

(** ** Python primitives *)
Module Py.

(** Exceptions deriving from [Exception].  [SystemExit] derives from
    [BaseException] only and is kept apart, in [outcome]. *)
Inductive exn :=
| IndexError (msg : string)
| KeyError (msg : string)
| TypeError (msg : string)
| TransportError (msg : string)   (* aiohttp.ClientError, httpx.TransportError, timeouts *)
| HTTPStatusError (status : Z)    (* httpx: raise_for_status *)
| RetryError                      (* tenacity: attempts exhausted *)
| ServiceError (msg : string).    (* google.cloud: a BigQuery or Storage call failed *)

(** [str(e)]. *)
Definition str_exn (e : exn) : string :=
  match e with
  | IndexError m | KeyError m | TypeError m | TransportError m | ServiceError m => m
  | HTTPStatusError s => "Client error '" +:+ pretty s +:+ "'"
  | RetryError => "RetryError"
  end.

(** How a call ends: it returns, it raises an [Exception], or it raises
    [SystemExit] with a status ([sys.exit(1)], [exit()]). *)
Inductive outcome (A : Type) :=
| Return (a : A)
| Raise (e : exn)
| SysExit (code : Z).
Arguments Return {A} a.
Arguments Raise {A} e.
Arguments SysExit {A} code.

Inductive level := INFO | WARNING | ERROR.

(** The effects a run leaves behind, in order. *)
Inductive event :=
| Log (l : level) (msg : string)   (* logger.info / warning / error *)
| Sleep (seconds : Z)              (* tenacity waiting between attempts *)
| Query (sql : string)             (* bigquery.Client().query(sql).result() *)
| Upload (blob : string)           (* a CSV written to the storage bucket *)
| Load (table : string).           (* a CSV loaded into a BigQuery table *)

(** A computation: its outcome and the trace of its effects. *)
Definition M (A : Type) : Type := outcome A * list event.

Definition ret {A} (a : A) : M A := (Return a, []).
Definition raise {A} (e : exn) : M A := (Raise e, []).
Definition sys_exit {A} (code : Z) : M A := (SysExit code, []).
Definition emit (ev : event) : M unit := (Return tt, [ev]).

Definition bind {A B} (c : M A) (k : A -> M B) : M B :=
  match c with
  | (Return a, t) => let '(r, t') := k a in (r, t ++ t')
  | (Raise e, t) => (Raise e, t)
  | (SysExit n, t) => (SysExit n, t)
  end.

#[export] Instance M_ret : MRet M := @ret.
#[export] Instance M_bind : MBind M := fun A B k c => bind c k.

(** [try: c except Exception as e: h e].  [SystemExit] is not an
    [Exception]: it passes through the handler. *)
Definition try_except {A} (c : M A) (h : exn -> M A) : M A :=
  match c with
  | (Raise e, t) => let '(r, t') := h e in (r, t ++ t')
  | other => other
  end.

(** The status the interpreter exits with when the script ends in [o]:
    0 after a normal end, the code of a [SystemExit], 1 after an uncaught
    exception. *)
Definition exit_status {A} (o : outcome A) : Z :=
  match o with
  | Return _ => 0
  | SysExit code => code
  | Raise _ => 1
  end.

(** *** Strings

    A [string] is a sequence of code points below 256, one [ascii] each. *)

(** [str.isspace] on one code point. *)
Definition isspace (c : ascii) : bool :=
  let n := nat_of_ascii c in
  ((9 <=? n) && (n <=? 13) || (28 <=? n) && (n <=? 32) || (n =? 133) || (n =? 160))%nat.

Fixpoint lstrip (s : string) : string :=
  match s with
  | String c s' => if isspace c then lstrip s' else s
  | EmptyString => EmptyString
  end.

Fixpoint rstrip (s : string) : string :=
  match s with
  | String c s' =>
      match rstrip s' with
      | EmptyString => if isspace c then EmptyString else String c EmptyString
      | r => String c r
      end
  | EmptyString => EmptyString
  end.

(** [s.strip()] *)
Definition strip (s : string) : string := rstrip (lstrip s).

(** [sub in s] *)
Fixpoint contains (sub s : string) : bool :=
  String.prefix sub s ||
  match s with
  | String _ s' => contains sub s'
  | EmptyString => false
  end.

(** [s[:n]] and [s[n:]] for [n >= 0]. *)
Fixpoint slice_to (n : nat) (s : string) : string :=
  match n, s with
  | S n', String c s' => String c (slice_to n' s')
  | _, _ => EmptyString
  end.

Fixpoint slice_from (n : nat) (s : string) : string :=
  match n, s with
  | S n', String _ s' => slice_from n' s'
  | _, _ => s
  end.

(** [s.split(sep)] for a non-empty [sep]: the text is cut at the
    occurrences of [sep] found from left to right, an occurrence starting
    only after the previous one has ended.  [skip] counts the characters
    of a matched separator still to be passed over.  The result is the
    first piece and the list of the following ones. *)
Fixpoint split_go (sep : string) (skip : nat) (s : string) : string * list string :=
  match s with
  | EmptyString => (EmptyString, [])
  | String c s' =>
      match skip with
      | S k => split_go sep k s'
      | O =>
          if String.prefix sep s
          then let '(h, t) := split_go sep (String.length sep - 1) s' in (EmptyString, h :: t)
          else let '(h, t) := split_go sep 0 s' in (String c h, t)
      end
  end.

Definition split (sep s : string) : list string :=
  let '(h, t) := split_go sep 0 s in h :: t.

(** [s.replace(old, new)] for a non-empty [old]. *)
Fixpoint replace_go (old new : string) (skip : nat) (s : string) : string :=
  match s with
  | EmptyString => EmptyString
  | String c s' =>
      match skip with
      | S k => replace_go old new k s'
      | O =>
          if String.prefix old s
          then new +:+ replace_go old new (String.length old - 1) s'
          else String c (replace_go old new 0 s')
      end
  end.

Definition replace (old new s : string) : string := replace_go old new 0 s.

(** The line feed and the double quote. *)
Definition LF : string := String "010"%char EmptyString.
Definition DQ : string := String "034"%char EmptyString.

(** [d[k]] on a dict *)
Definition getitem {V} (d : gmap string V) (k : string) : M V :=
  match d !! k with
  | Some v => ret v
  | None => raise (KeyError ("'" +:+ k +:+ "'"))
  end.

(** [for x in l: s = body x s] *)
Fixpoint for_each {A S} (l : list A) (body : A -> S -> M S) (s : S) : M S :=
  match l with
  | [] => ret s
  | x :: l' => s' ← body x s; for_each l' body s'
  end.

(** [l[i]] *)
Definition index {A} (l : list A) (i : nat) : M A :=
  match l !! i with
  | Some x => ret x
  | None => raise (IndexError "list index out of range")
  end.

(** The exception of an index past the end of a list. *)
Definition out_of_range : exn := IndexError "list index out of range".

(** [c] returns or raises an [Exception]: it never raises [SystemExit]. *)
Definition no_exit {A} (c : M A) : Prop := forall n, c.1 <> SysExit n.

End Py.

Import Py.

(** ** tenacity: the [@retry] decorator

    [@retry(stop=stop_after_attempt(n), wait=wait_exponential(multiplier,
    min, max))], with the library's defaults for what is left out: the
    exponent base is 2, every [Exception] is retried
    ([retry_if_exception_type()]), and [RetryError] is raised when the
    attempts are used up ([reraise=False]).  Attempts are numbered from 1. *)
Module Tenacity.

Record policy := Policy {
  max_attempt_number : nat;
  multiplier : Z;
  min : Z;
  max : Z
}.

(** [stop_after_attempt]: [attempt_number >= max_attempt_number]. *)
Definition stop_after_attempt (p : policy) (attempt_number : nat) : bool :=
  (max_attempt_number p <=? attempt_number)%nat.

(** [wait_exponential]:
    [max(max(0, min), min(multiplier * 2 ** (attempt_number - 1), max))]. *)
Definition wait_exponential (p : policy) (attempt_number : nat) : Z :=
  Z.max (Z.max 0 (min p))
        (Z.min (multiplier p * 2 ^ (Z.of_nat attempt_number - 1)) (max p)).

(** What an attempt can fail with. *)
Inductive failure :=
| Exc (e : exn)          (* an Exception: transient for the policy *)
| Exit (code : Z).       (* SystemExit: a BaseException, never retried *)

Inductive decision :=
| RetryAfter (delay : Z)
| GiveUp                 (* raise RetryError *)
| Reraise.               (* the failure is not retried: it propagates as it is *)

(** The decision taken after attempt [attempt_number] failed. *)
Definition decide (p : policy) (attempt_number : nat) (f : failure) : decision :=
  match f with
  | Exit _ => Reraise
  | Exc _ =>
      if stop_after_attempt p attempt_number then GiveUp
      else RetryAfter (wait_exponential p attempt_number)
  end.

(** The decorated function: [fn k] is the [k]-th call of the function
    that is wrapped.  [fuel] bounds the number of further attempts. *)
Fixpoint retry_go {A} (p : policy) (fuel : nat) (attempt_number : nat)
    (fn : nat -> M A) : M A :=
  let '(o, t) := fn attempt_number in
  match o with
  | Return a => (Return a, t)
  | SysExit code => (SysExit code, t)
  | Raise e =>
      match decide p attempt_number (Exc e), fuel with
      | RetryAfter d, S fuel' =>
          let '(r, t') := retry_go p fuel' (S attempt_number) fn in
          (r, t ++ Sleep d :: t')
      | Reraise, _ => (Raise e, t)
      | _, _ => (Raise RetryError, t)
      end
  end.

Definition retry {A} (p : policy) (fn : nat -> M A) : M A :=
  retry_go p (max_attempt_number p) 1 fn.

(** The delays slept in a trace, in order. *)
Definition sleeps (t : list event) : list Z :=
  omap (fun ev => match ev with Sleep d => Some d | _ => None end) t.

End Tenacity.

(** ** BeautifulSoup: the parsed document and the queries made on it *)
Module Bs4.

(** An attribute is a string, or a list of strings for a multi-valued
    attribute such as [class]. *)
Inductive attr_value :=
| AttrStr (s : string)
| AttrList (l : list string).

#[warnings="-register-all"] Inductive node :=
| Tag (name : string) (attrs : gmap string attr_value) (contents : list node)
| NavigableString (s : string).

Definition is_tag (n : node) : bool :=
  match n with Tag _ _ _ => true | NavigableString _ => false end.

Definition contents_of (n : node) : list node :=
  match n with Tag _ _ cs => cs | NavigableString _ => [] end.

(** [n.descendants]: the nodes below [n], in document order. *)
Fixpoint descendants (n : node) : list node :=
  match n with
  | Tag _ _ cs =>
      (fix go (l : list node) : list node :=
         match l with
         | [] => []
         | c :: l' => c :: descendants c ++ go l'
         end) cs
  | NavigableString _ => []
  end.

(** [n.text]: the strings below [n], joined. *)
Fixpoint text (n : node) : string :=
  match n with
  | Tag _ _ cs =>
      (fix go (l : list node) : string :=
         match l with
         | [] => EmptyString
         | c :: l' => text c +:+ go l'
         end) cs
  | NavigableString s => s
  end.

(** [" ".join(l)] *)
Fixpoint join_space (l : list string) : string :=
  match l with
  | [] => EmptyString
  | [x] => x
  | x :: l' => x +:+ " " +:+ join_space l'
  end.

(** A keyword filter [attr=wanted]: a string attribute must equal
    [wanted]; a multi-valued one matches when one of its values does, or
    when its values joined by spaces do. *)
Definition matches_value (a : attr_value) (wanted : string) : bool :=
  match a with
  | AttrStr s => String.eqb s wanted
  | AttrList l => existsb (fun x => String.eqb x wanted) l || String.eqb (join_space l) wanted
  end.

Definition matches (name : string) (filters : list (string * string)) (n : node) : bool :=
  match n with
  | Tag name' attrs _ =>
      String.eqb name' name &&
      forallb (fun '(k, wanted) =>
                 match attrs !! k with
                 | Some a => matches_value a wanted
                 | None => false
                 end) filters
  | NavigableString _ => false
  end.

(** [n.find_all(name, **filters)] *)
Definition find_all (n : node) (name : string) (filters : list (string * string)) : list node :=
  List.filter (matches name filters) (descendants n).

(** [n.find(name, **filters)]: the first match or [None]. *)
Definition find (n : node) (name : string) (filters : list (string * string)) : option node :=
  head (find_all n name filters).

(** [n.find_all(recursive=False)]: the tags among the children. *)
Definition find_all_children (n : node) : list node :=
  List.filter is_tag (contents_of n).

(** [n.get(key)] and [n.attrs] *)
Definition attrs_of (n : node) : gmap string attr_value :=
  match n with Tag _ a _ => a | NavigableString _ => ∅ end.

Definition get (n : node) (key : string) : option attr_value := attrs_of n !! key.

End Bs4.

(** ** asyncio: [gather] *)
Module Asyncio.

(** The order in which [n] concurrent tasks complete.  Any list of
    numbers names one: the tasks it lists complete first, in that order,
    the others after them. *)
Definition completion_order (sched : list nat) (n : nat) : list nat :=
  let named := reverse (remove_dups (reverse (List.filter (fun i => i <? n)%nat sched))) in
  named ++ list_difference (seq 0 n) named.

(** The tasks complete one after the other.  A result is stored in the
    slot of its task; the first task to raise ends the wait. *)
Fixpoint run_in_order {A} (tasks : list (M A)) (order : list nat)
    (slots : list (option A)) : M (list (option A)) :=
  match order with
  | [] => ret slots
  | i :: rest =>
      match tasks !! i with
      | Some t => x ← t; run_in_order tasks rest (<[i := Some x]> slots)
      | None => run_in_order tasks rest slots
      end
  end.

(** [await asyncio.gather] on the tasks: once every task is done the results
    are read off the tasks in the order they were given. *)
Definition gather {A} (tasks : list (M A)) (sched : list nat) : M (list A) :=
  slots ← run_in_order tasks (completion_order sched (length tasks))
                      (replicate (length tasks) None);
  ret (omap id slots).

End Asyncio.


(** ** The item page: what both copies of [scrape_item_details] do

    [scrape_item_details.py] (lines 32-167) and [replace_x_image_urls.py]
    (lines 41-174) hold the same function body, the first on aiohttp and
    the second on httpx.  [scrape_call] is one call of that body, before
    the retry decorator. *)
Module Scrape.
Import Bs4.

(** What [session.get(url)] gives: it raises, or a response arrives whose
    body BeautifulSoup parses into [soup]. *)
Inductive fetched :=
| GetRaises (e : exn)
| Response (status : Z) (soup : node).

Definition item_details_column_names : gmap string string :=
  list_to_map [
    ("nc_code", ""); ("brand_name", ""); ("effective_date", "");
    ("bottle_size", ""); ("proof", ""); ("bottles_per_case", "");
    ("upc", ""); ("retail_price", ""); ("mxb_price", "");
    ("case_cost_less_bailment", ""); ("distiller", "");
    ("product_image_url", "") ].

(** [element.get("class") == ["row"]] *)
Definition class_is_row (element : node) : bool :=
  match get element "class" with
  | Some (AttrList [c]) => String.eqb c "row"
  | _ => false
  end.

(** The body of [for element in product_listing_divs.find_all(recursive=False)];
    the state is the pair of [item_details_column_names] and
    [item_details_column_values]. *)
Definition element_step (element : node)
    (st : gmap string string * gmap string string)
    : M (gmap string string * gmap string string) :=
  let '(names, values) := st in
  if is_tag element then
    match find element "h3" [("class", "mt-5 pt-3")] with
    | Some _ =>
        let h3_tag_text := strip (text element) in
        let h3_tag_text_list := split " Effective Date: " h3_tag_text in
        brand ← index h3_tag_text_list 0;
        let names := <["brand_name" := brand]> names in
        date ← index h3_tag_text_list 1;
        ret (<["effective_date" := date]> names, values)
    | None =>
        if class_is_row element then
          let div_tag_text := strip (text element) in
          let new_line_div_tag_text :=
            List.filter (fun item => negb (String.eqb item "")) (split LF div_tag_text) in
          match new_line_div_tag_text with
          | [d1; value_1; d2; value_2] =>
              let desc_1 := replace ":" "" d1 in
              let desc_2 := replace ":" "" d2 in
              ret (names, <[desc_2 := value_2]> (<[desc_1 := value_1]> values))
          | [d1; value_1] =>
              let desc_1 := replace ":" "" d1 in
              ret (names, <[desc_1 := value_1]> values)
          | _ => ret (names, values)
          end
        else ret (names, values)
    end
  else ret (names, values).

(** The product image: [base_url + img_tag["src"]]. *)
Definition product_image (soup : node) (names : gmap string string)
    : M (gmap string string) :=
  match find soup "div" [("class", "row"); ("style", "padding:15px;")] with
  | Some img_div =>
      match find img_div "img" [] with
      | Some img_tag =>
          match attrs_of img_tag !! "src" with
          | Some (AttrStr product_image_url) =>
              let base_url := "https://abc2.nc.gov" in
              ret (<["product_image_url" := base_url +:+ product_image_url]> names)
          | Some (AttrList _) =>
              raise (TypeError ("can only concatenate str (not " +:+ DQ +:+ "list" +:+ DQ +:+ ") to str"))
          | None => ret names
          end
      | None => ret names
      end
  | None => ret names
  end.

(** [nc_code[:2] + "-" + nc_code[2:]] *)
Definition nc_code_with_dash (nc_code : string) : string :=
  slice_to 2 nc_code +:+ "-" +:+ slice_from 2 nc_code.

(** [if label in values: names[field] = values[label]] *)
Definition copy_field (label field : string)
    (values names : gmap string string) : gmap string string :=
  match values !! label with
  | Some v => <[field := v]> names
  | None => names
  end.

(** "Clean up and assign values to the dictionary". *)
Definition assign_values (values names : gmap string string) : gmap string string :=
  let names :=
    match values !! "NC Code" with
    | Some nc_code => <["nc_code" := nc_code_with_dash nc_code]> names
    | None => names
    end in
  let names := copy_field "Bottle Size" "bottle_size" values names in
  let names := copy_field "Proof" "proof" values names in
  let names := copy_field "Bottles per Case" "bottles_per_case" values names in
  let names := copy_field "UPC" "upc" values names in
  let names := copy_field "Retail Price" "retail_price" values names in
  let names := copy_field "Mixed Beverage Price" "mxb_price" values names in
  let names := copy_field "Case Cost Less Bailment" "case_cost_less_bailment" values names in
  copy_field "Distiller" "distiller" values names.

(** From the parsed page to the dictionary that is returned. *)
Definition parse_page (url : string) (soup : node) : M (gmap string string) :=
  let item_details_div :=
    find_all soup "div" [("class", "container"); ("style", "min-height:70vh;")] in
  match item_details_div with
  | [] =>
      _ ← emit (Log WARNING ("No item details div found for " +:+ url));
      ret item_details_column_names
  | product_listing_divs :: _ =>
      '(names, values) ← for_each (find_all_children product_listing_divs) element_step
                                  (item_details_column_names, ∅);
      names ← product_image soup names;
      ret (assign_values values names)
  end.

(** One call of the function: the [try] block and its [except Exception]. *)
Definition scrape_call (r : fetched) (url : string) : M (gmap string string) :=
  try_except
    (match r with
     | GetRaises e => raise e
     | Response status soup =>
         _ ← emit (Log INFO ("Scraping " +:+ url));
         if negb (status =? 200) then
           _ ← emit (Log ERROR ("Failed to fetch " +:+ url +:+ ": Status " +:+ pretty status));
           sys_exit 1
         else parse_page url soup
     end)
    (fun e =>
       _ ← emit (Log ERROR ("Error scraping " +:+ url +:+ ": " +:+ str_exn e));
       sys_exit 1).

(** The request itself failed: [session.get] raised, or the status is
    not 200. *)
Definition fetch_failed (r : fetched) : bool :=
  match r with
  | GetRaises _ => true
  | Response status _ => negb (status =? 200)
  end.

(** [@retry(stop=stop_after_attempt(3), wait=wait_exponential(multiplier=1, min=4, max=10))] *)
Definition scrape_policy : Tenacity.policy := Tenacity.Policy 3 1 4 10.

(** The decorated function.  [net k] is what the [k]-th request for the
    page gives. *)
Definition scrape_item_details (net : nat -> fetched) (url : string) : M (gmap string string) :=
  Tenacity.retry scrape_policy (fun k => scrape_call (net k) url).

End Scrape.

(** ** scrape_item_details.py *)
Module ItemDetails.
Import Scrape.

(** The network seen by one batch: [net i k] answers the [k]-th request
    of the [i]-th task. *)
Definition network := nat -> nat -> fetched.

Definition scrape_item_details := Scrape.scrape_item_details.

(** [process_urls]: one task per url, gathered.  [sched] is the order in
    which the concurrent tasks complete. *)
Definition process_urls (net : network) (sched : list nat) (urls : list string)
    : M (list (gmap string string)) :=
  let tasks := imap (fun i url => scrape_item_details (net i) url) urls in
  Asyncio.gather tasks sched.

(** The collaborators of [main]: what the three cloud calls do. *)
Record services := Services {
  item_details_urls : exn + list string;  (* bigquery_to_df(query)["item_details_url"] *)
  upload_error : option exn;              (* blob.upload_from_string raises *)
  load_error : option exn                 (* load_job.result() raises *)
}.

Definition query : string :=
  "
    SELECT
        item_details_url
    FROM
        `agile-planet-462621-j7`.nc_abc.product_pricing_list ppl
    ".

Definition bigquery_to_df (sv : services) : M (list string) :=
  _ ← emit (Query query);
  match item_details_urls sv with
  | inl e => raise e
  | inr urls => ret urls
  end.

(** The upload catches its own exceptions and prints them. *)
Definition df_to_gcloud_storage_bucket (sv : services) (blob_name : string) : M unit :=
  try_except
    (match upload_error sv with
     | Some e => raise e
     | None => emit (Upload blob_name)
     end)
    (fun _ => ret tt).

Definition load_csv_to_bigquery (sv : services) (table_id : string) : M unit :=
  match load_error sv with
  | Some e => raise e
  | None => emit (Load table_id)
  end.

Definition columns : list string :=
  [ "brand_name"; "effective_date"; "nc_code"; "bottle_size"; "proof";
    "bottles_per_case"; "upc"; "retail_price"; "mxb_price";
    "case_cost_less_bailment"; "distiller"; "product_image_url" ].

(** [result] holds every column that is read from it. *)
Definition has_columns (result : gmap string string) : Prop :=
  Forall (fun k => is_Some (result !! k)) columns.

(** "Process results": the twelve [result[column]] reads of one result. *)
Definition read_result (result : gmap string string) : M (list string) :=
  mapM (getitem result) columns.

Definition main (sv : services) (net : network) (sched : list nat) : M unit :=
  urls ← bigquery_to_df sv;
  results ← process_urls net sched urls;
  _ ← for_each results (fun result rows => row ← read_result result; ret (rows ++ [row])) [];
  _ ← df_to_gcloud_storage_bucket sv "nc-abc-bucket/individual_item_details.csv";
  load_csv_to_bigquery sv "item_details".

(** [if __name__ == "__main__"]: any [Exception] ends in [sys.exit(1)]. *)
Definition script (sv : services) (net : network) (sched : list nat) : M unit :=
  try_except (main sv net sched) (fun _ => sys_exit 1).

End ItemDetails.

(** ** replace_x_image_urls.py *)
Module XImage.
Import Scrape.

Definition network := nat -> nat -> fetched.

Definition scrape_item_details := Scrape.scrape_item_details.

(** [process_urls]: the urls are scraped one after the other, each result
    appended.  [i] is the position of the next url. *)
Fixpoint process_urls_from (net : network) (i : nat) (urls : list string)
    (results : list (gmap string string)) : M (list (gmap string string)) :=
  match urls with
  | [] => ret results
  | url :: rest =>
      result ← scrape_item_details (net i) url;
      process_urls_from net (S i) rest (results ++ [result])
  end.

Definition process_urls (net : network) (urls : list string) : M (list (gmap string string)) :=
  process_urls_from net 0 urls [].

(** A row of [df]: the columns the script reads. *)
Record row := Row {
  nc_code : string;
  item_details_url : option string      (* None: NULL in the table *)
}.

(** [if url and url.strip()] *)
Definition valid_url (r : row) : bool :=
  match item_details_url r with
  | Some url => negb (String.eqb url "") && negb (String.eqb (strip url) "")
  | None => false
  end.

Definition sentinel : string := "x-raw-image:".

(** [replace_x_raw_image_urls()] *)
Definition replace_x_raw_image_urls (df : list row) (net : network)
    : M (list string * list string) :=
  let valid_urls := omap item_details_url (List.filter valid_url df) in
  match valid_urls with
  | [] => ret ([], [])
  | _ =>
      results ← process_urls net valid_urls;
      let nc_code_list := (fun result => default "" (result !! "nc_code")) <$> results in
      let image_url_list := (fun result => default "" (result !! "product_image_url")) <$> results in
      ret (nc_code_list, image_url_list)
  end.

Definition update_query : string :=
  "
            UPDATE `agile-planet-462621-j7`.nc_abc.backfill_missing_image_urls
                SET image_url = '{image_url}'
            WHERE nc_code = '{nc_code}'
            ".

(** The warehouse: [sink sql] is the exception the statement [sql] fails
    with, if it fails. *)
Definition warehouse := string -> option exn.

(** [client.query(sql).result()] *)
Definition run_query (sink : warehouse) (sql : string) : M unit :=
  _ ← emit (Query sql);
  match sink sql with
  | Some e => raise e
  | None => ret tt
  end.

(** [for nc_code, image_url in zip(...)]: the variable [update_query] is
    assigned the substituted text and carried to the next iteration. *)
Fixpoint update_loop (sink : warehouse) (update_query : string)
    (pairs : list (string * string)) : M unit :=
  match pairs with
  | [] => ret tt
  | (nc_code, image_url) :: rest =>
      let update_query :=
        replace "{nc_code}" nc_code (replace "{image_url}" image_url update_query) in
      _ ← run_query sink update_query;
      update_loop sink update_query rest
  end.

(** The statement the template gives for one pair. *)
Definition statement (nc_code image_url : string) : string :=
  replace "{nc_code}" nc_code (replace "{image_url}" image_url update_query).

(** What [UPDATE ... SET image_url = v WHERE nc_code = k] does to the
    rows (nc_code, image_url) of the table. *)
Definition apply_update (k v : string) (rows : list (string * string)) : list (string * string) :=
  (fun r => if String.eqb r.1 k then (r.1, v) else r) <$> rows.

(** The loop state: the flag, and how many times the pages have been
    scraped so far ([world] is indexed by it). *)
Record state := State {
  no_x_raw_image_urls : bool;
  passes : nat
}.

(** The body of [while not no_x_raw_image_urls].  [world n] is the network
    during the [n]-th scrape of the run, counted from 0.  The handler's
    [exit()] leaves with status 0. *)
Definition loop_body (df : list row) (world : nat -> network) (sink : warehouse)
    (st : state) : M state :=
  try_except
    ('(nc_code_list, image_url_list) ← replace_x_raw_image_urls df (world (passes st));
     '(nc_code_list, image_url_list, n) ←
        (if existsb (contains sentinel) image_url_list
         then lists ← replace_x_raw_image_urls df (world (S (passes st)));
              ret (lists, S (S (passes st)))
         else ret (nc_code_list, image_url_list, S (passes st)));
     _ ← update_loop sink update_query (zip nc_code_list image_url_list);
     ret (State true n))
    (fun _ => sys_exit 0).

(** The [while] loop, unrolled at most [fuel] times; [None] when the
    flag is still unset after that. *)
Fixpoint while_loop (fuel : nat) (df : list row) (world : nat -> network)
    (sink : warehouse) (st : state) : M (option state) :=
  if no_x_raw_image_urls st then ret (Some st)
  else
    match fuel with
    | O => ret None
    | S fuel' =>
        st' ← loop_body df world sink st;
        while_loop fuel' df world sink st'
    end.

(** The statement that rebuilds [final_product_list]; the model does not
    read SQL, only its first line is kept. *)
Definition etl_query : string :=
  "TRUNCATE TABLE `agile-planet-462621-j7`.nc_abc.final_product_list; INSERT INTO ...".

(** The statement of the module level, which lists the products whose
    stored image is the placeholder; the model does not read SQL, only
    its last lines are kept. *)
Definition query : string :=
  "SELECT pqc.nc_code, pqc.item_details_url, CONCAT(...) AS code_and_query FROM products_query_concat pqc INNER JOIN `agile-planet-462621-j7`.nc_abc.backfill_missing_image_urls ppl ON 1 = 1 AND ppl.nc_code = pqc.nc_code AND LOWER(ppl.image_url) LIKE '%x-raw-image%' WHERE 1 = 1".

(** [df = bigquery_to_df(query)], run when the module is loaded:
    [df_result] is what the warehouse answers. *)
Definition bigquery_to_df (df_result : exn + list row) : M (list row) :=
  _ ← emit (Query query);
  match df_result with
  | inl e => raise e
  | inr df => ret df
  end.

(** The script: the module-level query, the loop, the ETL statement. *)
Definition script (fuel : nat) (df_result : exn + list row)
    (world : nat -> network) (sink : warehouse) : M (option state) :=
  df ← bigquery_to_df df_result;
  st ← while_loop fuel df world sink (State false 0);
  match st with
  | Some _ => _ ← run_query sink etl_query; ret st
  | None => ret None
  end.

End XImage.

(** ** replace_missing_urls.py *)
Module MissingUrls.

(** What one request to the search API gives. *)
Inductive api_response :=
| GetRaises (e : exn)                          (* the API cannot be reached *)
| Response (status : Z)                        (* 429 when rate limited *)
           (items : option (list (gmap string string))).  (* response.json().get("items") *)

(** [httpx.Response.raise_for_status]: a status outside 2xx raises. *)
Definition raise_for_status (status : Z) : M unit :=
  if (200 <=? status) && (status <? 300) then ret tt
  else raise (HTTPStatusError status).

(** The answer is a success without any item. *)
Definition found_nothing (r : api_response) : bool :=
  match r with
  | Response status items =>
      (200 <=? status) && (status <? 300) &&
      match default [] items with [] => true | _ => false end
  | GetRaises _ => false
  end.

(** One call of the function, before the retry decorator. *)
Definition search_call (r : api_response) (query nc_code : string) : M string :=
  try_except
    (_ ← emit (Log INFO ("Searching for " +:+ nc_code +:+ "~" +:+ query +:+ "..."));
     match r with
     | GetRaises e => raise e
     | Response status items =>
         _ ← raise_for_status status;
         first ← index (default [] items) 0;
         image_url ← getitem first "link";
         _ ← emit (Log INFO ("Found image URL for " +:+ nc_code +:+ "~" +:+ query +:+ ": " +:+ image_url));
         ret (nc_code +:+ "~" +:+ image_url)
     end)
    (fun e =>
       _ ← emit (Log ERROR ("Error finding image URL for " +:+ nc_code +:+ "~" +:+ query +:+ ": " +:+ str_exn e));
       raise e).

(** [@retry(stop=stop_after_attempt(30), wait=wait_exponential(multiplier=1, min=4, max=15))] *)
Definition search_policy : Tenacity.policy := Tenacity.Policy 30 1 4 15.

(** The decorated function: [api k] answers the [k]-th request. *)
Definition google_custom_image_search (api : nat -> api_response)
    (query nc_code : string) : M string :=
  Tenacity.retry search_policy (fun k => search_call (api k) query nc_code).

End MissingUrls.

(** ** Sample pages and runs, for the examples *)
Module Fixtures.
Import Bs4 Scrape.

(** <div><h3 class="mt-5 pt-3">t</h3></div> *)
Definition heading_block (t : string) : node :=
  Tag "div" ∅ [Tag "h3" (<["class" := AttrList ["mt-5"; "pt-3"]]> ∅) [NavigableString t]].

(** <div class="row">t</div> *)
Definition row_block (t : string) : node :=
  Tag "div" (<["class" := AttrList ["row"]]> ∅) [NavigableString t].

(** <div class="row" style="padding:15px;"><img src=...></div> *)
Definition image_block (src : string) : node :=
  Tag "div" (<["class" := AttrList ["row"]]> (<["style" := AttrStr "padding:15px;"]> ∅))
      [Tag "img" (<["src" := AttrStr src]> ∅) []].

(** <div class="container" style="min-height:70vh;">...</div> *)
Definition container (cs : list node) : node :=
  Tag "div" (<["class" := AttrList ["container"]]> (<["style" := AttrStr "min-height:70vh;"]> ∅)) cs.

Definition document (cs : list node) : node :=
  Tag "[document]" ∅ [Tag "html" ∅ [Tag "body" ∅ cs]].

(** A page of the catalog with the given code and image. *)
Definition item_page (code src : string) : node :=
  document [container [
    heading_block "Brand X Effective Date: 05/01/2025";
    row_block (LF +:+ "NC Code:" +:+ LF +:+ code +:+ LF +:+ "Proof:" +:+ LF +:+ "80" +:+ LF);
    image_block src ]].

Definition good_page : node := item_page "NC0001" "/images/a.jpg".

(** A page without the container block. *)
Definition empty_page : node := document [Tag "p" ∅ [NavigableString "Not found"]].

(** A page whose heading has no effective date. *)
Definition undated_page : node := document [container [heading_block "Brand X"]].

(** A page whose image is the placeholder. *)
Definition placeholder_page : node := item_page "NC0001" "/x-raw-image:///a".

(** Every request is answered by the same page. *)
Definition always (page : node) : ItemDetails.network := fun _ _ => Response 200 page.

(** The first task is refused, the others get [good_page]. *)
Definition first_refused : ItemDetails.network :=
  fun i _ => match i with O => Response 404 empty_page | S _ => Response 200 good_page end.

(** The cloud services all work. *)
Definition working (urls : list string) : ItemDetails.services :=
  ItemDetails.Services (inr urls) None None.

(** A warehouse that accepts every statement. *)
Definition accepting : XImage.warehouse := fun _ => None.

(** One row to resolve. *)
Definition one_row : list XImage.row :=
  [XImage.Row "NC-0001" (Some "https://abc2.nc.gov/pricing/details/1")].

(** The page shows the placeholder at every scrape. *)
Definition stuck : nat -> XImage.network := fun _ => always placeholder_page.

(** The page shows the placeholder at the first scrape and an image from
    the second on. *)
Definition resolving : nat -> XImage.network :=
  fun pass => match pass with O => always placeholder_page | S _ => always good_page end.

(** No item is found, at any attempt. *)
Definition no_items : nat -> MissingUrls.api_response :=
  fun _ => MissingUrls.Response 200 (Some []).

End Fixtures.

(** ** What a run leaves in its trace *)
Module Trace.

Definition is_log (ev : event) : bool :=
  match ev with Log _ _ => true | _ => false end.

(** [c] leaves log lines only: it does not sleep, and does not reach the
    warehouse or the bucket. *)
Definition only_logs {A} (c : M A) : Prop := Forall (fun ev => is_log ev = true) c.2.

End Trace.

(** ** replace_missing_urls.py: the batch and the script *)
Module MissingUrlsMain.
Import MissingUrls.

(** The API seen by one batch: [api i k] answers the [k]-th request of
    the [i]-th task. *)
Definition network := nat -> nat -> api_response.

(** The arguments of one call in the comprehension of [process_urls]:
    [nc_code=code_and_query.split("~")[0]] and
    [query=code_and_query.split("~")[1]], in that order. *)
Definition task_arguments (code_and_query : string) : M (string * string) :=
  nc_code ← index (split "~" code_and_query) 0;
  query ← index (split "~" code_and_query) 1;
  ret (nc_code, query).

(** [process_urls]: the arguments of every call are computed while the
    list of tasks is built, then the tasks are gathered. *)
Definition process_urls (api : network) (sched : list nat)
    (code_and_query_list : list string) : M (list string) :=
  arguments ← mapM task_arguments code_and_query_list;
  Asyncio.gather
    (imap (fun i '(nc_code, query) => google_custom_image_search (api i) query nc_code)
          arguments)
    sched.

(** The collaborators of the script.  The rows of [code_and_query] are
    taken to be strings. *)
Record services := Services {
  code_and_query_list : exn + list string;  (* bigquery_to_df(query)["code_and_query"].tolist() *)
  upload_error : option exn;                (* blob.upload_from_string raises *)
  load_error : option exn                   (* load_job.result() raises *)
}.

(** The statement that lists the products without an image; the model
    does not read SQL, only its last lines are kept. *)
Definition query : string :=
  "SELECT CONCAT(pqc.nc_code, '~', pqc.query) AS code_and_query FROM products_query_concat pqc WHERE 1 = 1 AND pqc.product_image_url IS NULL;".

Definition bigquery_to_df (sv : services) : M (list string) :=
  _ ← emit (Query query);
  match code_and_query_list sv with
  | inl e => raise e
  | inr l => ret l
  end.

(** The upload catches its own exceptions and prints them. *)
Definition df_to_gcloud_storage_bucket (sv : services) (blob_name : string) : M unit :=
  try_except
    (match upload_error sv with
     | Some e => raise e
     | None => emit (Upload blob_name)
     end)
    (fun _ => ret tt).

Definition load_csv_to_bigquery (sv : services) (table_id : string) : M unit :=
  match load_error sv with
  | Some e => raise e
  | None => emit (Load table_id)
  end.

(** [[result.split("~")[0] for result in results]] and
    [[result.split("~")[1] for result in results]]: the two columns of the
    frame that is uploaded. *)
Definition backfill_columns (results : list string) : M (list string * list string) :=
  nc_code_list ← mapM (fun result => index (split "~" result) 0) results;
  image_url_list ← mapM (fun result => index (split "~" result) 1) results;
  ret (nc_code_list, image_url_list).

(** [if __name__ == "__main__"]: nothing is caught here. *)
Definition script (sv : services) (api : network) (sched : list nat) : M unit :=
  l ← bigquery_to_df sv;
  results ← process_urls api sched l;
  _ ← backfill_columns results;
  _ ← df_to_gcloud_storage_bucket sv "nc-abc-bucket/image_url_backfill.csv";
  load_csv_to_bigquery sv "backfill_missing_image_urls".

End MissingUrlsMain.

(** ** scrape_pricing_site.py *)
Module PricingSite.
Import Bs4.

(** [create_list_from_abc_request]: [r] is what [requests.get(url)] gives;
    the status is not looked at.  Iterating a tag gives its children. *)
Definition create_list_from_abc_request (r : Scrape.fetched) : M (list node) :=
  match r with
  | Scrape.GetRaises e => raise e
  | Scrape.Response _ soup =>
      let table_of_divs := find_all soup "div" [("class", "container table-responsive")] in
      if (1 <? length table_of_divs)%nat then sys_exit 1
      else
        product_listing_divs ← index table_of_divs 0;
        ret (contents_of product_listing_divs)
  end.

(** The dictionary of the ten columns, each an empty list.  A cell is a
    string or [None]. *)
Definition quarterly_pricing_list_column_names : gmap string (list (option string)) :=
  list_to_map [
    ("nc_code", []); ("supplier", []); ("brand_name", []); ("age", []);
    ("proof", []); ("size", []); ("retail_price", []); ("mxb_price", []);
    ("product_category", []); ("item_details_url", []) ].

(** [columns[k].append(v)] *)
Definition append (k : string) (v : option string)
    (columns : gmap string (list (option string))) : M (gmap string (list (option string))) :=
  l ← getitem columns k;
  ret (<[k := l ++ [v]]> columns).

(** [l[1 : len(l) - 1]] *)
Definition inner {A} (l : list A) : list A := take (length l - 2) (drop 1 l).

(** [tag_element.get("class") == cs] *)
Definition class_is (tag_element : node) (cs : list string) : bool :=
  match get tag_element "class" with
  | Some (AttrList l) => bool_decide (l = cs)
  | _ => false
  end.

(** [columns[k].append(values[i])] *)
Definition append_value (k : string) (values : list string) (i : nat)
    (columns : gmap string (list (option string))) : M (gmap string (list (option string))) :=
  l ← getitem columns k;
  v ← index values i;
  ret (<[k := l ++ [Some v]]> columns).

(** The body of [for tag_element in abc_list]; the state is the
    dictionary and [product_category].  BeautifulSoup keeps [onclick] as
    one string; on a list of strings [.replace] would fail with
    AttributeError, which is carried here by [TypeError]. *)
Definition tag_step (tag_element : node)
    (st : gmap string (list (option string)) * option string)
    : M (gmap string (list (option string)) * option string) :=
  let '(columns, product_category) := st in
  if is_tag tag_element then
    match find tag_element "h5" [] with
    | Some h5_element => ret (columns, Some (text h5_element))
    | None =>
        if class_is tag_element ["row"; "font-weight-bold"] then ret (columns, product_category)
        else if class_is tag_element ["list-generic"; "row"] then
          let quarterly_pricing_list_values := inner (split LF (text tag_element)) in
          match get tag_element "onclick" with
          | Some (AttrStr onclick_attr) =>
              if String.eqb onclick_attr "" then ret (columns, product_category)
              else
                let onclick_text :=
                  replace "'" "" (replace "window.location = '" "" onclick_attr) in
                let base_url := "https://abc2.nc.gov" in
                let item_details_url := base_url +:+ onclick_text in
                columns ← append_value "nc_code" quarterly_pricing_list_values 0 columns;
                columns ← append_value "supplier" quarterly_pricing_list_values 1 columns;
                columns ← append_value "brand_name" quarterly_pricing_list_values 2 columns;
                columns ← append_value "age" quarterly_pricing_list_values 3 columns;
                columns ← append_value "proof" quarterly_pricing_list_values 4 columns;
                columns ← append_value "size" quarterly_pricing_list_values 5 columns;
                columns ← append_value "retail_price" quarterly_pricing_list_values 6 columns;
                columns ← append_value "mxb_price" quarterly_pricing_list_values 7 columns;
                columns ← append "product_category" product_category columns;
                columns ← append "item_details_url" (Some item_details_url) columns;
                ret (columns, product_category)
          | Some (AttrList (_ :: _)) =>
              raise (TypeError "'list' object has no attribute 'replace'")
          | Some (AttrList []) | None => ret (columns, product_category)
          end
        else ret (columns, product_category)
    end
  else ret (columns, product_category).

(** [convert_abc_list_to_df]: the dictionary the frame is built from. *)
Definition convert_abc_list_to_df (abc_list : list node)
    : M (gmap string (list (option string))) :=
  '(columns, _) ← for_each abc_list tag_step (quarterly_pricing_list_column_names, None);
  ret columns.

(** The collaborators of the script. *)
Record services := Services {
  bucket_error : option exn;     (* bucket.reload() raises *)
  page : Scrape.fetched;         (* requests.get(url) *)
  upload_error : option exn;     (* blob.upload_from_string raises *)
  load_error : option exn        (* load_job.result() raises *)
}.

(** Both catch their own exceptions and answer with a boolean. *)
Definition check_bucket_access (sv : services) : M bool :=
  try_except
    (match bucket_error sv with
     | Some e => raise e
     | None => ret true
     end)
    (fun _ => ret false).

Definition df_to_gcloud_bigquery (sv : services) (blob_name : string) : M bool :=
  try_except
    (match upload_error sv with
     | Some e => raise e
     | None => _ ← emit (Upload blob_name); ret true
     end)
    (fun _ => ret false).

Definition load_csv_to_bigquery (sv : services) (table_id : string) : M unit :=
  match load_error sv with
  | Some e => raise e
  | None => emit (Load table_id)
  end.

(** The columns of the frame, in the order of the dictionary. *)
Definition column_names : list string :=
  [ "nc_code"; "supplier"; "brand_name"; "age"; "proof"; "size"; "retail_price";
    "mxb_price"; "product_category"; "item_details_url" ].

(** Every column holds [n] cells: [pd.DataFrame] accepts the dictionary
    and the frame has [n] rows. *)
Definition rectangular (n : nat) (columns : gmap string (list (option string))) : Prop :=
  Forall (fun k => exists l, columns !! k = Some l /\ length l = n) column_names.

(** The category an element announces: the text of its first [h5]. *)
Definition heading_of (tag_element : node) : option string :=
  if is_tag tag_element then text <$> find tag_element "h5" [] else None.

(** [if __name__ == "__main__"]; the value is the frame that was built,
    if one was. *)
Definition script (sv : services) : M (option (gmap string (list (option string)))) :=
  ok ← check_bucket_access sv;
  if (ok : bool) then
    products_pricing_list ← create_list_from_abc_request (page sv);
    products_df ← convert_abc_list_to_df products_pricing_list;
    _ ← df_to_gcloud_bigquery sv "nc-abc-bucket/abc_pricing_list.csv";
    _ ← load_csv_to_bigquery sv "product_pricing_list";
    ret (Some products_df)
  else ret None.

End PricingSite.

(** ** Sample pricing pages and answers of the search API *)
Module MoreFixtures.
Import Bs4.

(** <div><h5>t</h5></div> *)
Definition category_block (t : string) : node :=
  Tag "div" ∅ [Tag "h5" ∅ [NavigableString t]].

(** <div class="row font-weight-bold">...</div> *)
Definition header_block : node :=
  Tag "div" (<["class" := AttrList ["row"; "font-weight-bold"]]> ∅) [NavigableString "NC Code"].

(** <div class="list-generic row" onclick="window.location = '/Pricing/Details/id'">
    with one line per value. *)
Definition product_block (id : string) (values : list string) : node :=
  Tag "div" (<["class" := AttrList ["list-generic"; "row"]]>
             (<["onclick" := AttrStr ("window.location = '/Pricing/Details/" +:+ id +:+ "'")]> ∅))
      [NavigableString (LF +:+ foldr (fun v s => v +:+ LF +:+ s) "" values)].

(** <div class="container table-responsive">...</div> *)
Definition table (cs : list node) : node :=
  Tag "div" (<["class" := AttrList ["container"; "table-responsive"]]> ∅) cs.

Definition whiskey : list string :=
  ["00-123"; "Supplier A"; "Brand X"; "4"; "80"; "750ML"; "$19.95"; "$21.95"].

(** A price list with one category and one product under it. *)
Definition price_list : node :=
  Fixtures.document [table [
    NavigableString LF;
    category_block "Bourbon";
    header_block;
    product_block "123" whiskey ]].

(** The services all work and the price list is served. *)
Definition pricing_services (page : Scrape.fetched) : PricingSite.services :=
  PricingSite.Services None page None None.

(** An answer of the search API with one item. *)
Definition one_item (link : string) : MissingUrls.api_response :=
  MissingUrls.Response 200 (Some [{["link" := link]}]).

(** The API is rate limited twice, then finds the image. *)
Definition third_time (link : string) : nat -> MissingUrls.api_response :=
  fun k => if (k <? 3)%nat then MissingUrls.Response 429 None else one_item link.

End MoreFixtures.

Example split_ex1 : split " Effective Date: " "Brand X Effective Date: 05/01/2025" = ["Brand X"; "05/01/2025"].
Proof. reflexivity. Qed.
Example split_ex2 : split LF ("a" +:+ LF +:+ LF +:+ "b") = ["a"; ""; "b"].
Proof. reflexivity. Qed.
Example strip_ex : strip "  ab c
 " = "ab c".
Proof. reflexivity. Qed.
Example replace_ex : replace ":" "" "NC Code:" = "NC Code".
Proof. reflexivity. Qed.

(** * Theorems *)

Section StringFacts.

Lemma prefix_empty (s : string) : String.prefix "" s = true.
Proof. destruct s; reflexivity. Qed.

Lemma prefix_of_empty (sub : string) : String.prefix sub "" = true -> sub = "".
Proof. destruct sub; [reflexivity | discriminate]. Qed.

Lemma prefix_cons a sub c s :
  String.prefix (String a sub) (String c s) = true <-> a = c /\ String.prefix sub s = true.
Proof.
  simpl. destruct (ascii_dec a c) as [->|Hne]; split; intros H.
  - auto.
  - tauto.
  - discriminate.
  - tauto.
Qed.

Lemma contains_cons sub c s :
  contains sub (String c s) = String.prefix sub (String c s) || contains sub s.
Proof. reflexivity. Qed.

Lemma split_go_absent sep s :
  contains sep s = false -> split_go sep 0 s = (s, []).
Proof.
  induction s as [|c s IH]; intros H.
  - reflexivity.
  - rewrite contains_cons in H. apply orb_false_iff in H as [Hp Hc].
    cbn [split_go]. rewrite Hp, (IH Hc). reflexivity.
Qed.

Lemma split_absent sep s : contains sep s = false -> split sep s = [s].
Proof. intros H. unfold split. rewrite (split_go_absent _ _ H). reflexivity. Qed.

Lemma contains_lstrip sub s : contains sub (lstrip s) = true -> contains sub s = true.
Proof.
  induction s as [|c s IH]; [exact id|].
  cbn [lstrip]. destruct (isspace c); [|exact id].
  intros H. rewrite contains_cons, (IH H). apply orb_true_r.
Qed.

Lemma prefix_rstrip sub s : String.prefix sub (rstrip s) = true -> String.prefix sub s = true.
Proof.
  revert sub. induction s as [|c s IH]; intros sub; [exact id|].
  destruct sub as [|a sub]; [intros _; apply prefix_empty|].
  cbn [rstrip]. destruct (rstrip s) as [|c' r] eqn:Hr.
  - destruct (isspace c); [discriminate|].
    rewrite !prefix_cons. intros [-> H]. apply prefix_of_empty in H as ->.
    split; [reflexivity | apply prefix_empty].
  - rewrite !prefix_cons. intros [-> H]. split; [reflexivity | exact (IH _ H)].
Qed.

Lemma contains_rstrip sub s : contains sub (rstrip s) = true -> contains sub s = true.
Proof.
  induction s as [|c s IH]; [exact id|].
  intros H. rewrite contains_cons.
  destruct (String.prefix sub (String c s)) eqn:Hp; [reflexivity|]. cbn [orb].
  assert (Hnp : String.prefix sub (rstrip (String c s)) = false).
  { destruct (String.prefix sub (rstrip (String c s))) eqn:E; [|reflexivity].
    apply prefix_rstrip in E. congruence. }
  revert H Hnp. cbn [rstrip]. destruct (rstrip s) as [|c' r] eqn:Hr.
  - destruct (isspace c).
    + cbn. intros H1 H2. rewrite H2 in H1. discriminate.
    + intros H1 H2. rewrite contains_cons, H2 in H1. cbn in H1.
      rewrite orb_false_r in H1. apply prefix_of_empty in H1 as ->.
      destruct s; reflexivity.
  - intros H1 H2. rewrite contains_cons, H2 in H1. exact (IH H1).
Qed.

Lemma contains_strip sub s : contains sub s = false -> contains sub (strip s) = false.
Proof.
  intros H. destruct (contains sub (strip s)) eqn:E; [|reflexivity].
  apply contains_rstrip, contains_lstrip in E. congruence.
Qed.

Lemma replace_go_absent old new s :
  contains old s = false -> replace_go old new 0 s = s.
Proof.
  induction s as [|c s IH]; intros H; [reflexivity|].
  rewrite contains_cons in H. apply orb_false_iff in H as [Hp Hc].
  cbn [replace_go]. rewrite Hp, (IH Hc). reflexivity.
Qed.

End StringFacts.

(** ** The monad *)
Section MonadFacts.
Context {A B : Type}.

Lemma bind_unfold (c : M A) (k : A -> M B) : (c ≫= k) = bind c k.
Proof. reflexivity. Qed.

Lemma bind_return (a : A) (t : list event) (k : A -> M B) :
  ((Return a, t) : M A) ≫= k = ((k a).1, t ++ (k a).2).
Proof. rewrite bind_unfold. cbn. destruct (k a); reflexivity. Qed.



Lemma bind_fst (c : M A) (k : A -> M B) :
  (c ≫= k).1 =
  match c.1 with
  | Return a => (k a).1
  | Raise e => Raise e
  | SysExit n => SysExit n
  end.
Proof. destruct c as [[a|e|n] t]; [rewrite bind_return|..]; reflexivity. Qed.

(** An outcome that is seen to be a return holds a value. *)
Lemma outcome_returns (o : outcome A) :
  match o with Return _ => true | _ => false end = true -> exists a, o = Return a.
Proof. destruct o; [eexists; reflexivity | discriminate..]. Qed.

End MonadFacts.

(** ** The retry policy *)
Section RetryPolicy.
Import Tenacity.
Variable p : policy.
Hypothesis multiplier_nonneg : 0 <= multiplier p.
Hypothesis window : 0 <= max p /\ min p <= max p.

Lemma wait_exponential_mono (n : nat) :
  (1 <= n)%nat -> wait_exponential p n <= wait_exponential p (S n).
Proof.
  intros Hn. unfold wait_exponential.
  assert (2 ^ (Z.of_nat n - 1) <= 2 ^ (Z.of_nat (S n) - 1))
    by (apply Z.pow_le_mono_r; lia).
  assert (multiplier p * 2 ^ (Z.of_nat n - 1) <= multiplier p * 2 ^ (Z.of_nat (S n) - 1))
    by (apply Z.mul_le_mono_nonneg_l; assumption).
  lia.
Qed.

Lemma wait_exponential_window (n : nat) :
  min p <= wait_exponential p n <= max p.
Proof. unfold wait_exponential. lia. Qed.

Lemma decide_before_bound (n : nat) (e : exn) :
  (n < max_attempt_number p)%nat ->
  decide p n (Exc e) = RetryAfter (wait_exponential p n).
Proof.
  intros Hn. unfold decide, stop_after_attempt.
  destruct (Nat.leb_spec (max_attempt_number p) n); [lia | reflexivity].
Qed.

Lemma decide_at_bound (n : nat) (e : exn) :
  (max_attempt_number p <= n)%nat -> decide p n (Exc e) = GiveUp.
Proof.
  intros Hn. unfold decide, stop_after_attempt.
  destruct (Nat.leb_spec (max_attempt_number p) n); [reflexivity | lia].
Qed.

End RetryPolicy.

(** C9: on both policies of the repository the delay decided after a
    failed attempt never shrinks from one attempt to the next, stays in the
    window from [min] to [max], and from the attempt bound on the decision
    for an exception is to give up. *)
Theorem retry_policy_monotonic (p : Tenacity.policy) (n : nat) (e : exn) :
  p = Scrape.scrape_policy \/ p = MissingUrls.search_policy ->
  (1 <= n)%nat ->
  Tenacity.wait_exponential p n <= Tenacity.wait_exponential p (S n)
  /\ Tenacity.min p <= Tenacity.wait_exponential p n <= Tenacity.max p
  /\ ((n < Tenacity.max_attempt_number p)%nat ->
      Tenacity.decide p n (Tenacity.Exc e)
      = Tenacity.RetryAfter (Tenacity.wait_exponential p n))
  /\ ((Tenacity.max_attempt_number p <= n)%nat ->
      Tenacity.decide p n (Tenacity.Exc e) = Tenacity.GiveUp).
Proof.
  intros Hp Hn.
  assert (Hm : 0 <= Tenacity.multiplier p) by (destruct Hp as [-> | ->]; cbn; lia).
  assert (Hw : 0 <= Tenacity.max p /\ Tenacity.min p <= Tenacity.max p)
    by (destruct Hp as [-> | ->]; cbn; lia).
  repeat split.
  - apply wait_exponential_mono; assumption.
  - apply wait_exponential_window; assumption.
  - apply wait_exponential_window; assumption.
  - apply decide_before_bound.
  - apply decide_at_bound.
Qed.

Lemma retry_policy_monotonic_witness :
  Tenacity.wait_exponential Scrape.scrape_policy 3 <= Tenacity.wait_exponential Scrape.scrape_policy 4
  /\ Tenacity.decide Scrape.scrape_policy 3 (Tenacity.Exc RetryError) = Tenacity.GiveUp.
Proof.
  destruct (retry_policy_monotonic Scrape.scrape_policy 3 RetryError
              (or_introl eq_refl) ltac:(lia)) as (H1 & _ & _ & H4).
  split; [exact H1 | apply H4; cbn; lia].
Defined.

Example wait_values :
  map (Tenacity.wait_exponential Scrape.scrape_policy) [1; 2; 3; 4; 5; 6]%nat = [4; 4; 4; 8; 10; 10].
Proof. reflexivity. Qed.

(** ** The catalog code *)
Section CatalogCode.
Import Scrape.

Lemma copy_field_lookup_ne (label field k : string) (values names : gmap string string) :
  field <> k -> copy_field label field values names !! k = names !! k.
Proof.
  intros Hne. unfold copy_field.
  destruct (values !! label); [apply lookup_insert_ne; assumption | reflexivity].
Qed.

Lemma assign_values_nc_code (values names : gmap string string) :
  assign_values values names !! "nc_code" =
  match values !! "NC Code" with
  | Some v => Some (nc_code_with_dash v)
  | None => names !! "nc_code"
  end.
Proof.
  unfold assign_values.
  rewrite !copy_field_lookup_ne by discriminate.
  destruct (values !! "NC Code"); [apply lookup_insert_eq | reflexivity].
Qed.

Lemma nc_code_with_dash_long (a b : ascii) (rest : string) :
  nc_code_with_dash (String a (String b rest)) = String a (String b (String "-" rest)).
Proof. reflexivity. Qed.

Lemma nc_code_with_dash_short (v : string) :
  (String.length v < 2)%nat -> nc_code_with_dash v = v +:+ "-".
Proof.
  destruct v as [|a [|b rest]]; cbn; intros H; [reflexivity | reflexivity | lia].
Qed.

End CatalogCode.

(** C5, as the code has it: whenever the label "NC Code" is present its
    value is stored with a dash after the second character, "NC1234"
    becoming "NC-1234"; a value shorter than two characters is not left
    as it is, the dash is put at its end. *)
Theorem nc_code_transform (values names : gmap string string) (v : string) :
  values !! "NC Code" = Some v ->
  Scrape.assign_values values names !! "nc_code" = Some (Scrape.nc_code_with_dash v)
  /\ Scrape.nc_code_with_dash "NC1234" = "NC-1234"
  /\ (forall a b rest, v = String a (String b rest) ->
      Scrape.nc_code_with_dash v = String a (String b (String "-" rest)))
  /\ ((String.length v < 2)%nat -> Scrape.nc_code_with_dash v = v +:+ "-").
Proof.
  intros Hv. repeat split.
  - rewrite assign_values_nc_code, Hv. reflexivity.
  - intros a b rest ->. apply nc_code_with_dash_long.
  - apply nc_code_with_dash_short.
Qed.

Lemma nc_code_transform_witness :
  Scrape.assign_values {["NC Code" := "N"]} Scrape.item_details_column_names !! "nc_code"
  = Some "N-".
Proof.
  apply (nc_code_transform {["NC Code" := "N"]} Scrape.item_details_column_names "N").
  reflexivity.
Defined.

(** C5 as the specification words it fails: a value of one character is
    changed. *)
Lemma nc_code_short_input_changed :
  ~ (forall v : string, (String.length v < 2)%nat -> Scrape.nc_code_with_dash v = v).
Proof. intros H. specialize (H "N" ltac:(cbn; lia)). discriminate H. Qed.

(** ** Computations that do not leave the process *)
Section NoExit.

Lemma no_exit_ret {A} (a : A) : no_exit (ret a).
Proof. intros n; discriminate. Qed.

Lemma no_exit_raise {A} (e : exn) : no_exit (@raise A e).
Proof. intros n; discriminate. Qed.

Lemma no_exit_emit (ev : event) : no_exit (emit ev).
Proof. intros n; discriminate. Qed.

Lemma no_exit_bind {A B} (c : M A) (k : A -> M B) :
  no_exit c -> (forall a, no_exit (k a)) -> no_exit (c ≫= k).
Proof.
  intros Hc Hk n. rewrite bind_fst.
  destruct c as [[a|e|m] t]; cbn; [apply Hk | discriminate | intros _; exact (Hc m eq_refl)].
Qed.

Lemma no_exit_index {A} (l : list A) (i : nat) : no_exit (index l i).
Proof. unfold index. destruct (l !! i); [apply no_exit_ret | apply no_exit_raise]. Qed.

Lemma no_exit_getitem {V} (d : gmap string V) (k : string) : no_exit (getitem d k).
Proof. unfold getitem. destruct (d !! k); [apply no_exit_ret | apply no_exit_raise]. Qed.

Lemma no_exit_for_each {A S} (l : list A) (body : A -> S -> M S) (s : S) :
  (forall x s', no_exit (body x s')) -> no_exit (for_each l body s).
Proof.
  intros Hb. revert s. induction l as [|x l IH]; intros s; cbn [for_each].
  - apply no_exit_ret.
  - apply no_exit_bind; [apply Hb | exact IH].
Qed.

End NoExit.

Create HintDb no_exit.
#[local] Hint Resolve no_exit_ret no_exit_raise no_exit_emit no_exit_index
  no_exit_getitem : no_exit.

(** ** The retry decorator around a function that never lets an
    exception out *)
Section RetryFacts.
Import Tenacity.

Lemma retry_first_attempt {A} (p : policy) (fn : nat -> M A) :
  (forall e, (fn 1%nat).1 <> Raise e) -> retry p fn = fn 1%nat.
Proof.
  intros H. unfold retry.
  destruct (max_attempt_number p); cbn [retry_go];
    destruct (fn 1%nat) as [[a|e|code] t]; try reflexivity;
    exfalso; apply (H e); reflexivity.
Qed.

End RetryFacts.

(** ** One page *)
Section Page.
Import Bs4 Scrape.

(** The loop body returns, or fails on [h3_tag_text_list[1]]. *)
Lemma element_step_outcome (element : node) (st : gmap string string * gmap string string) :
  (exists st', (element_step element st).1 = Return st')
  \/ (element_step element st).1 = Raise out_of_range.
Proof.
  destruct st as [names values]. unfold element_step.
  destruct (is_tag element); [|left; eexists; reflexivity].
  destruct (find element "h3" _).
  - destruct (split " Effective Date: " (strip (text element))) as [|x [|y l]];
      [right | right | left; eexists]; reflexivity.
  - destruct (class_is_row element); [|left; eexists; reflexivity].
    destruct (List.filter _ _) as [|a [|b [|c [|d [|? ?]]]]];
      left; eexists; reflexivity.
Qed.

Lemma for_each_element_step_outcome (l : list node) (st : gmap string string * gmap string string) :
  (exists st', (for_each l element_step st).1 = Return st')
  \/ (for_each l element_step st).1 = Raise out_of_range.
Proof.
  revert st. induction l as [|x l IH]; intros st; cbn [for_each].
  - left; eexists; reflexivity.
  - rewrite bind_fst.
    destruct (element_step_outcome x st) as [[st' ->] | ->]; [apply IH | right; reflexivity].
Qed.

(** A heading block without the delimiter: the second index is out of
    range. *)
Lemma element_step_heading_without_delimiter (element : node)
    (st : gmap string string * gmap string string) :
  is_tag element = true ->
  is_Some (find element "h3" [("class", "mt-5 pt-3")]) ->
  contains " Effective Date: " (text element) = false ->
  (element_step element st).1 = Raise out_of_range.
Proof.
  intros Ht [h Hh] Hc. destruct st as [names values]. unfold element_step.
  rewrite Ht, Hh, (split_absent _ _ (contains_strip _ _ Hc)). reflexivity.
Qed.

Lemma for_each_heading_without_delimiter (l : list node) (element : node)
    (st : gmap string string * gmap string string) :
  element ∈ l ->
  is_tag element = true ->
  is_Some (find element "h3" [("class", "mt-5 pt-3")]) ->
  contains " Effective Date: " (text element) = false ->
  (for_each l element_step st).1 = Raise out_of_range.
Proof.
  intros Hin Ht Hh Hc. revert st.
  induction l as [|x l IH]; intros st; [inversion Hin|].
  cbn [for_each]. rewrite bind_fst.
  apply elem_of_cons in Hin as [<- | Hin].
  - rewrite element_step_heading_without_delimiter by assumption. reflexivity.
  - destruct (element_step_outcome x st) as [[st' ->] | ->]; [apply IH; assumption | reflexivity].
Qed.

Lemma no_exit_element_step (element : node) (st : gmap string string * gmap string string) :
  no_exit (element_step element st).
Proof.
  intros n. destruct (element_step_outcome element st) as [[st' ->] | ->]; discriminate.
Qed.

Lemma no_exit_product_image (soup : node) (names : gmap string string) :
  no_exit (product_image soup names).
Proof.
  unfold product_image. repeat case_match; auto with no_exit.
Qed.

Lemma no_exit_parse_page (url : string) (soup : node) : no_exit (parse_page url soup).
Proof.
  unfold parse_page. case_match.
  - apply no_exit_bind; auto with no_exit.
  - apply no_exit_bind; [apply no_exit_for_each, no_exit_element_step|].
    intros [names values]. apply no_exit_bind; [apply no_exit_product_image|].
    auto with no_exit.
Qed.

(** What a call makes of the page of a 200 response. *)
Lemma scrape_call_200 (url : string) (soup : node) :
  scrape_call (Response 200 soup) url =
  match parse_page url soup with
  | (Return d, t) => (Return d, Log INFO ("Scraping " +:+ url) :: t)
  | (Raise e, t) =>
      (SysExit 1, Log INFO ("Scraping " +:+ url) :: t
                  ++ [Log ERROR ("Error scraping " +:+ url +:+ ": " +:+ str_exn e)])
  | (SysExit n, t) => (SysExit n, Log INFO ("Scraping " +:+ url) :: t)
  end.
Proof.
  unfold scrape_call. cbn [Z.eqb Pos.eqb negb].
  rewrite bind_unfold. cbn [emit bind].
  destruct (parse_page url soup) as [[d|e|n] t]; reflexivity.
Qed.

(** A call ends in a dictionary or in [sys.exit(1)]. *)
Lemma scrape_call_outcome (r : fetched) (url : string) :
  (exists d, (scrape_call r url).1 = Return d) \/ (scrape_call r url).1 = SysExit 1.
Proof.
  destruct r as [e | status soup].
  - right. reflexivity.
  - destruct (Z.eqb_spec status 200) as [-> | Hne].
    + rewrite scrape_call_200. pose proof (no_exit_parse_page url soup) as Hnx.
      destruct (parse_page url soup) as [[d|e|n] t];
        [left; eexists; reflexivity | right; reflexivity | exfalso; apply (Hnx n); reflexivity].
    + right. unfold scrape_call.
      destruct (Z.eqb_spec status 200) as [? | _]; [contradiction | reflexivity].
Qed.

(** The decorator never sees an exception: the first call is the only one. *)
Lemma scrape_item_details_first_call (net : nat -> fetched) (url : string) :
  scrape_item_details net url = scrape_call (net 1%nat) url.
Proof.
  unfold scrape_item_details. apply (retry_first_attempt scrape_policy (fun k => scrape_call (net k) url)).
  intros e. destruct (scrape_call_outcome (net 1%nat) url) as [[d ->] | ->]; discriminate.
Qed.

(** A failed request, or a status other than 200, ends in [sys.exit(1)]. *)
Lemma scrape_call_fetch_failed (r : fetched) (url : string) :
  fetch_failed r = true -> (scrape_call r url).1 = SysExit 1.
Proof.
  destruct r as [e | status soup]; cbn [fetch_failed]; intros H; [reflexivity|].
  unfold scrape_call. rewrite H. reflexivity.
Qed.

End Page.

(** ** Gathering concurrent tasks *)
Section Gather.
Import Asyncio.
Context {A : Type}.
Implicit Types (tasks : list (M A)) (results : list A) (slots : list (option A))
  (order sched : list nat).

Lemma completion_order_complete sched (n i : nat) :
  (i < n)%nat -> i ∈ completion_order sched n.
Proof.
  intros Hi. unfold completion_order. cbv zeta. apply elem_of_app.
  set (named := reverse _).
  destruct (decide (i ∈ named)) as [Hin | Hout]; [left; assumption | right].
  apply list_elem_of_difference. split; [apply elem_of_seq; lia | assumption].
Qed.

Lemma omap_id_Some results : omap id (Some <$> results) = results.
Proof. induction results as [|a l IH]; [reflexivity | cbn; rewrite IH; reflexivity]. Qed.

(** Every task returns: each slot named in [order] ends up holding the
    value of its task, and a slot that holds it keeps it. *)
Lemma run_in_order_return tasks results order slots :
  Forall2 (fun t a => t.1 = Return a) tasks results ->
  length slots = length results ->
  exists slots',
    (run_in_order tasks order slots).1 = Return slots'
    /\ length slots' = length results
    /\ (forall i, slots !! i = (Some <$> results) !! i ->
                  slots' !! i = (Some <$> results) !! i)
    /\ (forall i, i ∈ order -> slots' !! i = (Some <$> results) !! i).
Proof.
  intros Hres. revert slots.
  induction order as [|i rest IH]; intros slots Hlen; cbn [run_in_order].
  - exists slots. repeat split; [assumption | auto | intros i Hi; inversion Hi].
  - destruct (tasks !! i) as [t|] eqn:Ht.
    + destruct (Forall2_lookup_l _ _ _ _ _ Hres Ht) as (a & Ha & Hta).
      rewrite bind_fst, Hta.
      destruct (IH (<[i := Some a]> slots)) as (slots' & Hrun & Hlen' & Hkeep & Hdone).
      { rewrite length_insert. assumption. }
      assert (Hi : <[i := Some a]> slots !! i = (Some <$> results) !! i).
      { rewrite list_lookup_fmap, Ha. apply list_lookup_insert_eq.
        apply lookup_lt_Some in Ha. lia. }
      exists slots'. repeat split; [assumption | assumption | |].
      * intros j Hj. apply Hkeep.
        destruct (decide (i = j)) as [<- | Hne]; [assumption|].
        rewrite list_lookup_insert_ne by assumption. assumption.
      * intros j Hj. apply elem_of_cons in Hj as [-> | Hj]; [apply Hkeep, Hi | apply Hdone, Hj].
    + destruct (IH slots Hlen) as (slots' & Hrun & Hlen' & Hkeep & Hdone).
      exists slots'. repeat split; [assumption | assumption | assumption |].
      intros j Hj. apply elem_of_cons in Hj as [-> | Hj]; [|apply Hdone, Hj].
      apply lookup_ge_None_1 in Ht.
      pose proof (Forall2_length _ _ _ Hres) as Hl.
      assert (Hge : (length results <= i)%nat) by (rewrite <- Hl; exact Ht).
      rewrite list_lookup_fmap, (lookup_ge_None_2 results i Hge).
      apply lookup_ge_None_2. rewrite Hlen'. exact Hge.
Qed.

(** When every task returns, [gather] returns their values in the order
    of the tasks, whatever the order of completion. *)
Lemma gather_return tasks results sched :
  Forall2 (fun t a => t.1 = Return a) tasks results ->
  (gather tasks sched).1 = Return results.
Proof.
  intros Hres. unfold gather. rewrite bind_fst.
  destruct (run_in_order_return tasks results
              (completion_order sched (length tasks))
              (replicate (length tasks) None) Hres)
    as (slots' & -> & Hlen & _ & Hdone).
  { rewrite length_replicate. apply (Forall2_length _ _ _ Hres). }
  cbn. f_equal.
  assert (Heq : slots' = Some <$> results).
  { apply list_eq. intros i.
    destruct (decide (i < length tasks)%nat) as [Hi | Hi].
    - apply Hdone, completion_order_complete, Hi.
    - pose proof (Forall2_length _ _ _ Hres) as Hl.
      assert (Hge : (length results <= i)%nat) by (rewrite <- Hl; apply Nat.nlt_ge, Hi).
      rewrite list_lookup_fmap, (lookup_ge_None_2 results i Hge).
      apply lookup_ge_None_2. rewrite Hlen. exact Hge. }
  rewrite Heq. apply omap_id_Some.
Qed.

(** When the tasks can only return or leave with status 1, one task
    leaving makes the whole wait leave. *)
Lemma run_in_order_exit tasks order slots (j : nat) (tj : M A) :
  (forall i t, tasks !! i = Some t -> (exists a, t.1 = Return a) \/ t.1 = SysExit 1) ->
  tasks !! j = Some tj -> tj.1 = SysExit 1 -> j ∈ order ->
  (run_in_order tasks order slots).1 = SysExit 1.
Proof.
  intros Hall Hj Hexit. revert slots.
  induction order as [|i rest IH]; intros slots Hin; [inversion Hin|].
  cbn [run_in_order].
  destruct (tasks !! i) as [t|] eqn:Ht.
  - rewrite bind_fst.
    destruct (Hall i t Ht) as [[a Ha] | Ha]; rewrite Ha; [|reflexivity].
    apply IH. apply elem_of_cons in Hin as [-> | Hin]; [|assumption].
    congruence.
  - apply IH. apply elem_of_cons in Hin as [-> | Hin]; [congruence | assumption].
Qed.

Lemma gather_exit tasks sched (j : nat) (tj : M A) :
  (forall i t, tasks !! i = Some t -> (exists a, t.1 = Return a) \/ t.1 = SysExit 1) ->
  tasks !! j = Some tj -> tj.1 = SysExit 1 ->
  (gather tasks sched).1 = SysExit 1.
Proof.
  intros Hall Hj Hexit. unfold gather. rewrite bind_fst.
  rewrite (run_in_order_exit tasks _ _ j tj Hall Hj Hexit); [reflexivity|].
  apply completion_order_complete. apply lookup_lt_Some in Hj. assumption.
Qed.

End Gather.

Section GatherCases.
Context {A : Type}.

Lemma try_except_fst (c : M A) (h : exn -> M A) :
  (try_except c h).1 =
  match c.1 with
  | Raise e => (h e).1
  | o => o
  end.
Proof. destruct c as [[a|e|n] t]; cbn; [reflexivity | destruct (h e); reflexivity | reflexivity]. Qed.

(** Tasks that return or leave: they all return, or one of them leaves. *)
Lemma all_return_or_one_exits (tasks : list (M A)) :
  (forall i t, tasks !! i = Some t -> (exists a, t.1 = Return a) \/ t.1 = SysExit 1) ->
  (exists results, Forall2 (fun t a => t.1 = Return a) tasks results)
  \/ (exists j tj, tasks !! j = Some tj /\ tj.1 = SysExit 1).
Proof.
  induction tasks as [|t tasks IH]; intros Hall.
  - left. exists []. constructor.
  - destruct (Hall 0%nat t eq_refl) as [[a Ha] | Ht].
    + destruct IH as [[results Hres] | (j & tj & Hj & Hexit)].
      * intros i t' Hi. exact (Hall (S i) t' Hi).
      * left. exists (a :: results). constructor; assumption.
      * right. exists (S j), tj. split; assumption.
    + right. exists 0%nat, t. split; [reflexivity | assumption].
Qed.

End GatherCases.

(** ** The batch of scrape_item_details.py *)
Section Batch.
Import Bs4 Scrape.

Lemma batch_task_lookup (net : ItemDetails.network) (urls : list string) (i : nat) (t : M (gmap string string)) :
  imap (fun i url => ItemDetails.scrape_item_details (net i) url) urls !! i = Some t ->
  exists url, urls !! i = Some url /\ t = scrape_call (net i 1%nat) url.
Proof.
  rewrite list_lookup_imap. destruct (urls !! i) as [url|]; [|discriminate].
  cbn. intros [= <-]. exists url. split; [reflexivity|].
  apply scrape_item_details_first_call.
Qed.

Lemma batch_task_outcome (net : ItemDetails.network) (urls : list string) (i : nat) (t : M (gmap string string)) :
  imap (fun i url => ItemDetails.scrape_item_details (net i) url) urls !! i = Some t ->
  (exists d, t.1 = Return d) \/ t.1 = SysExit 1.
Proof.
  intros Ht. apply batch_task_lookup in Ht as (url & _ & ->). apply scrape_call_outcome.
Qed.

(** One task leaving ends the batch. *)
Lemma process_urls_exit (net : ItemDetails.network) (sched : list nat) (urls : list string)
    (i : nat) (url : string) :
  urls !! i = Some url ->
  (scrape_call (net i 1%nat) url).1 = SysExit 1 ->
  (ItemDetails.process_urls net sched urls).1 = SysExit 1.
Proof.
  intros Hu Hexit. unfold ItemDetails.process_urls.
  apply (gather_exit _ sched i (ItemDetails.scrape_item_details (net i) url)).
  - apply batch_task_outcome.
  - rewrite list_lookup_imap, Hu. reflexivity.
  - unfold ItemDetails.scrape_item_details.
    rewrite scrape_item_details_first_call. assumption.
Qed.

(** The batch returns, with one dictionary per url in the order of the
    urls, or it leaves with status 1 because one task did. *)
Lemma process_urls_cases (net : ItemDetails.network) (sched : list nat) (urls : list string) :
  (exists results,
     (ItemDetails.process_urls net sched urls).1 = Return results
     /\ Forall2 (fun t d => t.1 = Return d)
          (imap (fun i url => ItemDetails.scrape_item_details (net i) url) urls) results)
  \/ ((ItemDetails.process_urls net sched urls).1 = SysExit 1
      /\ exists i url, urls !! i = Some url /\ (scrape_call (net i 1%nat) url).1 = SysExit 1).
Proof.
  destruct (all_return_or_one_exits _ (batch_task_outcome net urls))
    as [[results Hres] | (j & tj & Hj & Hexit)].
  - left. exists results. split; [|assumption]. apply gather_return. assumption.
  - right. apply batch_task_lookup in Hj as (url & Hu & ->).
    split; [apply (process_urls_exit net sched urls j url); assumption|].
    exists j, url. split; assumption.
Qed.

End Batch.

(** ** Every dictionary that is returned has the twelve columns *)
Section Columns.
Import Bs4 Scrape.

Import ItemDetails.

Lemma has_columns_init : has_columns item_details_column_names.
Proof. repeat constructor; eexists; reflexivity. Qed.

Lemma has_columns_insert (d : gmap string string) (j v : string) :
  has_columns d -> has_columns (<[j := v]> d).
Proof.
  intros H. eapply Forall_impl; [exact H|].
  intros k Hk. apply lookup_insert_is_Some.
  destruct (decide (j = k)); [left | right]; auto.
Qed.

Lemma has_columns_copy_field (label field : string) (values names : gmap string string) :
  has_columns names -> has_columns (copy_field label field values names).
Proof.
  intros H. unfold copy_field. destruct (values !! label); [apply has_columns_insert|]; assumption.
Qed.

Lemma has_columns_assign_values (values names : gmap string string) :
  has_columns names -> has_columns (assign_values values names).
Proof.
  intros H. unfold assign_values. repeat apply has_columns_copy_field.
  destruct (values !! "NC Code"); [apply has_columns_insert|]; assumption.
Qed.

Lemma for_each_invariant {A S} (P : S -> Prop) (l : list A) (body : A -> S -> M S) (s s' : S) :
  (forall x s1 s2, P s1 -> (body x s1).1 = Return s2 -> P s2) ->
  P s -> (for_each l body s).1 = Return s' -> P s'.
Proof.
  intros Hb. revert s. induction l as [|x l IH]; intros s Hs; cbn [for_each].
  - intros [= <-]. assumption.
  - rewrite bind_fst. destruct (body x s) as [[s1|e|n] t] eqn:Hx; cbn; [|discriminate..].
    apply IH. apply (Hb x s s1 Hs). rewrite Hx. reflexivity.
Qed.

Lemma has_columns_element_step (element : node) (st st' : gmap string string * gmap string string) :
  has_columns st.1 -> (element_step element st).1 = Return st' -> has_columns st'.1.
Proof.
  destruct st as [names values]. cbn [fst]. intros H. unfold element_step.
  destruct (is_tag element); [|intros [= <-]; assumption].
  destruct (find element "h3" _).
  - destruct (split " Effective Date: " (strip (text element))) as [|x [|y l]];
      [discriminate | discriminate |].
    intros [= <-]. cbn [fst]. repeat apply has_columns_insert. assumption.
  - destruct (class_is_row element); [|intros [= <-]; assumption].
    destruct (List.filter _ _) as [|a [|b [|c [|d [|? ?]]]]];
      intros [= <-]; assumption.
Qed.

Lemma has_columns_product_image (soup : node) (names names' : gmap string string) :
  has_columns names -> (product_image soup names).1 = Return names' -> has_columns names'.
Proof.
  intros H. unfold product_image.
  repeat case_match; try discriminate; intros [= <-];
    try assumption; apply has_columns_insert; assumption.
Qed.

Lemma has_columns_parse_page (url : string) (soup : node) (d : gmap string string) :
  (parse_page url soup).1 = Return d -> has_columns d.
Proof.
  unfold parse_page. case_match.
  - intros [= <-]. apply has_columns_init.
  - rewrite bind_fst.
    destruct (for_each _ element_step _) as [[[names values]|e|m] t] eqn:Hloop;
      cbn [fst]; [|discriminate..].
    rewrite bind_fst.
    destruct (product_image soup names) as [[names'|e|m] t'] eqn:Himg;
      cbn [fst]; [|discriminate..].
    intros [= <-]. apply has_columns_assign_values.
    apply (has_columns_product_image soup names); [|rewrite Himg; reflexivity].
    eapply (for_each_invariant (fun st => has_columns st.1) _ element_step
              (item_details_column_names, ∅) (names, values)).
    + intros x s1 s2. apply has_columns_element_step.
    + apply has_columns_init.
    + rewrite Hloop. reflexivity.
Qed.

Lemma has_columns_scrape_call (r : fetched) (url : string) (d : gmap string string) :
  (scrape_call r url).1 = Return d -> has_columns d.
Proof.
  destruct r as [e | status soup]; [discriminate|].
  destruct (Z.eqb_spec status 200) as [-> | Hne].
  - rewrite scrape_call_200.
    destruct (parse_page url soup) as [[d'|e|m] t] eqn:Hp; cbn [fst]; [|discriminate..].
    intros [= <-]. apply (has_columns_parse_page url soup). rewrite Hp. reflexivity.
  - rewrite (scrape_call_fetch_failed (Response status soup) url); [discriminate|].
    cbn. destruct (Z.eqb_spec status 200); [contradiction | reflexivity].
Qed.

(** Reading the twelve columns of such a dictionary raises nothing. *)
Lemma read_columns_return (d : gmap string string) (l : list string) :
  Forall (fun k => is_Some (d !! k)) l -> exists row, (mapM (getitem d) l).1 = Return row.
Proof.
  induction 1 as [|k l [v Hv] _ [row IH]]; [eexists; reflexivity|].
  cbn [mapM]. exists (v :: row).
  rewrite bind_fst. unfold getitem at 1. rewrite Hv. cbn [ret fst].
  rewrite bind_fst, IH. reflexivity.
Qed.

Lemma read_results_return (results : list (gmap string string)) (rows : list (list string)) :
  Forall has_columns results ->
  exists rows',
    (for_each results
       (fun result rows => row ← ItemDetails.read_result result; ret (rows ++ [row]))
       rows).1 = Return rows'.
Proof.
  intros H. revert rows. induction H as [|d results Hd _ IH]; intros rows.
  - eexists; reflexivity.
  - cbn [for_each]. destruct (read_columns_return d _ Hd) as [row Hrow].
    rewrite bind_fst, bind_fst. unfold ItemDetails.read_result. rewrite Hrow.
    cbn [ret fst]. apply IH.
Qed.

End Columns.

(** ** The script of scrape_item_details.py *)
Section ItemDetailsScript.
Import Bs4 Scrape ItemDetails.

Lemma bigquery_to_df_fst (sv : services) :
  (bigquery_to_df sv).1 =
  match item_details_urls sv with
  | inl e => Raise e
  | inr urls => Return urls
  end.
Proof. unfold bigquery_to_df. rewrite bind_fst. cbn. destruct (item_details_urls sv); reflexivity. Qed.

Lemma df_to_gcloud_storage_bucket_fst (sv : services) (blob_name : string) :
  (df_to_gcloud_storage_bucket sv blob_name).1 = Return tt.
Proof. unfold df_to_gcloud_storage_bucket. destruct (upload_error sv); reflexivity. Qed.

Lemma load_csv_to_bigquery_fst (sv : services) (table_id : string) :
  (load_csv_to_bigquery sv table_id).1 =
  match load_error sv with
  | Some e => Raise e
  | None => Return tt
  end.
Proof. unfold load_csv_to_bigquery. destruct (load_error sv); reflexivity. Qed.

Lemma script_query_fails (sv : services) (net : network) (sched : list nat) (e : exn) :
  item_details_urls sv = inl e -> (script sv net sched).1 = SysExit 1.
Proof.
  intros Hq. unfold script, main.
  rewrite try_except_fst, bind_fst, bigquery_to_df_fst, Hq. reflexivity.
Qed.

Lemma script_batch_exits (sv : services) (net : network) (sched : list nat) (urls : list string) :
  item_details_urls sv = inr urls ->
  (process_urls net sched urls).1 = SysExit 1 ->
  (script sv net sched).1 = SysExit 1.
Proof.
  intros Hq Hb. unfold script, main.
  rewrite try_except_fst, bind_fst, bigquery_to_df_fst, Hq, bind_fst, Hb. reflexivity.
Qed.

Lemma script_batch_returns (sv : services) (net : network) (sched : list nat)
    (urls : list string) (results : list (gmap string string)) :
  item_details_urls sv = inr urls ->
  (process_urls net sched urls).1 = Return results ->
  Forall has_columns results ->
  (script sv net sched).1 =
  match load_error sv with
  | Some _ => SysExit 1
  | None => Return tt
  end.
Proof.
  intros Hq Hb Hcols. unfold script, main.
  destruct (read_results_return results [] Hcols) as [rows Hrows].
  rewrite try_except_fst, bind_fst, bigquery_to_df_fst, Hq, bind_fst, Hb, bind_fst, Hrows,
    bind_fst, df_to_gcloud_storage_bucket_fst, load_csv_to_bigquery_fst.
  destruct (load_error sv); reflexivity.
Qed.

(** The dictionaries of a batch that returns hold the twelve columns. *)
Lemma batch_results_have_columns (net : network) (urls : list string)
    (results : list (gmap string string)) :
  Forall2 (fun t d => t.1 = Return d)
    (imap (fun i url => scrape_item_details (net i) url) urls) results ->
  Forall has_columns results.
Proof.
  intros Hres. apply Forall_lookup. intros i d Hd.
  destruct (Forall2_lookup_r _ _ _ _ _ Hres Hd) as (t & Ht & Htd).
  apply batch_task_lookup in Ht as (url & _ & ->).
  apply (has_columns_scrape_call _ _ _ Htd).
Qed.

(** When a call leaves: the request failed, or the page raised. *)
Lemma scrape_call_exit_iff (r : fetched) (url : string) :
  (scrape_call r url).1 = SysExit 1 <->
  fetch_failed r = true
  \/ exists soup e, r = Response 200 soup /\ (parse_page url soup).1 = Raise e.
Proof.
  split.
  - destruct r as [e | status soup]; [left; reflexivity|].
    destruct (Z.eqb_spec status 200) as [-> | Hne].
    + rewrite scrape_call_200. intros H. right. exists soup.
      pose proof (no_exit_parse_page url soup) as Hnx.
      destruct (parse_page url soup) as [[d|e|m] t]; cbn [fst] in *;
        [discriminate | exists e; split; reflexivity | exfalso; apply (Hnx m); reflexivity].
    + intros _. left. cbn. destruct (Z.eqb_spec status 200); [contradiction | reflexivity].
  - intros [H | (soup & e & -> & H)]; [apply scrape_call_fetch_failed, H|].
    rewrite scrape_call_200.
    destruct (parse_page url soup) as [[d|e'|m] t]; cbn [fst] in *; [discriminate | reflexivity | discriminate].
Qed.

End ItemDetailsScript.

(** ** The sequential batch of replace_x_image_urls.py *)
Section SequentialBatch.
Import Bs4 Scrape.

Lemma process_urls_from_return (net : XImage.network) (urls : list string) :
  forall (i : nat) (acc results : list (gmap string string)),
  Forall2 (fun t d => t.1 = Return d)
    (imap (fun j url => scrape_item_details (net (i + j)%nat) url) urls) results ->
  (XImage.process_urls_from net i urls acc).1 = Return (acc ++ results).
Proof.
  induction urls as [|url urls IH]; intros i acc results Hres.
  - inversion Hres. cbn. rewrite app_nil_r. reflexivity.
  - cbn [imap] in Hres. inversion Hres as [|t d ts results' Hd Hres' E1 E2]; subst.
    cbn [XImage.process_urls_from]. rewrite bind_fst.
    unfold XImage.scrape_item_details.
    rewrite Nat.add_0_r in Hd. rewrite Hd.
    rewrite (IH (S i) (acc ++ [d]) results').
    + rewrite <- app_assoc. reflexivity.
    + erewrite imap_ext; [exact Hres'|].
      intros j x _. cbn. rewrite Nat.add_succ_r. reflexivity.
Qed.

Lemma process_urls_from_outcome (net : XImage.network) (urls : list string) :
  forall (i : nat) (acc : list (gmap string string)),
  (exists results, (XImage.process_urls_from net i urls acc).1 = Return results)
  \/ (XImage.process_urls_from net i urls acc).1 = SysExit 1.
Proof.
  induction urls as [|url urls IH]; intros i acc; cbn [XImage.process_urls_from].
  - left. eexists. reflexivity.
  - rewrite bind_fst. unfold XImage.scrape_item_details.
    rewrite scrape_item_details_first_call.
    destruct (scrape_call_outcome (net i 1%nat) url) as [[d ->] | ->]; [apply IH | right; reflexivity].
Qed.

End SequentialBatch.

(** ** The claims about fetching a batch *)

(** C7, as the code has it: when every request of the batch is answered
    with status 200 and no page raises, both [process_urls] return one
    dictionary per url, at the position of its url and holding what its
    page parses to, whatever the order in which the concurrent requests
    complete. *)
Theorem process_urls_keeps_order (net : ItemDetails.network) (sched : list nat)
    (urls : list string) :
  (forall i url, urls !! i = Some url ->
     exists soup d, net i 1%nat = Scrape.Response 200 soup
                    /\ (Scrape.parse_page url soup).1 = Return d) ->
  exists results,
    (ItemDetails.process_urls net sched urls).1 = Return results
    /\ (XImage.process_urls net urls).1 = Return results
    /\ length results = length urls
    /\ forall i url, urls !! i = Some url ->
         exists soup d, net i 1%nat = Scrape.Response 200 soup
                        /\ (Scrape.parse_page url soup).1 = Return d
                        /\ results !! i = Some d.
Proof.
  intros Hok.
  destruct (process_urls_cases net sched urls)
    as [(results & Hret & Hres) | (_ & i & url & Hu & Hexit)].
  - exists results. split; [assumption|]. split; [|split].
    + unfold XImage.process_urls.
      rewrite (process_urls_from_return net urls 0 [] results); [reflexivity | exact Hres].
    + rewrite <- (Forall2_length _ _ _ Hres). rewrite length_imap. reflexivity.
    + intros i url Hu. destruct (Hok i url Hu) as (soup & d & Hn & Hp).
      exists soup, d. split; [assumption|]. split; [assumption|].
      assert (Ht : imap (fun i url => ItemDetails.scrape_item_details (net i) url) urls !! i
                   = Some (Scrape.scrape_item_details (net i) url))
        by (rewrite list_lookup_imap, Hu; reflexivity).
      destruct (Forall2_lookup_l _ _ _ _ _ Hres Ht) as (d' & Hd' & Htd).
      rewrite Hd'. f_equal.
      rewrite scrape_item_details_first_call, Hn, scrape_call_200 in Htd.
      destruct (Scrape.parse_page url soup) as [[d0|e|m] t]; cbn [fst] in *; congruence.
  - exfalso. destruct (Hok i url Hu) as (soup & d & Hn & Hp).
    rewrite Hn, scrape_call_200 in Hexit.
    destruct (Scrape.parse_page url soup) as [[d0|e|m] t]; cbn [fst] in *; congruence.
Qed.

Lemma process_urls_keeps_order_witness :
  exists results,
    (ItemDetails.process_urls (Fixtures.always Fixtures.good_page) [1; 0]%nat ["a"; "b"]).1
    = Return results
    /\ length results = 2%nat.
Proof.
  destruct (process_urls_keeps_order (Fixtures.always Fixtures.good_page) [1; 0]%nat ["a"; "b"])
    as (results & H1 & _ & H3 & _).
  - intros i url _.
    destruct (outcome_returns (Scrape.parse_page url Fixtures.good_page).1) as [d Hd];
      [vm_compute; reflexivity|].
    exists Fixtures.good_page, d. split; [reflexivity | exact Hd].
  - exists results. split; [exact H1 | exact H3].
Defined.

(** C7 as the specification words it fails: a batch whose only request
    times out returns no sequence at all. *)
Lemma process_urls_may_not_return :
  ~ (forall (net : ItemDetails.network) (sched : list nat) (urls : list string),
       exists results,
         (ItemDetails.process_urls net sched urls).1 = Return results
         /\ length results = length urls).
Proof.
  intros H.
  destruct (H (fun _ _ => Scrape.GetRaises (TransportError "timeout")) [] ["u"])
    as (results & Hr & _).
  vm_compute in Hr. discriminate Hr.
Qed.




(** ** The claims about one page *)

(** C8: a page answered with status 200 that has no container block gives
    the dictionary in which every field is the empty string; nothing is
    raised, and the only log entries are the INFO line and one WARNING. *)
Theorem missing_container_gives_empty_record (net : nat -> Scrape.fetched)
    (url : string) (soup : Bs4.node) :
  net 1%nat = Scrape.Response 200 soup ->
  Bs4.find_all soup "div" [("class", "container"); ("style", "min-height:70vh;")] = [] ->
  Scrape.scrape_item_details net url
  = (Return Scrape.item_details_column_names,
     [Log INFO ("Scraping " +:+ url);
      Log WARNING ("No item details div found for " +:+ url)])
  /\ (forall k v, Scrape.item_details_column_names !! k = Some v -> v = "")
  /\ Forall (fun k => Scrape.item_details_column_names !! k = Some "") ItemDetails.columns.
Proof.
  intros Hn Hc. repeat split.
  - rewrite scrape_item_details_first_call, Hn, scrape_call_200.
    unfold Scrape.parse_page. rewrite Hc. reflexivity.
  - intros k v Hk. unfold Scrape.item_details_column_names in Hk.
    apply elem_of_list_to_map_2 in Hk.
    repeat (apply elem_of_cons in Hk as [[= _ <-] | Hk]; [reflexivity|]).
    inversion Hk.
  - repeat constructor.
Qed.

Lemma missing_container_gives_empty_record_witness :
  Scrape.scrape_item_details (fun _ => Scrape.Response 200 Fixtures.empty_page) "u"
  = (Return Scrape.item_details_column_names,
     [Log INFO "Scraping u"; Log WARNING "No item details div found for u"]).
Proof.
  apply (missing_container_gives_empty_record
           (fun _ => Scrape.Response 200 Fixtures.empty_page) "u" Fixtures.empty_page);
    reflexivity.
Defined.

(** C10: a page answered with status 200 that has the container, with a
    heading block in it whose text lacks " Effective Date: ", gives no
    dictionary: the second index into the split heading is out of range,
    the handler logs the error and calls [sys.exit(1)], and the process
    ends with status 1. *)
Theorem heading_without_delimiter_exits (sv : ItemDetails.services)
    (net : ItemDetails.network) (sched : list nat) (urls : list string)
    (i : nat) (url : string) (soup product_listing_divs element : Bs4.node)
    (others : list Bs4.node) :
  ItemDetails.item_details_urls sv = inr urls ->
  urls !! i = Some url ->
  net i 1%nat = Scrape.Response 200 soup ->
  Bs4.find_all soup "div" [("class", "container"); ("style", "min-height:70vh;")]
  = product_listing_divs :: others ->
  element ∈ Bs4.find_all_children product_listing_divs ->
  is_Some (Bs4.find element "h3" [("class", "mt-5 pt-3")]) ->
  contains " Effective Date: " (Bs4.text element) = false ->
  (Scrape.parse_page url soup).1 = Raise out_of_range
  /\ (exists t, Scrape.scrape_item_details (net i) url
                = (SysExit 1,
                   t ++ [Log ERROR ("Error scraping " +:+ url +:+ ": list index out of range")]))
  /\ exit_status (ItemDetails.script sv net sched).1 = 1.
Proof.
  intros Hq Hu Hn Hc Hin Hh Hd.
  assert (Hp : (Scrape.parse_page url soup).1 = Raise out_of_range).
  { unfold Scrape.parse_page. rewrite Hc, bind_fst.
    rewrite (for_each_heading_without_delimiter _ element); try assumption; [reflexivity|].
    unfold Bs4.find_all_children in Hin.
    apply list_elem_of_In, filter_In in Hin as [_ Ht]. exact Ht. }
  assert (Hcall : exists t, Scrape.scrape_call (net i 1%nat) url
                = (SysExit 1,
                   t ++ [Log ERROR ("Error scraping " +:+ url +:+ ": list index out of range")])).
  { rewrite Hn, scrape_call_200.
    destruct (Scrape.parse_page url soup) as [[d|e|m] t]; cbn [fst] in Hp; try discriminate.
    injection Hp as ->. exists (Log INFO ("Scraping " +:+ url) :: t). reflexivity. }
  split; [assumption|]. split.
  - rewrite scrape_item_details_first_call. exact Hcall.
  - destruct Hcall as [t Ht].
    rewrite (script_batch_exits sv net sched urls Hq); [reflexivity|].
    apply (process_urls_exit net sched urls i url Hu). rewrite Ht. reflexivity.
Qed.

Lemma heading_without_delimiter_exits_witness :
  (Scrape.parse_page "u" Fixtures.undated_page).1 = Raise out_of_range
  /\ exit_status (ItemDetails.script (Fixtures.working ["u"])
                    (Fixtures.always Fixtures.undated_page) []).1 = 1.
Proof.
  destruct (heading_without_delimiter_exits (Fixtures.working ["u"])
              (Fixtures.always Fixtures.undated_page) [] ["u"] 0 "u"
              Fixtures.undated_page
              (Fixtures.container [Fixtures.heading_block "Brand X"])
              (Fixtures.heading_block "Brand X") [])
    as (H1 & _ & H3); try reflexivity.
  - apply list_elem_of_here.
  - eexists. reflexivity.
  - split; [exact H1 | exact H3].
Defined.

(** ** The exit status of scrape_item_details.py *)

(** C4, as the code has it: the script of scrape_item_details.py ends
    with status 0 or 1, and with 1 exactly when the query for the urls
    fails, or the request or the page of one single url fails, or the
    load into the warehouse fails.  A failed upload to the bucket, and
    records left empty by a page without container, do not change the
    status. *)
Theorem item_details_exit_status (sv : ItemDetails.services) (net : ItemDetails.network)
    (sched : list nat) :
  (exit_status (ItemDetails.script sv net sched).1 = 0
   \/ exit_status (ItemDetails.script sv net sched).1 = 1)
  /\ (exit_status (ItemDetails.script sv net sched).1 <> 0 <->
      (exists e, ItemDetails.item_details_urls sv = inl e)
      \/ (exists urls i url,
            ItemDetails.item_details_urls sv = inr urls /\ urls !! i = Some url
            /\ (Scrape.fetch_failed (net i 1%nat) = true
                \/ exists soup e, net i 1%nat = Scrape.Response 200 soup
                                  /\ (Scrape.parse_page url soup).1 = Raise e))
      \/ is_Some (ItemDetails.load_error sv)).
Proof.
  destruct (ItemDetails.item_details_urls sv) as [e | urls] eqn:Hq.
  - rewrite (script_query_fails sv net sched e Hq). cbn.
    split; [right; reflexivity|]. split; [intros _; left; exists e; reflexivity | discriminate].
  - destruct (process_urls_cases net sched urls)
      as [(results & Hret & Hres) | (Hexit & i & url & Hu & Hi)].
    + rewrite (script_batch_returns sv net sched urls results Hq Hret
                 (batch_results_have_columns net urls results Hres)).
      destruct (ItemDetails.load_error sv) as [e|] eqn:Hl; cbn.
      * split; [right; reflexivity|].
        split; [intros _; right; right; eexists; reflexivity | discriminate].
      * split; [left; reflexivity|]. split; [intros H; contradiction|].
        intros [[e He] | [(urls' & i & url & Hq' & Hu & Hf) | [e He]]]; try discriminate.
        injection Hq' as <-.
        apply scrape_call_exit_iff in Hf.
        assert (Ht : imap (fun i url => ItemDetails.scrape_item_details (net i) url) urls !! i
                     = Some (Scrape.scrape_item_details (net i) url))
          by (rewrite list_lookup_imap, Hu; reflexivity).
        destruct (Forall2_lookup_l _ _ _ _ _ Hres Ht) as (d & _ & Htd).
        rewrite scrape_item_details_first_call in Htd. congruence.
    + rewrite (script_batch_exits sv net sched urls Hq Hexit). cbn.
      split; [right; reflexivity|]. split; [|discriminate].
      intros _. right. left. exists urls, i, url.
      split; [reflexivity|]. split; [assumption|]. apply scrape_call_exit_iff, Hi.
Qed.

Lemma item_details_exit_status_witness :
  exit_status (ItemDetails.script
                 (ItemDetails.Services (inr ["u"]) None (Some (ServiceError "load failed")))
                 (Fixtures.always Fixtures.empty_page) []).1 <> 0.
Proof.
  apply (item_details_exit_status
           (ItemDetails.Services (inr ["u"]) None (Some (ServiceError "load failed")))
           (Fixtures.always Fixtures.empty_page) []).
  right. right. eexists. reflexivity.
Defined.

(** Records left empty are not fatal: every page lacks its container and
    the status is 0. *)
Example degraded_records_exit_zero :
  ItemDetails.script (Fixtures.working ["a"; "b"]) (Fixtures.always Fixtures.empty_page) [1]%nat
  = (Return tt,
     [Query ItemDetails.query;
      Log INFO "Scraping b"; Log WARNING "No item details div found for b";
      Log INFO "Scraping a"; Log WARNING "No item details div found for a";
      Upload "nc-abc-bucket/individual_item_details.csv"; Load "item_details"]).
Proof. vm_compute. reflexivity. Qed.

(** C4 as the specification words it fails: with the query, the upload
    and the load all working, one refused url makes the status 1. *)
Lemma record_local_failure_exits_nonzero :
  ~ (forall (sv : ItemDetails.services) (net : ItemDetails.network) (sched : list nat),
       exit_status (ItemDetails.script sv net sched).1 <> 0 <->
       (exists e, ItemDetails.item_details_urls sv = inl e)
       \/ is_Some (ItemDetails.upload_error sv)
       \/ is_Some (ItemDetails.load_error sv)).
Proof.
  intros H.
  destruct (H (Fixtures.working ["a"; "b"]) Fixtures.first_refused []) as [Hcl _].
  assert (Hs : exit_status
                 (ItemDetails.script (Fixtures.working ["a"; "b"]) Fixtures.first_refused []).1
               <> 0) by (vm_compute; discriminate).
  destruct (Hcl Hs) as [[e He] | [[e He] | [e He]]]; discriminate.
Qed.

(** ** The image search of replace_missing_urls.py *)
Section ImageSearch.
Import Tenacity MissingUrls.

(** A success without items raises [IndexError] inside the call; the
    handler logs it and raises it again. *)
Lemma search_call_found_nothing (r : api_response) (query nc_code : string) :
  found_nothing r = true ->
  search_call r query nc_code
  = (Raise out_of_range,
     [Log INFO ("Searching for " +:+ nc_code +:+ "~" +:+ query +:+ "...");
      Log ERROR ("Error finding image URL for " +:+ nc_code +:+ "~" +:+ query
                 +:+ ": list index out of range")]).
Proof.
  destruct r as [e | status items]; cbn [found_nothing]; [discriminate|].
  intros H. apply andb_prop in H as [Hs Hi].
  unfold search_call, raise_for_status. rewrite Hs.
  destruct (default [] items); [reflexivity | discriminate].
Qed.

(** When every call raises, the decorator gives up with [RetryError]
    after sleeping between the attempts that are left. *)
Lemma retry_go_all_raise {A} (p : policy) (fn : nat -> M A) :
  forall (fuel a : nat),
  (a + fuel = max_attempt_number p)%nat ->
  (forall k, (a <= k <= max_attempt_number p)%nat ->
             exists e t, fn k = (Raise e, t) /\ sleeps t = []) ->
  (retry_go p (S fuel) a fn).1 = Raise RetryError
  /\ length (sleeps (retry_go p (S fuel) a fn).2) = fuel.
Proof.
  induction fuel as [|fuel IH]; intros a Ha Hfn;
    destruct (Hfn a ltac:(lia)) as (e & t & Hf & Ht).
  - cbn [retry_go]. rewrite Hf. unfold decide, stop_after_attempt.
    destruct (Nat.leb_spec (max_attempt_number p) a); [|lia].
    cbn [fst snd]. rewrite Ht. split; reflexivity.
  - specialize (IH (S a) ltac:(lia) ltac:(intros k Hk; apply Hfn; lia)).
    destruct IH as [IH1 IH2].
    change (retry_go p (S (S fuel)) a fn)
      with (let '(o, t) := fn a in
            match o with
            | Return x => (Return x, t)
            | SysExit code => (SysExit code, t)
            | Raise e =>
                match decide p a (Exc e), S (S fuel) with
                | RetryAfter d, S fuel' =>
                    let '(r, t') := retry_go p fuel' (S a) fn in
                    (r, t ++ Sleep d :: t')
                | Reraise, _ => (Raise e, t)
                | _, _ => (Raise RetryError, t)
                end
            end).
    rewrite Hf. unfold decide, stop_after_attempt.
    destruct (Nat.leb_spec (max_attempt_number p) a); [lia|].
    destruct (retry_go p (S fuel) (S a) fn) as [r t'] eqn:Hrec.
    cbn [fst snd] in *. split; [assumption|].
    unfold sleeps in *. rewrite omap_app, Ht. cbn. rewrite IH2. reflexivity.
Qed.

Lemma retry_all_raise {A} (p : policy) (fn : nat -> M A) :
  (1 <= max_attempt_number p)%nat ->
  (forall k, (1 <= k <= max_attempt_number p)%nat ->
             exists e t, fn k = (Raise e, t) /\ sleeps t = []) ->
  (retry p fn).1 = Raise RetryError
  /\ length (sleeps (retry p fn).2) = (max_attempt_number p - 1)%nat.
Proof.
  intros Hmax Hfn. unfold retry.
  destruct (max_attempt_number p) as [|m] eqn:Hm; [lia|].
  replace (S m - 1)%nat with m by lia.
  apply retry_go_all_raise; [lia|]. rewrite Hm. exact Hfn.
Qed.

End ImageSearch.

(** C6, as the code has it: an answer without items makes the call raise
    [IndexError], which the retry policy treats like any other exception;
    when none of the 30 attempts finds an item the search sleeps 29 times
    and raises [RetryError].  No value is returned in place of the
    image. *)
Theorem search_without_items_is_retried (api : nat -> MissingUrls.api_response)
    (query nc_code : string) :
  (forall k, (1 <= k <= 30)%nat -> MissingUrls.found_nothing (api k) = true) ->
  (forall k, (1 <= k <= 30)%nat ->
     (MissingUrls.search_call (api k) query nc_code).1 = Raise out_of_range)
  /\ (forall k e, (k < 30)%nat ->
        Tenacity.decide MissingUrls.search_policy k (Tenacity.Exc out_of_range)
        = Tenacity.decide MissingUrls.search_policy k (Tenacity.Exc e)
        /\ Tenacity.decide MissingUrls.search_policy k (Tenacity.Exc out_of_range)
           = Tenacity.RetryAfter (Tenacity.wait_exponential MissingUrls.search_policy k))
  /\ (MissingUrls.google_custom_image_search api query nc_code).1 = Raise RetryError
  /\ length (Tenacity.sleeps (MissingUrls.google_custom_image_search api query nc_code).2)
     = 29%nat.
Proof.
  intros Hno. split; [|split].
  - intros k Hk. rewrite (search_call_found_nothing _ _ _ (Hno k Hk)). reflexivity.
  - intros k e Hk. split; [reflexivity|]. apply decide_before_bound. exact Hk.
  - apply (retry_all_raise MissingUrls.search_policy
             (fun k => MissingUrls.search_call (api k) query nc_code)).
    + cbn. lia.
    + intros k Hk. eexists _, _.
      rewrite (search_call_found_nothing _ _ _ (Hno k Hk)). split; reflexivity.
Qed.

Lemma search_without_items_is_retried_witness :
  (MissingUrls.google_custom_image_search Fixtures.no_items "Brand X 750ml" "NC-0001").1
  = Raise RetryError.
Proof.
  apply (search_without_items_is_retried Fixtures.no_items "Brand X 750ml" "NC-0001").
  intros k _. reflexivity.
Defined.

(** C6 as the specification words it fails: when the API never finds an
    item the search does not return. *)
Lemma search_without_items_does_not_return :
  ~ (forall (api : nat -> MissingUrls.api_response) (query nc_code : string),
       (forall k, MissingUrls.found_nothing (api k) = true) ->
       exists image_url,
         (MissingUrls.google_custom_image_search api query nc_code).1 = Return image_url).
Proof.
  intros H.
  destruct (H Fixtures.no_items "Brand X 750ml" "NC-0001" (fun _ => eq_refl)) as [v Hv].
  vm_compute in Hv. discriminate Hv.
Qed.

(** ** The updates of replace_x_image_urls.py *)

Section Updates.
Import XImage.

Lemma run_query_accepted (sink : warehouse) (sql : string) :
  sink sql = None -> run_query sink sql = (Return tt, [Query sql]).
Proof. intros H. unfold run_query. rewrite bind_unfold. cbn. rewrite H. reflexivity. Qed.

Lemma run_query_rejected (sink : warehouse) (sql : string) (e : exn) :
  sink sql = Some e -> run_query sink sql = (Raise e, [Query sql]).
Proof. intros H. unfold run_query. rewrite bind_unfold. cbn. rewrite H. reflexivity. Qed.

Lemma update_loop_cons (sink : warehouse) (q nc_code image_url : string)
    (rest : list (string * string)) :
  update_loop sink q ((nc_code, image_url) :: rest)
  = (_ ← run_query sink (replace "{nc_code}" nc_code (replace "{image_url}" image_url q));
     update_loop sink (replace "{nc_code}" nc_code (replace "{image_url}" image_url q)) rest).
Proof. reflexivity. Qed.

(** Once the placeholders are gone from the text, every later iteration
    sends that same text again. *)
Lemma update_loop_repeats (sink : warehouse) (q : string) (pairs : list (string * string)) :
  contains "{image_url}" q = false ->
  contains "{nc_code}" q = false ->
  sink q = None ->
  update_loop sink q pairs = (Return tt, replicate (length pairs) (Query q)).
Proof.
  intros Hi Hc Hs. induction pairs as [|[nc_code image_url] pairs IH]; [reflexivity|].
  rewrite update_loop_cons. unfold replace.
  rewrite (replace_go_absent _ _ _ Hi), (replace_go_absent _ _ _ Hc).
  rewrite (run_query_accepted _ _ Hs), bind_return, IH. reflexivity.
Qed.

(** The update loop sends the statement of the first pair once for
    every pair. *)
Lemma update_loop_first_statement (sink : warehouse) (nc_code image_url : string)
    (pairs : list (string * string)) :
  contains "{image_url}" (statement nc_code image_url) = false ->
  contains "{nc_code}" (statement nc_code image_url) = false ->
  sink (statement nc_code image_url) = None ->
  update_loop sink update_query ((nc_code, image_url) :: pairs)
  = (Return tt, replicate (S (length pairs)) (Query (statement nc_code image_url))).
Proof.
  unfold statement. generalize update_query. intros q Hi Hc Hs.
  rewrite update_loop_cons.
  rewrite (run_query_accepted _ _ Hs), bind_return.
  rewrite (update_loop_repeats sink _ pairs Hi Hc Hs). reflexivity.
Qed.

Lemma update_loop_outcome (sink : warehouse) (pairs : list (string * string)) :
  forall q, (update_loop sink q pairs).1 = Return tt
            \/ exists e, (update_loop sink q pairs).1 = Raise e.
Proof.
  induction pairs as [|[nc_code image_url] pairs IH]; intros q; [left; reflexivity|].
  rewrite update_loop_cons, bind_fst.
  set (q' := replace "{nc_code}" nc_code (replace "{image_url}" image_url q)).
  destruct (sink q') as [e|] eqn:Hs.
  - rewrite (run_query_rejected _ _ _ Hs). right. exists e. reflexivity.
  - rewrite (run_query_accepted _ _ Hs). apply IH.
Qed.

End Updates.

(** C2, on the code: the text with the first pair's values substituted is
    assigned back to [update_query], so when that text holds no
    placeholder any more and the warehouse accepts it, the loop sends the
    statement of the first pair once for every pair, and the statement of
    a later pair, when it differs, is never sent. *)
Theorem second_pair_is_never_updated (sink : XImage.warehouse) (nc_code image_url : string)
    (pairs : list (string * string)) :
  contains "{image_url}" (XImage.statement nc_code image_url) = false ->
  contains "{nc_code}" (XImage.statement nc_code image_url) = false ->
  sink (XImage.statement nc_code image_url) = None ->
  XImage.update_loop sink XImage.update_query ((nc_code, image_url) :: pairs)
  = (Return tt, replicate (S (length pairs)) (Query (XImage.statement nc_code image_url)))
  /\ forall nc_code' image_url',
       XImage.statement nc_code' image_url' <> XImage.statement nc_code image_url ->
       Query (XImage.statement nc_code' image_url')
       ∉ (XImage.update_loop sink XImage.update_query ((nc_code, image_url) :: pairs)).2.
Proof.
  intros Hi Hc Hs.
  pose proof (update_loop_first_statement sink nc_code image_url pairs Hi Hc Hs) as E.
  split; [exact E|].
  intros c' u' Hne Hin. rewrite E in Hin. cbn [snd] in Hin.
  apply elem_of_replicate in Hin as [Heq _]. apply Hne. congruence.
Qed.

Lemma second_pair_is_never_updated_witness :
  XImage.update_loop Fixtures.accepting XImage.update_query
    [("NC-0001", "https://abc2.nc.gov/a.jpg"); ("NC-0002", "https://abc2.nc.gov/b.jpg")]
  = (Return tt,
     [Query (XImage.statement "NC-0001" "https://abc2.nc.gov/a.jpg");
      Query (XImage.statement "NC-0001" "https://abc2.nc.gov/a.jpg")])
  /\ Query (XImage.statement "NC-0002" "https://abc2.nc.gov/b.jpg")
     ∉ (XImage.update_loop Fixtures.accepting XImage.update_query
          [("NC-0001", "https://abc2.nc.gov/a.jpg"); ("NC-0002", "https://abc2.nc.gov/b.jpg")]).2.
Proof.
  destruct (second_pair_is_never_updated Fixtures.accepting "NC-0001" "https://abc2.nc.gov/a.jpg"
              [("NC-0002", "https://abc2.nc.gov/b.jpg")]) as [H1 H2].
  - vm_compute. reflexivity.
  - vm_compute. reflexivity.
  - reflexivity.
  - split; [exact H1|]. apply H2. vm_compute. discriminate.
Defined.

Section Convergence.
Import XImage.

Lemma replace_x_raw_image_urls_outcome (df : list row) (net : network) :
  (exists lists, (replace_x_raw_image_urls df net).1 = Return lists)
  \/ (replace_x_raw_image_urls df net).1 = SysExit 1.
Proof.
  unfold replace_x_raw_image_urls.
  destruct (omap item_details_url (List.filter valid_url df)) as [|url urls];
    [left; eexists; reflexivity|].
  rewrite bind_fst. unfold process_urls.
  destruct (process_urls_from_outcome net (url :: urls) 0 []) as [[results ->] | ->];
    [left; eexists; reflexivity | right; reflexivity].
Qed.

(** One run of the body: the flag is set after one or two scrapes, or
    the process is left. *)
Lemma loop_body_outcome (df : list row) (world : nat -> network) (sink : warehouse) (st : state) :
  (loop_body df world sink st).1 = Return (State true (S (passes st)))
  \/ (loop_body df world sink st).1 = Return (State true (S (S (passes st))))
  \/ (loop_body df world sink st).1 = SysExit 0
  \/ (loop_body df world sink st).1 = SysExit 1.
Proof.
  unfold loop_body. rewrite try_except_fst, bind_fst.
  destruct (replace_x_raw_image_urls_outcome df (world (passes st))) as [[[l1 l2] ->] | ->];
    [|right; right; right; reflexivity].
  rewrite bind_fst.
  destruct (existsb (contains sentinel) l2).
  - rewrite bind_fst.
    destruct (replace_x_raw_image_urls_outcome df (world (S (passes st)))) as [[[l1' l2'] ->] | ->];
      [|right; right; right; reflexivity].
    cbn [fst ret mret M_ret]. rewrite bind_fst.
    destruct (update_loop_outcome sink (zip l1' l2') update_query) as [-> | [e ->]].
    + right; left; reflexivity.
    + right; right; left; reflexivity.
  - cbn [fst ret mret M_ret]. rewrite bind_fst.
    destruct (update_loop_outcome sink (zip l1 l2) update_query) as [-> | [e ->]].
    + left; reflexivity.
    + right; right; left; reflexivity.
Qed.

Lemma while_loop_resolved (fuel : nat) (df : list row) (world : nat -> network)
    (sink : warehouse) (n : nat) :
  while_loop fuel df world sink (State true n) = (Return (Some (State true n)), []).
Proof. destruct fuel; reflexivity. Qed.

(** With the flag unset the body runs once, whatever is left of the
    fuel: the loop never comes back for another turn. *)
Lemma while_loop_once (fuel : nat) (df : list row) (world : nat -> network)
    (sink : warehouse) (n : nat) :
  while_loop (S fuel) df world sink (State false n)
  = (st' ← loop_body df world sink (State false n); ret (Some st')).
Proof.
  cbn [while_loop no_x_raw_image_urls].
  pose proof (loop_body_outcome df world sink (State false n)) as H.
  destruct (loop_body df world sink (State false n)) as [[st'|e|code] t]; [|reflexivity..].
  cbn [fst passes] in H.
  assert (exists m, st' = State true m) as [m ->]
    by (destruct H as [H|[H|[H|H]]]; try discriminate H; injection H as ->; eexists; reflexivity).
  rewrite !bind_return, while_loop_resolved. reflexivity.
Qed.

(** A warehouse that accepts every statement lets the update loop run to
    its end. *)
Lemma update_loop_accepted (sink : warehouse) (pairs : list (string * string)) :
  (forall sql, sink sql = None) ->
  forall q, (update_loop sink q pairs).1 = Return tt.
Proof.
  intros Hs. induction pairs as [|[nc_code image_url] pairs IH]; intros q; [reflexivity|].
  rewrite update_loop_cons, bind_fst, (run_query_accepted _ _ (Hs _)). apply IH.
Qed.

(** The placeholder is seen after the first scrape: whatever the second
    scrape gives is sent to the warehouse, beginning with the statement
    of its first pair, and the flag is set. *)
Lemma loop_body_second_scrape (df : list row) (world : nat -> network) (sink : warehouse)
    (st : state) (codes urls codes' urls' : list string) (c u : string) :
  (replace_x_raw_image_urls df (world (passes st))).1 = Return (codes, urls) ->
  existsb (contains sentinel) urls = true ->
  (replace_x_raw_image_urls df (world (S (passes st)))).1 = Return (c :: codes', u :: urls') ->
  (forall sql, sink sql = None) ->
  exists t,
    loop_body df world sink st
    = (Return (State true (S (S (passes st)))),
       (replace_x_raw_image_urls df (world (passes st))).2
       ++ (replace_x_raw_image_urls df (world (S (passes st)))).2
       ++ Query (statement c u) :: t).
Proof.
  intros H1 Hx H2 Hs. unfold loop_body, statement. generalize update_query. intros q.
  destruct (replace_x_raw_image_urls df (world (passes st))) as [o1 t1].
  destruct (replace_x_raw_image_urls df (world (S (passes st)))) as [o2 t2].
  cbn [fst snd] in *. subst o1 o2.
  rewrite bind_return. cbn [fst snd]. rewrite Hx.
  rewrite (bind_return (c :: codes', u :: urls') t2). cbn [fst snd ret mret M_ret].
  rewrite (bind_return (A := list string * list string * nat)). cbn [fst snd zip zip_with].
  rewrite update_loop_cons.
  rewrite (run_query_accepted _ _ (Hs _)), bind_return.
  set (q' := replace "{nc_code}" c (replace "{image_url}" u q)).
  pose proof (update_loop_accepted sink (zip_with pair codes' urls') Hs q') as Hrest.
  destruct (update_loop sink q' (zip_with pair codes' urls')) as [o t]. cbn [fst] in Hrest.
  subst o. exists t. cbn [fst snd]. rewrite bind_return. cbn [try_except fst snd].
  rewrite !app_nil_r. reflexivity.
Qed.

End Convergence.

(** C3, on the code: the loop has no bound on its passes and raises no
    PartialResolutionError; with the flag unset its body runs once, for
    any fuel of at least one turn.  When the placeholder shows after the
    first scrape, the pages are scraped a second time and the result of
    that second scrape is not looked at: with a warehouse that accepts
    every statement, the statement that stores the image value [u] of the
    first pair is sent and the flag [no_x_raw_image_urls] is set, whatever
    [u] is, so also when [u] still holds the placeholder. *)
Theorem second_scrape_is_not_checked (fuel : nat) (df : list XImage.row)
    (world : nat -> XImage.network) (sink : XImage.warehouse)
    (codes urls codes' urls' : list string) (c u : string) :
  (1 <= fuel)%nat ->
  (XImage.replace_x_raw_image_urls df (world 0%nat)).1 = Return (codes, urls) ->
  existsb (contains XImage.sentinel) urls = true ->
  (XImage.replace_x_raw_image_urls df (world 1%nat)).1 = Return (c :: codes', u :: urls') ->
  (forall sql, sink sql = None) ->
  XImage.while_loop fuel df world sink (XImage.State false 0)
  = XImage.while_loop 1 df world sink (XImage.State false 0)
  /\ exists t,
       XImage.while_loop fuel df world sink (XImage.State false 0)
       = (Return (Some (XImage.State true 2)),
          (XImage.replace_x_raw_image_urls df (world 0%nat)).2
          ++ (XImage.replace_x_raw_image_urls df (world 1%nat)).2
          ++ Query (XImage.statement c u) :: t).
Proof.
  intros Hfuel H1 Hx H2 Hs. destruct fuel as [|fuel]; [lia|]. clear Hfuel.
  rewrite (while_loop_once fuel), (while_loop_once 0).
  split; [reflexivity|].
  destruct (loop_body_second_scrape df world sink (XImage.State false 0)
              codes urls codes' urls' c u H1 Hx H2 Hs) as [t Ht].
  exists t. rewrite Ht, bind_return. cbn [fst snd ret mret M_ret XImage.passes].
  rewrite app_nil_r. reflexivity.
Qed.

Lemma second_scrape_is_not_checked_witness :
  contains XImage.sentinel "https://abc2.nc.gov/x-raw-image:///a" = true
  /\ contains XImage.sentinel
       (XImage.statement "NC-0001" "https://abc2.nc.gov/x-raw-image:///a") = true
  /\ exists t,
       XImage.while_loop 5 Fixtures.one_row Fixtures.stuck Fixtures.accepting
         (XImage.State false 0)
       = (Return (Some (XImage.State true 2)),
          (XImage.replace_x_raw_image_urls Fixtures.one_row (Fixtures.stuck 0%nat)).2
          ++ (XImage.replace_x_raw_image_urls Fixtures.one_row (Fixtures.stuck 1%nat)).2
          ++ Query (XImage.statement "NC-0001" "https://abc2.nc.gov/x-raw-image:///a") :: t).
Proof.
  split; [vm_compute; reflexivity|]. split; [vm_compute; reflexivity|].
  destruct (second_scrape_is_not_checked 5 Fixtures.one_row Fixtures.stuck Fixtures.accepting
              ["NC-0001"] ["https://abc2.nc.gov/x-raw-image:///a"] [] []
              "NC-0001" "https://abc2.nc.gov/x-raw-image:///a") as [_ H].
  - lia.
  - vm_compute. reflexivity.
  - vm_compute. reflexivity.
  - vm_compute. reflexivity.
  - reflexivity.
  - exact H.
Defined.

(** C3 as the specification words it fails: when the page still shows the
    placeholder at the second scrape, the flag is set all the same and the
    statement that was sent stores the placeholder. *)
Lemma resolved_with_placeholder_left :
  ~ (forall (fuel : nat) (df : list XImage.row) (world : nat -> XImage.network)
       (sink : XImage.warehouse) (st : XImage.state) (t : list event),
       XImage.while_loop fuel df world sink (XImage.State false 0) = (Return (Some st), t) ->
       XImage.no_x_raw_image_urls st = true ->
       forall sql, Query sql ∈ t -> contains XImage.sentinel sql = false).
Proof.
  intros H.
  specialize (H 1%nat Fixtures.one_row Fixtures.stuck Fixtures.accepting
                (XImage.State true 2)
                (XImage.while_loop 1 Fixtures.one_row Fixtures.stuck Fixtures.accepting
                   (XImage.State false 0)).2).
  assert (E : XImage.while_loop 1 Fixtures.one_row Fixtures.stuck Fixtures.accepting
                (XImage.State false 0)
              = (Return (Some (XImage.State true 2)),
                 (XImage.while_loop 1 Fixtures.one_row Fixtures.stuck Fixtures.accepting
                    (XImage.State false 0)).2))
    by (vm_compute; reflexivity).
  specialize (H E eq_refl
                (XImage.statement "NC-0001" "https://abc2.nc.gov/x-raw-image:///a")).
  assert (Hin : Query (XImage.statement "NC-0001" "https://abc2.nc.gov/x-raw-image:///a")
                ∈ (XImage.while_loop 1 Fixtures.one_row Fixtures.stuck Fixtures.accepting
                     (XImage.State false 0)).2).
  { vm_compute. do 2 apply list_elem_of_further. apply list_elem_of_here. }
  specialize (H Hin). vm_compute in H. discriminate H.
Qed.

(** * Further properties of the scripts *)

Section SplitFacts.

Lemma append_empty (s : string) : "" +:+ s = s.
Proof. reflexivity. Qed.

Lemma append_cons (c : ascii) (a s : string) : String c a +:+ s = String c (a +:+ s).
Proof. reflexivity. Qed.

(** Cutting at a separator of one character: the text before its first
    occurrence is the first piece. *)
Lemma split_go_single (c : ascii) (a b : string) :
  contains (String c "") a = false ->
  split_go (String c "") 0 (a +:+ String c b)
  = (a, (split_go (String c "") 0 b).1 :: (split_go (String c "") 0 b).2).
Proof.
  induction a as [|x a IH]; intros Ha.
  - rewrite append_empty. cbn [split_go].
    assert (Hp : String.prefix (String c "") (String c b) = true)
      by (apply prefix_cons; split; [reflexivity | apply prefix_empty]).
    rewrite Hp. cbn [String.length Nat.sub].
    destruct (split_go (String c "") 0 b); reflexivity.
  - rewrite contains_cons in Ha. apply orb_false_elim in Ha as [Hp Hc].
    rewrite append_cons. cbn [split_go].
    assert (Hp' : String.prefix (String c "") (String x (a +:+ String c b)) = false).
    { destruct (String.prefix (String c "") (String x (a +:+ String c b))) eqn:E; [|reflexivity].
      apply prefix_cons in E as [-> _].
      rewrite <- Hp. symmetry. apply prefix_cons. split; [reflexivity | apply prefix_empty]. }
    rewrite Hp', (IH Hc). reflexivity.
Qed.

Lemma split_single (c : ascii) (a b : string) :
  contains (String c "") a = false ->
  split (String c "") (a +:+ String c "" +:+ b) = a :: split (String c "") b.
Proof.
  intros Ha. unfold split. rewrite append_cons, append_empty.
  rewrite (split_go_single c a b Ha).
  destruct (split_go (String c "") 0 b); reflexivity.
Qed.

(** A text that holds the separator is cut into two pieces at least. *)
Lemma split_go_present (sep s : string) :
  sep <> "" -> contains sep s = true -> (split_go sep 0 s).2 <> [].
Proof.
  intros Hsep. induction s as [|c s IH]; intros H.
  - cbn in H. rewrite orb_false_r in H. apply prefix_of_empty in H. contradiction.
  - rewrite contains_cons in H. cbn [split_go].
    destruct (String.prefix sep (String c s)) eqn:Hp.
    + destruct (split_go sep (String.length sep - 1) s); cbn; discriminate.
    + cbn [orb] in H. specialize (IH H).
      destruct (split_go sep 0 s) as [h t]; cbn in *. exact IH.
Qed.

Lemma split_present (sep s : string) :
  sep <> "" -> contains sep s = true ->
  exists a b rest, split sep s = a :: b :: rest.
Proof.
  intros Hsep H. pose proof (split_go_present sep s Hsep H) as Hne.
  unfold split. destruct (split_go sep 0 s) as [h [|b rest]]; cbn in *; [contradiction|].
  eexists _, _, _. reflexivity.
Qed.

End SplitFacts.

Section RetrySchedule.
Import Tenacity.
Context {A : Type}.

Lemma retry_go_unfold (p : policy) (fuel a : nat) (fn : nat -> M A) :
  retry_go p fuel a fn
  = (let '(o, t) := fn a in
     match o with
     | Return x => (Return x, t)
     | SysExit code => (SysExit code, t)
     | Raise e =>
         match decide p a (Exc e), fuel with
         | RetryAfter d, S fuel' =>
             let '(r, t') := retry_go p fuel' (S a) fn in
             (r, t ++ Sleep d :: t')
         | Reraise, _ => (Raise e, t)
         | _, _ => (Raise RetryError, t)
         end
     end).
Proof. destruct fuel; reflexivity. Qed.

Lemma sleeps_app (t t' : list event) : sleeps (t ++ t') = sleeps t ++ sleeps t'.
Proof. unfold sleeps. apply omap_app. Qed.

Lemma sleeps_sleep (d : Z) (t : list event) : sleeps (Sleep d :: t) = d :: sleeps t.
Proof. reflexivity. Qed.

(** The first attempt that returns, the [k]-th, ends the retries: the
    attempts before it were each followed by the delay of the policy. *)
Lemma retry_go_first_return (p : policy) (fn : nat -> M A) (k : nat) (v : A) (t : list event) :
  (k <= max_attempt_number p)%nat ->
  fn k = (Return v, t) -> sleeps t = [] ->
  forall (fuel a : nat),
  (a <= k)%nat -> (k - a <= fuel)%nat ->
  (forall j, (a <= j < k)%nat -> exists e tj, fn j = (Raise e, tj) /\ sleeps tj = []) ->
  (retry_go p fuel a fn).1 = Return v
  /\ sleeps (retry_go p fuel a fn).2 = wait_exponential p <$> seq a (k - a).
Proof.
  intros Hk Hfk Ht. induction fuel as [|fuel IH]; intros a Ha Hfuel Hfn.
  - assert (a = k) as -> by lia. rewrite retry_go_unfold, Hfk, Nat.sub_diag.
    split; [reflexivity | exact Ht].
  - destruct (Nat.eq_dec a k) as [-> | Hne].
    + rewrite retry_go_unfold, Hfk, Nat.sub_diag. split; [reflexivity | exact Ht].
    + destruct (Hfn a ltac:(lia)) as (e & ta & Hfa & Hta).
      rewrite retry_go_unfold, Hfa, (decide_before_bound p a e ltac:(lia)).
      destruct (IH (S a) ltac:(lia) ltac:(lia) ltac:(intros j Hj; apply Hfn; lia)) as [IH1 IH2].
      destruct (retry_go p fuel (S a) fn) as [r t']. cbn [fst snd] in *.
      split; [exact IH1|].
      rewrite sleeps_app, Hta, sleeps_sleep, IH2. cbn [app]. replace (k - a)%nat with (S (k - S a)) by lia. reflexivity.
Qed.

(** When no attempt returns, every attempt but the last is followed by
    the delay of the policy. *)
Lemma retry_go_all_raise_sleeps (p : policy) (fn : nat -> M A) :
  forall (fuel a : nat),
  (a + fuel = max_attempt_number p)%nat ->
  (forall k, (a <= k <= max_attempt_number p)%nat ->
             exists e t, fn k = (Raise e, t) /\ sleeps t = []) ->
  sleeps (retry_go p (S fuel) a fn).2 = wait_exponential p <$> seq a fuel.
Proof.
  induction fuel as [|fuel IH]; intros a Ha Hfn;
    destruct (Hfn a ltac:(lia)) as (e & t & Hf & Ht).
  - rewrite retry_go_unfold, Hf, (decide_at_bound p a e ltac:(lia)). exact Ht.
  - specialize (IH (S a) ltac:(lia) ltac:(intros k Hk; apply Hfn; lia)).
    rewrite retry_go_unfold, Hf, (decide_before_bound p a e ltac:(lia)).
    destruct (retry_go p (S fuel) (S a) fn) as [r t']. cbn [fst snd] in *.
    rewrite sleeps_app, Ht, sleeps_sleep, IH. reflexivity.
Qed.

End RetrySchedule.

Section SearchCall.
Import Tenacity MissingUrls.

(** What one call of the search gives, case by case. *)
Lemma search_call_fst (r : api_response) (query nc_code : string) :
  (search_call r query nc_code).1 =
  match r with
  | GetRaises e => Raise e
  | Response status items =>
      if (200 <=? status) && (status <? 300) then
        match default [] items with
        | [] => Raise out_of_range
        | first :: _ =>
            match first !! "link" with
            | Some image_url => Return (nc_code +:+ "~" +:+ image_url)
            | None => Raise (KeyError "'link'")
            end
        end
      else Raise (HTTPStatusError status)
  end.
Proof.
  destruct r as [e | status items]; [reflexivity|].
  unfold search_call, raise_for_status.
  destruct ((200 <=? status) && (status <? 300)); [|reflexivity].
  destruct (default [] items) as [|first rest]; [reflexivity|].
  unfold getitem, index. cbn [lookup list_lookup].
  rewrite !bind_unfold. cbn [bind emit ret]. destruct (first !! "link"); reflexivity.
Qed.

Lemma search_call_sleeps (r : api_response) (query nc_code : string) :
  sleeps (search_call r query nc_code).2 = [].
Proof.
  destruct r as [e | status items]; [reflexivity|].
  unfold search_call, raise_for_status.
  destruct ((200 <=? status) && (status <? 300)); [|reflexivity].
  destruct (default [] items) as [|first rest]; [reflexivity|].
  unfold getitem, index. cbn [lookup list_lookup].
  rewrite !bind_unfold. cbn [bind emit ret]. destruct (first !! "link"); reflexivity.
Qed.

(** A call of the search returns or raises; it never leaves the process. *)
Lemma search_call_outcome (r : api_response) (query nc_code : string) :
  (exists v, (search_call r query nc_code).1 = Return v)
  \/ (exists e, (search_call r query nc_code).1 = Raise e).
Proof.
  rewrite search_call_fst. destruct r as [e | status items]; [right; eauto|].
  destruct ((200 <=? status) && (status <? 300)); [|right; eauto].
  destruct (default [] items) as [|first rest]; [right; eauto|].
  destruct (first !! "link"); [left | right]; eauto.
Qed.

Lemma search_call_raises (r : api_response) (query nc_code : string) :
  (forall v, (search_call r query nc_code).1 <> Return v) ->
  exists e t, search_call r query nc_code = (Raise e, t) /\ sleeps t = [].
Proof.
  intros H. pose proof (search_call_sleeps r query nc_code) as Hs.
  destruct (search_call_outcome r query nc_code) as [[v Hv] | [e He]];
    [exfalso; exact (H v Hv)|].
  destruct (search_call r query nc_code) as [o t]. cbn [fst snd] in *. subst o.
  exists e, t. split; [reflexivity | exact Hs].
Qed.

End SearchCall.

(** X1: the search returns at the first attempt that finds an image, the
    [k]-th of at most 30: its value is the code, a tilde and the link of
    the first item, and before it the search has slept once after each
    failed attempt, for the delays of the policy. *)
Theorem search_returns_at_first_good_attempt (api : nat -> MissingUrls.api_response)
    (query nc_code : string) (k : nat) (status : Z)
    (first : gmap string string) (others : list (gmap string string)) (link : string) :
  (1 <= k <= 30)%nat ->
  (forall j, (1 <= j < k)%nat ->
     forall v, (MissingUrls.search_call (api j) query nc_code).1 <> Return v) ->
  api k = MissingUrls.Response status (Some (first :: others)) ->
  200 <= status < 300 ->
  first !! "link" = Some link ->
  (MissingUrls.google_custom_image_search api query nc_code).1
  = Return (nc_code +:+ "~" +:+ link)
  /\ Tenacity.sleeps (MissingUrls.google_custom_image_search api query nc_code).2
     = Tenacity.wait_exponential MissingUrls.search_policy <$> seq 1 (k - 1)
  /\ Forall (fun d => 4 <= d <= 15)
       (Tenacity.sleeps (MissingUrls.google_custom_image_search api query nc_code).2).
Proof.
  intros Hk Hbefore Hapi Hstatus Hlink.
  assert (Hret : (MissingUrls.search_call (api k) query nc_code).1
                 = Return (nc_code +:+ "~" +:+ link)).
  { rewrite search_call_fst, Hapi.
    replace ((200 <=? status) && (status <? 300)) with true by (symmetry; apply andb_true_intro; lia).
    cbn [default from_option id]. rewrite Hlink. reflexivity. }
  pose proof (search_call_sleeps (api k) query nc_code) as Hsl.
  destruct (MissingUrls.search_call (api k) query nc_code) as [o t] eqn:Hcall.
  cbn [fst] in Hret. subst o. cbn [snd] in Hsl.
  destruct (retry_go_first_return MissingUrls.search_policy
              (fun j => MissingUrls.search_call (api j) query nc_code)
              k _ t ltac:(cbn; lia) Hcall Hsl 30 1 ltac:(lia) ltac:(lia)) as [H1 H2].
  { intros j Hj. apply search_call_raises. apply Hbefore. exact Hj. }
  unfold MissingUrls.google_custom_image_search, Tenacity.retry.
  change (Tenacity.max_attempt_number MissingUrls.search_policy) with 30%nat.
  split; [exact H1|]. split; [exact H2|].
  rewrite H2. apply Forall_fmap, Forall_forall. intros j _. cbn.
  exact (wait_exponential_window MissingUrls.search_policy ltac:(cbn; lia) ltac:(cbn; lia) j).
Qed.

Lemma search_returns_at_first_good_attempt_witness :
  (MissingUrls.google_custom_image_search
     (MoreFixtures.third_time "https://example.org/a.jpg") "Brand X 750ml" "00-123").1
  = Return "00-123~https://example.org/a.jpg"
  /\ Tenacity.sleeps (MissingUrls.google_custom_image_search
                        (MoreFixtures.third_time "https://example.org/a.jpg")
                        "Brand X 750ml" "00-123").2
     = [4; 4].
Proof.
  destruct (search_returns_at_first_good_attempt
              (MoreFixtures.third_time "https://example.org/a.jpg") "Brand X 750ml" "00-123"
              3 200 {["link" := "https://example.org/a.jpg"]} [] "https://example.org/a.jpg")
    as (H1 & H2 & _).
  - lia.
  - intros j Hj v. assert (j = 1 \/ j = 2)%nat as [-> | ->] by lia; vm_compute; discriminate.
  - reflexivity.
  - lia.
  - reflexivity.
  - split; [exact H1 | exact H2].
Defined.

(** X2: a search whose 30 attempts all fail, in whatever way, raises
    [RetryError] in place of the last exception, after waiting 4, 4, 4, 8
    and then 25 times 15 seconds: 395 seconds in all. *)
Theorem search_exhausted_after_395_seconds (api : nat -> MissingUrls.api_response)
    (query nc_code : string) :
  (forall k, (1 <= k <= 30)%nat ->
     forall v, (MissingUrls.search_call (api k) query nc_code).1 <> Return v) ->
  (MissingUrls.google_custom_image_search api query nc_code).1 = Raise RetryError
  /\ Tenacity.sleeps (MissingUrls.google_custom_image_search api query nc_code).2
     = [4; 4; 4; 8] ++ replicate 25 15
  /\ foldr Z.add 0 (Tenacity.sleeps (MissingUrls.google_custom_image_search api query nc_code).2)
     = 395.
Proof.
  intros Hfail.
  assert (Hfn : forall k, (1 <= k <= Tenacity.max_attempt_number MissingUrls.search_policy)%nat ->
                exists e t, MissingUrls.search_call (api k) query nc_code = (Raise e, t)
                            /\ Tenacity.sleeps t = []).
  { intros k Hk. apply search_call_raises, Hfail. exact Hk. }
  destruct (retry_all_raise MissingUrls.search_policy
              (fun k => MissingUrls.search_call (api k) query nc_code)
              ltac:(cbn; lia) Hfn) as [H1 _].
  pose proof (retry_go_all_raise_sleeps MissingUrls.search_policy
                (fun k => MissingUrls.search_call (api k) query nc_code)
                29 1 ltac:(reflexivity) Hfn) as H2.
  unfold MissingUrls.google_custom_image_search.
  split; [exact H1|].
  unfold Tenacity.retry. change (Tenacity.max_attempt_number MissingUrls.search_policy) with 30%nat.
  rewrite H2. split; reflexivity.
Qed.

Lemma search_exhausted_after_395_seconds_witness :
  (MissingUrls.google_custom_image_search (fun _ => MissingUrls.Response 429 None)
     "Brand X 750ml" "00-123").1 = Raise RetryError
  /\ foldr Z.add 0
       (Tenacity.sleeps (MissingUrls.google_custom_image_search
                           (fun _ => MissingUrls.Response 429 None) "Brand X 750ml" "00-123").2)
     = 395.
Proof.
  destruct (search_exhausted_after_395_seconds (fun _ => MissingUrls.Response 429 None)
              "Brand X 750ml" "00-123") as (H1 & _ & H3).
  - intros k _ v. vm_compute. discriminate.
  - split; [exact H1 | exact H3].
Defined.

Section Comprehensions.
Context {A B : Type}.

Lemma bind_pure {C D : Type} (a : C) (k : C -> M D) : ((Return a, []) : M C) ≫= k = k a.
Proof. rewrite bind_unfold. cbn. destruct (k a); reflexivity. Qed.

Lemma mapM_cons (f : A -> M B) (x : A) (l : list A) :
  mapM f (x :: l) = (y ← f x; k ← mapM f l; mret (y :: k)).
Proof. reflexivity. Qed.

(** A comprehension whose items are all computed without effect. *)
Lemma mapM_pure (f : A -> M B) (l : list A) (ys : list B) :
  Forall2 (fun x y => f x = (Return y, [])) l ys -> mapM f l = (Return ys, []).
Proof.
  induction 1 as [|x y l ys Hx _ IH]; [reflexivity|].
  rewrite mapM_cons, Hx, bind_pure, IH, bind_pure. reflexivity.
Qed.

(** A comprehension stops at the first item that raises. *)
Lemma mapM_raise (f : A -> M B) (l : list A) (e : exn) :
  (forall x, x ∈ l -> f x = (Raise e, []) \/ exists y, f x = (Return y, [])) ->
  (exists x, x ∈ l /\ f x = (Raise e, [])) ->
  mapM f l = (Raise e, []).
Proof.
  induction l as [|x l IH]; intros Hall (x0 & Hin & Hx0); [inversion Hin|].
  rewrite mapM_cons.
  destruct (Hall x ltac:(left)) as [Hx | [y Hx]]; rewrite Hx; [reflexivity|].
  rewrite bind_pure, IH; [reflexivity | |].
  - intros x' Hx'. apply Hall. right. exact Hx'.
  - apply elem_of_cons in Hin as [-> | Hin]; [congruence|]. exists x0. split; assumption.
Qed.

End Comprehensions.

Section GatherRaise.
Import Asyncio.
Context {A : Type}.

Lemma run_in_order_raise (tasks : list (M A)) (order : list nat) (slots : list (option A))
    (e : exn) (j : nat) (tj : M A) :
  (forall i t, tasks !! i = Some t -> (exists a, t.1 = Return a) \/ t.1 = Raise e) ->
  tasks !! j = Some tj -> tj.1 = Raise e -> j ∈ order ->
  (run_in_order tasks order slots).1 = Raise e.
Proof.
  intros Hall Hj Hraise. revert slots.
  induction order as [|i rest IH]; intros slots Hin; [inversion Hin|].
  cbn [run_in_order].
  destruct (tasks !! i) as [t|] eqn:Ht.
  - rewrite bind_fst.
    destruct (Hall i t Ht) as [[a Ha] | Ha]; rewrite Ha; [|reflexivity].
    apply IH. apply elem_of_cons in Hin as [-> | Hin]; [|assumption].
    congruence.
  - apply IH. apply elem_of_cons in Hin as [-> | Hin]; [congruence | assumption].
Qed.

(** When the tasks can only return or raise [e], one task raising makes
    the whole wait raise. *)
Lemma gather_raise (tasks : list (M A)) (sched : list nat) (e : exn) (j : nat) (tj : M A) :
  (forall i t, tasks !! i = Some t -> (exists a, t.1 = Return a) \/ t.1 = Raise e) ->
  tasks !! j = Some tj -> tj.1 = Raise e ->
  (gather tasks sched).1 = Raise e.
Proof.
  intros Hall Hj Hraise. unfold gather. rewrite bind_fst.
  rewrite (run_in_order_raise tasks _ _ e j tj Hall Hj Hraise); [reflexivity|].
  apply completion_order_complete. apply lookup_lt_Some in Hj. assumption.
Qed.

Lemma all_return_or_one_raises (tasks : list (M A)) (e : exn) :
  (forall i t, tasks !! i = Some t -> (exists a, t.1 = Return a) \/ t.1 = Raise e) ->
  (exists results, Forall2 (fun t a => t.1 = Return a) tasks results)
  \/ (exists j tj, tasks !! j = Some tj /\ tj.1 = Raise e).
Proof.
  induction tasks as [|t tasks IH]; intros Hall.
  - left. exists []. constructor.
  - destruct (Hall 0%nat t eq_refl) as [[a Ha] | Ht].
    + destruct IH as [[results Hres] | (j & tj & Hj & Hexit)].
      * intros i t' Hi. exact (Hall (S i) t' Hi).
      * left. exists (a :: results). constructor; assumption.
      * right. exists (S j), tj. split; assumption.
    + right. exists 0%nat, t. split; [reflexivity | assumption].
Qed.

End GatherRaise.

Section SearchOutcome.
Import Tenacity MissingUrls.

(** The decorator turns every exception of the function into a new
    attempt or into [RetryError]: no other exception leaves it. *)
Lemma retry_go_outcome {A} (p : policy) (fn : nat -> M A) (P : A -> Prop) :
  (forall k, (exists v, (fn k).1 = Return v /\ P v) \/ (exists e, (fn k).1 = Raise e)) ->
  forall fuel a,
  (exists v, (retry_go p fuel a fn).1 = Return v /\ P v)
  \/ (retry_go p fuel a fn).1 = Raise RetryError.
Proof.
  intros Hfn. induction fuel as [|fuel IH]; intros a; rewrite retry_go_unfold;
    destruct (Hfn a) as [(v & Hv & HP) | [e He]];
    destruct (fn a) as [o t]; cbn [fst] in *; subst o.
  - left. exists v. split; [reflexivity | exact HP].
  - right. unfold decide. destruct (stop_after_attempt p a); reflexivity.
  - left. exists v. split; [reflexivity | exact HP].
  - unfold decide. destruct (stop_after_attempt p a); [right; reflexivity|].
    destruct (IH (S a)) as [(v & Hv & HP) | Hr];
      destruct (retry_go p fuel (S a) fn) as [r t']; cbn [fst] in *; subst r.
    + left. exists v. split; [reflexivity | exact HP].
    + right. reflexivity.
Qed.

(** The search returns the code, a tilde and a link, or raises
    [RetryError]. *)
Lemma google_custom_image_search_outcome (api : nat -> api_response) (query nc_code : string) :
  (exists link, (google_custom_image_search api query nc_code).1
                = Return (nc_code +:+ "~" +:+ link))
  \/ (google_custom_image_search api query nc_code).1 = Raise RetryError.
Proof.
  destruct (retry_go_outcome search_policy (fun k => search_call (api k) query nc_code)
              (fun v => exists link, v = nc_code +:+ "~" +:+ link)) with (fuel := 30%nat) (a := 1%nat)
    as [(v & Hv & link & ->) | Hr].
  - intros k. rewrite search_call_fst. destruct (api k) as [e | status items]; [right; eauto|].
    destruct ((200 <=? status) && (status <? 300)); [|right; eauto].
    destruct (default [] items) as [|first rest]; [right; eauto|].
    destruct (first !! "link") as [link|]; [left | right]; eauto.
  - left. exists link. exact Hv.
  - right. exact Hr.
Qed.

End SearchOutcome.

Section SearchBatch.
Import MissingUrls MissingUrlsMain.

Lemma contains_append (sep a b : string) : contains sep (a +:+ sep +:+ b) = true.
Proof.
  induction a as [|x a IH].
  - rewrite append_empty. destruct sep as [|c sep]; [destruct b; reflexivity|].
    rewrite append_cons, contains_cons.
    assert (H : String.prefix (String c sep) (String c (sep +:+ b)) = true).
    { apply prefix_cons. split; [reflexivity|]. clear. induction sep as [|y sep IH].
      - apply prefix_empty.
      - rewrite append_cons. apply prefix_cons. split; [reflexivity | exact IH]. }
    rewrite H. reflexivity.
  - rewrite append_cons, contains_cons, IH. apply orb_true_r.
Qed.

Lemma task_arguments_absent (code_and_query : string) :
  contains "~" code_and_query = false ->
  task_arguments code_and_query = (Raise out_of_range, []).
Proof. intros H. unfold task_arguments. rewrite (split_absent _ _ H). reflexivity. Qed.

Lemma task_arguments_present (code_and_query : string) :
  contains "~" code_and_query = true ->
  exists nc_code query rest,
    split "~" code_and_query = nc_code :: query :: rest
    /\ task_arguments code_and_query = (Return (nc_code, query), []).
Proof.
  intros H. destruct (split_present "~" code_and_query ltac:(discriminate) H) as (c & q & rest & Hs).
  exists c, q, rest. split; [exact Hs|]. unfold task_arguments. rewrite Hs. reflexivity.
Qed.

Lemma task_arguments_cases (code_and_query : string) :
  task_arguments code_and_query = (Raise out_of_range, [])
  \/ exists y, task_arguments code_and_query = (Return y, []).
Proof.
  destruct (contains "~" code_and_query) eqn:H.
  - right. destruct (task_arguments_present _ H) as (c & q & rest & _ & Ht). eauto.
  - left. apply task_arguments_absent, H.
Qed.

(** The arguments of all the tasks, when every entry holds a tilde. *)
Lemma arguments_return (l : list string) :
  Forall (fun cq => contains "~" cq = true) l ->
  exists arguments,
    mapM task_arguments l = (Return arguments, [])
    /\ Forall2 (fun cq a => exists rest, split "~" cq = a.1 :: a.2 :: rest) l arguments.
Proof.
  induction 1 as [|cq l Hcq _ (arguments & Hm & Hargs)].
  - exists []. split; [reflexivity | constructor].
  - destruct (task_arguments_present cq Hcq) as (c & q & rest & Hs & Ht).
    exists ((c, q) :: arguments). split.
    + rewrite mapM_cons, Ht, bind_pure, Hm, bind_pure. reflexivity.
    + constructor; [exists rest; exact Hs | exact Hargs].
Qed.

Lemma search_task_outcome (api : network) (arguments : list (string * string)) (i : nat)
    (t : M string) :
  imap (fun i '(nc_code, query) => google_custom_image_search (api i) query nc_code)
       arguments !! i = Some t ->
  (exists v, t.1 = Return v) \/ t.1 = Raise RetryError.
Proof.
  rewrite list_lookup_imap. destruct (arguments !! i) as [[c q]|]; [|discriminate].
  cbn. intros [= <-].
  destruct (google_custom_image_search_outcome (api i) q c) as [[link H] | H]; eauto.
Qed.

(** A result of the search holds a tilde, so both of its pieces can be
    read. *)
Lemma backfill_row (nc_code image_url : string) :
  contains "~" nc_code = false ->
  index (split "~" (nc_code +:+ "~" +:+ image_url)) 0 = (Return nc_code, [])
  /\ index (split "~" (nc_code +:+ "~" +:+ image_url)) 1
     = (Return (split_go "~" 0 image_url).1, []).
Proof.
  intros H. rewrite (split_single "~"%char nc_code image_url H).
  unfold split. destruct (split_go "~" 0 image_url); split; reflexivity.
Qed.

Lemma backfill_index_1 (result : string) :
  contains "~" result = true -> exists v, index (split "~" result) 1 = (Return v, []).
Proof.
  intros H. destruct (split_present "~" result ltac:(discriminate) H) as (a & b & rest & ->).
  exists b. reflexivity.
Qed.

Lemma backfill_index_0 (result : string) :
  exists v, index (split "~" result) 0 = (Return v, []).
Proof. unfold split. destruct (split_go "~" 0 result). eexists. reflexivity. Qed.

Lemma backfill_columns_return (results : list string) :
  Forall (fun result => contains "~" result = true) results ->
  exists columns, backfill_columns results = (Return columns, []).
Proof.
  intros H. unfold backfill_columns.
  assert (H1 : exists l, Forall2 (fun x y => index (split "~" x) 1 = (Return y, [])) results l).
  { induction H as [|r results Hr _ [l IH]]; [exists []; constructor|].
    destruct (backfill_index_1 r Hr) as [v Hv]. exists (v :: l). constructor; assumption. }
  assert (H0 : exists l, Forall2 (fun x y => index (split "~" x) 0 = (Return y, [])) results l).
  { clear. induction results as [|r results [l IH]]; [exists []; constructor|].
    destruct (backfill_index_0 r) as [v Hv]. exists (v :: l). constructor; assumption. }
  destruct H0 as [l0 H0], H1 as [l1 H1].
  rewrite (mapM_pure (fun result => index (split "~" result) 0) _ _ H0), bind_pure.
  rewrite (mapM_pure (fun result => index (split "~" result) 1) _ _ H1), bind_pure.
  eexists. reflexivity.
Qed.

Lemma missing_urls_query_fst (sv : services) :
  (bigquery_to_df sv).1 =
  match code_and_query_list sv with
  | inl e => Raise e
  | inr l => Return l
  end.
Proof. unfold bigquery_to_df. destruct (code_and_query_list sv); reflexivity. Qed.

Lemma missing_urls_upload_fst (sv : services) (blob_name : string) :
  (df_to_gcloud_storage_bucket sv blob_name).1 = Return tt.
Proof. unfold df_to_gcloud_storage_bucket. destruct (upload_error sv); reflexivity. Qed.

End SearchBatch.

Lemma entry_without_tilde_free (sv : MissingUrlsMain.services)
    (api : MissingUrlsMain.network) (sched : list nat) (l : list string) (cq : string) :
  MissingUrlsMain.code_and_query_list sv = inr l ->
  cq ∈ l ->
  contains "~" cq = false ->
  MissingUrlsMain.script sv api sched = (Raise out_of_range, [Query MissingUrlsMain.query]).
Proof.
  intros Hl Hin Hcq.
  unfold MissingUrlsMain.script, MissingUrlsMain.bigquery_to_df. rewrite Hl.
  rewrite !bind_unfold. cbn [bind emit ret]. unfold MissingUrlsMain.process_urls.
  rewrite (mapM_raise MissingUrlsMain.task_arguments l out_of_range); [reflexivity | |].
  - intros x _. apply task_arguments_cases.
  - exists cq. split; [exact Hin | apply task_arguments_absent, Hcq].
Qed.

(** X3: an entry of the list without a tilde stops [process_urls] of
    replace_missing_urls.py while the tasks are built: [IndexError] is
    raised before any search is made, nothing catches it, and the script
    ends with status 1 having only run its query. *)
Theorem entry_without_tilde_stops_the_batch (sv : MissingUrlsMain.services)
    (api : MissingUrlsMain.network) (sched : list nat) (l : list string) (cq : string) :
  MissingUrlsMain.code_and_query_list sv = inr l ->
  cq ∈ l ->
  contains "~" cq = false ->
  MissingUrlsMain.process_urls api sched l = (Raise out_of_range, [])
  /\ MissingUrlsMain.script sv api sched = (Raise out_of_range, [Query MissingUrlsMain.query])
  /\ exit_status (MissingUrlsMain.script sv api sched).1 = 1.
Proof.
  intros Hl Hin Hcq.
  assert (Hp : MissingUrlsMain.process_urls api sched l = (Raise out_of_range, [])).
  { unfold MissingUrlsMain.process_urls.
    rewrite (mapM_raise MissingUrlsMain.task_arguments l out_of_range); [reflexivity | |].
    - intros x _. apply task_arguments_cases.
    - exists cq. split; [exact Hin | apply task_arguments_absent, Hcq]. }
  assert (Hs : MissingUrlsMain.script sv api sched
               = (Raise out_of_range, [Query MissingUrlsMain.query])).
  { unfold MissingUrlsMain.script, MissingUrlsMain.bigquery_to_df. rewrite Hl.
    rewrite !bind_unfold. cbn [bind emit ret]. rewrite Hp. reflexivity. }
  split; [exact Hp|]. split; [exact Hs|]. rewrite Hs. reflexivity.
Qed.

Lemma entry_without_tilde_stops_the_batch_witness :
  MissingUrlsMain.script
    (MissingUrlsMain.Services (inr ["00-123~Brand X 750ml"; "00-124"]) None None)
    (fun _ => MoreFixtures.third_time "https://example.org/a.jpg") []
  = (Raise out_of_range, [Query MissingUrlsMain.query]).
Proof.
  apply (entry_without_tilde_stops_the_batch
           (MissingUrlsMain.Services (inr ["00-123~Brand X 750ml"; "00-124"]) None None)
           (fun _ => MoreFixtures.third_time "https://example.org/a.jpg") []
           ["00-123~Brand X 750ml"; "00-124"] "00-124").
  - reflexivity.
  - apply list_elem_of_further, list_elem_of_here.
  - reflexivity.
Defined.

(** X4: when every entry holds a tilde and every search returns,
    [process_urls] of replace_missing_urls.py returns one result per
    entry, at the position of its entry: the value of the search made
    with the first piece of the entry as code and the second as query,
    whatever the order in which the searches complete. *)
Theorem search_batch_keeps_order (api : MissingUrlsMain.network) (sched : list nat)
    (l : list string) :
  (forall i cq, l !! i = Some cq ->
     exists nc_code query rest v,
       split "~" cq = nc_code :: query :: rest
       /\ (MissingUrls.google_custom_image_search (api i) query nc_code).1 = Return v) ->
  exists results,
    (MissingUrlsMain.process_urls api sched l).1 = Return results
    /\ length results = length l
    /\ forall i cq nc_code query rest,
         l !! i = Some cq -> split "~" cq = nc_code :: query :: rest ->
         exists link,
           results !! i = Some (nc_code +:+ "~" +:+ link)
           /\ (MissingUrls.google_custom_image_search (api i) query nc_code).1
              = Return (nc_code +:+ "~" +:+ link).
Proof.
  intros Hok.
  assert (Hall : Forall (fun cq => contains "~" cq = true) l).
  { apply Forall_lookup. intros i cq Hi.
    destruct (Hok i cq Hi) as (c & q & rest & v & Hs & _).
    destruct (contains "~" cq) eqn:E; [reflexivity|].
    rewrite (split_absent _ _ E) in Hs. discriminate Hs. }
  destruct (arguments_return l Hall) as (arguments & Hm & Hargs).
  set (tasks := imap (fun i '(nc_code, query) =>
                        MissingUrls.google_custom_image_search (api i) query nc_code) arguments).
  assert (Htask : forall i cq c q rest, l !! i = Some cq -> split "~" cq = c :: q :: rest ->
            tasks !! i = Some (MissingUrls.google_custom_image_search (api i) q c)).
  { intros i cq c q rest Hi Hs. subst tasks. rewrite list_lookup_imap.
    destruct (Forall2_lookup_l _ _ _ _ _ Hargs Hi) as ([c' q'] & Ha & rest' & Hs').
    rewrite Ha. cbn [fst snd] in Hs'. cbn [fmap option_fmap option_map]. congruence. }
  destruct (all_return_or_one_raises tasks RetryError) as [[results Hres] | (j & tj & Hj & Hr)].
  { intros i t. apply search_task_outcome. }
  - exists results.
    assert (Hrun : (MissingUrlsMain.process_urls api sched l).1 = Return results).
    { unfold MissingUrlsMain.process_urls. rewrite Hm, bind_pure.
      apply gather_return. exact Hres. }
    split; [exact Hrun|]. split.
    + rewrite <- (Forall2_length _ _ _ Hres). subst tasks. rewrite length_imap.
      symmetry. apply (Forall2_length _ _ _ Hargs).
    + intros i cq c q rest Hi Hs.
      destruct (Forall2_lookup_l _ _ _ _ _ Hres (Htask i cq c q rest Hi Hs)) as (v & Hv & Htv).
      destruct (google_custom_image_search_outcome (api i) q c) as [[link Hlink] | Hraise];
        [|congruence].
      exists link. split; [|exact Hlink]. rewrite Hv. congruence.
  - exfalso. subst tasks. rewrite list_lookup_imap in Hj.
    destruct (arguments !! j) as [[c q]|] eqn:Ha; [|discriminate].
    cbn [fmap option_fmap option_map] in Hj. injection Hj as <-.
    destruct (Forall2_lookup_r _ _ _ _ _ Hargs Ha) as (cq & Hcq & rest & Hs). cbn [fst snd] in Hs.
    destruct (Hok j cq Hcq) as (c' & q' & rest' & v & Hs' & Hv).
    assert (c' = c /\ q' = q) as [-> ->] by (split; congruence).
    congruence.
Qed.

Lemma search_batch_keeps_order_witness :
  exists results,
    (MissingUrlsMain.process_urls (fun _ => MoreFixtures.third_time "https://example.org/a.jpg")
       [1; 0]%nat ["00-123~Brand X 750ml"; "00-124~Brand Y 1L"]).1 = Return results
    /\ length results = 2%nat.
Proof.
  destruct (search_batch_keeps_order (fun _ => MoreFixtures.third_time "https://example.org/a.jpg")
              [1; 0]%nat ["00-123~Brand X 750ml"; "00-124~Brand Y 1L"])
    as (results & H1 & H2 & _).
  - intros i cq Hi.
    destruct i as [|[|i]]; [| |discriminate Hi]; injection Hi as <-;
      eexists _, _, _, _; (split; [reflexivity | vm_compute; reflexivity]).
  - exists results. split; [exact H1 | exact H2].
Defined.

(** X5: reading the results back in the script of replace_missing_urls.py:
    when neither the code nor the link holds a tilde, splitting
    code~link gives the code and the link again. *)
Theorem backfill_columns_round_trip (pairs : list (string * string)) :
  Forall (fun p => contains "~" p.1 = false /\ contains "~" p.2 = false) pairs ->
  MissingUrlsMain.backfill_columns ((fun p => p.1 +:+ "~" +:+ p.2) <$> pairs)
  = (Return (pairs.*1, pairs.*2), []).
Proof.
  intros H. unfold MissingUrlsMain.backfill_columns.
  rewrite (mapM_pure (fun result => index (split "~" result) 0) _ (pairs.*1));
    [rewrite bind_pure|].
  - rewrite (mapM_pure (fun result => index (split "~" result) 1) _ (pairs.*2));
      [rewrite bind_pure; reflexivity|].
    induction H as [|[c u] pairs [Hc Hu] _ IH]; [constructor|].
    cbn [fmap list_fmap fst snd] in *. constructor; [|exact IH].
    destruct (backfill_row c u Hc) as [_ ->]. rewrite (split_go_absent _ _ Hu). reflexivity.
  - induction H as [|[c u] pairs [Hc Hu] _ IH]; [constructor|].
    cbn [fmap list_fmap fst snd] in *. constructor; [|exact IH].
    destruct (backfill_row c u Hc) as [-> _]. reflexivity.
Qed.

Lemma backfill_columns_round_trip_witness :
  MissingUrlsMain.backfill_columns
    ["00-123~https://example.org/a.jpg"; "00-124~https://example.org/b.jpg"]
  = (Return (["00-123"; "00-124"], ["https://example.org/a.jpg"; "https://example.org/b.jpg"]),
     []).
Proof.
  apply (backfill_columns_round_trip
           [("00-123", "https://example.org/a.jpg"); ("00-124", "https://example.org/b.jpg")]).
  repeat constructor.
Defined.

(** X6: a link that holds a tilde is not read back whole: the script of
    replace_missing_urls.py keeps the link up to its first tilde and
    drops the rest. *)
Theorem image_url_is_cut_at_tilde (triples : list (string * string * string)) :
  Forall (fun p => contains "~" p.1.1 = false /\ contains "~" p.1.2 = false) triples ->
  MissingUrlsMain.backfill_columns
    ((fun p => p.1.1 +:+ "~" +:+ (p.1.2 +:+ "~" +:+ p.2)) <$> triples)
  = (Return ((fun p => p.1.1) <$> triples, (fun p => p.1.2) <$> triples), []).
Proof.
  intros H. unfold MissingUrlsMain.backfill_columns.
  rewrite (mapM_pure (fun result => index (split "~" result) 0) _ ((fun p => p.1.1) <$> triples));
    [rewrite bind_pure|].
  - rewrite (mapM_pure (fun result => index (split "~" result) 1) _ ((fun p => p.1.2) <$> triples));
      [rewrite bind_pure; reflexivity|].
    induction H as [|[[c u] rest] triples [Hc Hu] _ IH]; [constructor|].
    cbn [fmap list_fmap fst snd] in *. constructor; [|exact IH].
    destruct (backfill_row c (u +:+ "~" +:+ rest) Hc) as [_ ->].
    rewrite append_cons, append_empty, (split_go_single "~"%char u rest Hu). reflexivity.
  - induction H as [|[[c u] rest] triples [Hc Hu] _ IH]; [constructor|].
    cbn [fmap list_fmap fst snd] in *. constructor; [|exact IH].
    destruct (backfill_row c (u +:+ "~" +:+ rest) Hc) as [-> _]. reflexivity.
Qed.

Lemma image_url_is_cut_at_tilde_witness :
  MissingUrlsMain.backfill_columns ["00-123~https://example.org/~user/a.jpg"]
  = (Return (["00-123"], ["https://example.org/"]), []).
Proof.
  apply (image_url_is_cut_at_tilde [("00-123", "https://example.org/", "user/a.jpg")]).
  repeat constructor.
Defined.

(** X7: the script of replace_missing_urls.py ends with status 0 or 1, and
    with 1 exactly when its query fails, or an entry of the list holds no
    tilde, or the search of one entry uses up its attempts, or the load
    into the warehouse fails.  A failed upload to the bucket does not
    change the status, and reading the results back never fails. *)
Theorem missing_urls_exit_status (sv : MissingUrlsMain.services)
    (api : MissingUrlsMain.network) (sched : list nat) :
  (exit_status (MissingUrlsMain.script sv api sched).1 = 0
   \/ exit_status (MissingUrlsMain.script sv api sched).1 = 1)
  /\ (exit_status (MissingUrlsMain.script sv api sched).1 <> 0 <->
      (exists e, MissingUrlsMain.code_and_query_list sv = inl e)
      \/ (exists l cq, MissingUrlsMain.code_and_query_list sv = inr l
                       /\ cq ∈ l /\ contains "~" cq = false)
      \/ (exists l i cq nc_code query rest,
            MissingUrlsMain.code_and_query_list sv = inr l
            /\ l !! i = Some cq /\ split "~" cq = nc_code :: query :: rest
            /\ (MissingUrls.google_custom_image_search (api i) query nc_code).1
               = Raise RetryError)
      \/ is_Some (MissingUrlsMain.load_error sv)).
Proof.
  destruct (MissingUrlsMain.code_and_query_list sv) as [e | l] eqn:Hl.
  { assert (Hs : (MissingUrlsMain.script sv api sched).1 = Raise e).
    { unfold MissingUrlsMain.script, MissingUrlsMain.bigquery_to_df. rewrite Hl. reflexivity. }
    rewrite Hs. cbn [exit_status]. split; [right; reflexivity|].
    split; [intros _; left; eauto | intros _; discriminate]. }
  destruct (decide (Exists (fun cq => contains "~" cq = false) l)) as [Hbad | Hgood].
  { apply Exists_exists in Hbad as (cq & Hin & Hcq).
    rewrite (entry_without_tilde_free sv api sched l cq Hl Hin Hcq). cbn [exit_status fst]. split; [right; reflexivity|].
    split; [intros _; right; left; exists l, cq; auto | intros _; discriminate]. }
  assert (Hall : Forall (fun cq => contains "~" cq = true) l).
  { apply Forall_forall. intros cq Hin. destruct (contains "~" cq) eqn:E; [reflexivity|].
    exfalso. apply Hgood, Exists_exists. exists cq. auto. }
  destruct (arguments_return l Hall) as (arguments & Hm & Hargs).
  set (tasks := imap (fun i '(nc_code, query) =>
                        MissingUrls.google_custom_image_search (api i) query nc_code) arguments).
  assert (Hscript : (MissingUrlsMain.script sv api sched).1
                    = match (Asyncio.gather tasks sched).1 with
                      | Return results =>
                          match (MissingUrlsMain.backfill_columns results).1 with
                          | Return _ =>
                              match MissingUrlsMain.load_error sv with
                              | Some e => Raise e
                              | None => Return tt
                              end
                          | Raise e => Raise e
                          | SysExit n => SysExit n
                          end
                      | Raise e => Raise e
                      | SysExit n => SysExit n
                      end).
  { unfold MissingUrlsMain.script. rewrite bind_fst, missing_urls_query_fst, Hl.
    rewrite bind_fst. unfold MissingUrlsMain.process_urls. rewrite Hm, bind_pure. fold tasks.
    destruct (Asyncio.gather tasks sched).1 as [results|e|n]; [|reflexivity..].
    rewrite bind_fst.
    destruct (MissingUrlsMain.backfill_columns results).1; [|reflexivity..].
    rewrite bind_fst, missing_urls_upload_fst. unfold MissingUrlsMain.load_csv_to_bigquery.
    destruct (MissingUrlsMain.load_error sv); reflexivity. }
  assert (Hnobad : ~ exists l' cq, (inr l : exn + list string) = inr l' /\ cq ∈ l' /\ contains "~" cq = false).
  { intros (l' & cq & [= <-] & Hin & Hcq). apply Hgood, Exists_exists. exists cq. auto. }
  destruct (all_return_or_one_raises tasks RetryError) as [[results Hres] | (j & tj & Hj & Hr)].
  { intros i t. apply search_task_outcome. }
  - rewrite (gather_return tasks results sched Hres) in Hscript.
    assert (Htilde : Forall (fun result => contains "~" result = true) results).
    { apply Forall_lookup. intros i v Hv.
      destruct (Forall2_lookup_r _ _ _ _ _ Hres Hv) as (t & Ht & Htv).
      subst tasks. rewrite list_lookup_imap in Ht.
      destruct (arguments !! i) as [[c q]|]; [|discriminate].
      cbn [fmap option_fmap option_map] in Ht. injection Ht as <-.
      destruct (google_custom_image_search_outcome (api i) q c) as [[link Hlink] | Hraise];
        [|congruence].
      assert (v = c +:+ "~" +:+ link) as -> by congruence.
      apply contains_append. }
    destruct (backfill_columns_return results Htilde) as [columns Hcols].
    rewrite Hcols in Hscript. cbn [fst] in Hscript. rewrite Hscript.
    assert (Hnoraise : ~ exists l' i cq c q rest, (inr l : exn + list string) = inr l'
              /\ l' !! i = Some cq /\ split "~" cq = c :: q :: rest
              /\ (MissingUrls.google_custom_image_search (api i) q c).1 = Raise RetryError).
    { intros (l' & i & cq & c & q & rest & [= <-] & Hi & Hs & Hraise).
      destruct (Forall2_lookup_l _ _ _ _ _ Hargs Hi) as ([c' q'] & Ha & rest' & Hs').
      cbn [fst snd] in Hs'. assert (c' = c /\ q' = q) as [-> ->] by (split; congruence).
      assert (Ht : tasks !! i = Some (MissingUrls.google_custom_image_search (api i) q c))
        by (subst tasks; rewrite list_lookup_imap, Ha; reflexivity).
      destruct (Forall2_lookup_l _ _ _ _ _ Hres Ht) as (v & _ & Hv). congruence. }
    destruct (MissingUrlsMain.load_error sv) as [e|]; cbn [exit_status].
    + split; [right; reflexivity|]. split; [intros _; right; right; right; eauto | discriminate].
    + split; [left; reflexivity|]. split; [intros H; contradiction|].
      intros [[e He] | [Hb | [Hr | [e He]]]];
        [discriminate | contradiction | contradiction | discriminate].
  - rewrite (gather_raise tasks sched RetryError j tj) in Hscript;
      [|intros i t; apply search_task_outcome | exact Hj | exact Hr].
    rewrite Hscript. cbn [exit_status]. split; [right; reflexivity|].
    split; [intros _ | discriminate]. right. right. left.
    subst tasks. rewrite list_lookup_imap in Hj.
    destruct (arguments !! j) as [[c q]|] eqn:Ha; [|discriminate].
    cbn [fmap option_fmap option_map] in Hj. injection Hj as <-.
    destruct (Forall2_lookup_r _ _ _ _ _ Hargs Ha) as (cq & Hcq & rest & Hs). cbn [fst snd] in Hs.
    exists l, j, cq, c, q, rest. auto.
Qed.

Lemma missing_urls_exit_status_witness :
  exit_status (MissingUrlsMain.script
                 (MissingUrlsMain.Services (inr ["00-123~Brand X 750ml"]) None None)
                 (fun _ _ => MissingUrls.Response 429 None) []).1 <> 0.
Proof.
  apply (missing_urls_exit_status
           (MissingUrlsMain.Services (inr ["00-123~Brand X 750ml"]) None None)
           (fun _ _ => MissingUrls.Response 429 None) []).
  right. right. left.
  exists ["00-123~Brand X 750ml"], 0%nat, "00-123~Brand X 750ml", "00-123", "Brand X 750ml", [].
  split; [reflexivity|]. split; [reflexivity|]. split; [reflexivity|].
  vm_compute. reflexivity.
Defined.

Lemma bind_ret {A B : Type} (a : A) (k : A -> M B) : ret a ≫= k = k a.
Proof. apply bind_pure. Qed.

Lemma bind_eq {A B : Type} (c : M A) (k : A -> M B) (a : A) (t : list event)
    (r : outcome B) (t' : list event) :
  c = (Return a, t) -> k a = (r, t') -> c ≫= k = (r, t ++ t').
Proof. intros -> H. rewrite bind_return, H. reflexivity. Qed.

Section TraceFacts.
Import Trace.

Lemma only_logs_ret {A} (a : A) : only_logs (ret a).
Proof. constructor. Qed.

Lemma only_logs_raise {A} (e : exn) : only_logs (@raise A e).
Proof. constructor. Qed.

Lemma only_logs_sys_exit {A} (n : Z) : only_logs (@sys_exit A n).
Proof. constructor. Qed.

Lemma only_logs_emit (l : level) (msg : string) : only_logs (emit (Log l msg)).
Proof. repeat constructor. Qed.

Lemma only_logs_bind {A B} (c : M A) (k : A -> M B) :
  only_logs c -> (forall a, only_logs (k a)) -> only_logs (c ≫= k).
Proof.
  unfold only_logs. intros Hc Hk. destruct c as [[a|e|n] t]; [|exact Hc..].
  rewrite bind_return. cbn [snd] in *. apply Forall_app. split; [exact Hc | apply Hk].
Qed.

Lemma only_logs_try_except {A} (c : M A) (h : exn -> M A) :
  only_logs c -> (forall e, only_logs (h e)) -> only_logs (try_except c h).
Proof.
  unfold only_logs. intros Hc Hh. destruct c as [[a|e|n] t]; [exact Hc | | exact Hc].
  cbn [try_except]. specialize (Hh e). destruct (h e) as [r t']. cbn [snd] in *.
  apply Forall_app. split; assumption.
Qed.

Lemma only_logs_index {A} (l : list A) (i : nat) : only_logs (index l i).
Proof. unfold index. destruct (l !! i); constructor. Qed.

Lemma only_logs_getitem {V} (d : gmap string V) (k : string) : only_logs (getitem d k).
Proof. unfold getitem. destruct (d !! k); constructor. Qed.

Lemma only_logs_for_each {A S} (l : list A) (body : A -> S -> M S) (s : S) :
  (forall x s', only_logs (body x s')) -> only_logs (for_each l body s).
Proof.
  intros Hb. revert s. induction l as [|x l IH]; intros s; cbn [for_each].
  - apply only_logs_ret.
  - apply only_logs_bind; [apply Hb | exact IH].
Qed.

Lemma only_logs_mapM {A B} (f : A -> M B) (l : list A) :
  (forall x, only_logs (f x)) -> only_logs (mapM f l).
Proof.
  intros Hf. induction l as [|x l IH]; [constructor|].
  rewrite mapM_cons. apply only_logs_bind; [apply Hf|].
  intros y. apply only_logs_bind; [exact IH|]. intros k. constructor.
Qed.

(** Log lines are no delays, and none of the cloud calls. *)
Lemma only_logs_sleeps {A} (c : M A) : only_logs c -> Tenacity.sleeps c.2 = [].
Proof.
  unfold only_logs. induction 1 as [|ev t Hev _ IH]; [reflexivity|].
  destruct ev; try discriminate Hev. exact IH.
Qed.

Lemma only_logs_not_in {A} (c : M A) (ev : event) :
  only_logs c -> is_log ev = false -> ev ∉ c.2.
Proof.
  unfold only_logs. intros Hc Hev Hin.
  rewrite Forall_forall in Hc. specialize (Hc ev Hin). congruence.
Qed.

End TraceFacts.

Create HintDb only_logs.
#[local] Hint Resolve only_logs_ret only_logs_raise only_logs_sys_exit only_logs_emit
  only_logs_index only_logs_getitem : only_logs.

Section ScrapeTrace.
Import Bs4 Scrape Trace.

Lemma only_logs_element_step (element : node) (st : gmap string string * gmap string string) :
  only_logs (element_step element st).
Proof.
  destruct st as [names values]. unfold element_step.
  repeat case_match; auto with only_logs.
  apply only_logs_bind; [auto with only_logs|]. intros brand.
  apply only_logs_bind; auto with only_logs.
Qed.

Lemma only_logs_product_image (soup : node) (names : gmap string string) :
  only_logs (product_image soup names).
Proof. unfold product_image. repeat case_match; auto with only_logs. Qed.

Lemma only_logs_parse_page (url : string) (soup : node) : only_logs (parse_page url soup).
Proof.
  unfold parse_page. case_match.
  - apply only_logs_bind; auto with only_logs.
  - apply only_logs_bind; [apply only_logs_for_each, only_logs_element_step|].
    intros [names values]. apply only_logs_bind; [apply only_logs_product_image|].
    auto with only_logs.
Qed.

Lemma only_logs_scrape_call (r : fetched) (url : string) : only_logs (scrape_call r url).
Proof.
  unfold scrape_call. apply only_logs_try_except.
  - destruct r as [e | status soup]; [auto with only_logs|].
    apply only_logs_bind; [auto with only_logs|]. intros _.
    destruct (negb (status =? 200)); [|apply only_logs_parse_page].
    apply only_logs_bind; auto with only_logs.
  - intros e. apply only_logs_bind; auto with only_logs.
Qed.

Lemma only_logs_scrape_item_details (net : nat -> fetched) (url : string) :
  only_logs (scrape_item_details net url).
Proof. rewrite scrape_item_details_first_call. apply only_logs_scrape_call. Qed.

End ScrapeTrace.

Section GatherTrace.
Import Asyncio Trace.
Context {A : Type}.

Lemma only_logs_run_in_order (tasks : list (M A)) (order : list nat) (slots : list (option A)) :
  (forall i t, tasks !! i = Some t -> only_logs t) ->
  only_logs (run_in_order tasks order slots).
Proof.
  intros Hall. revert slots. induction order as [|i rest IH]; intros slots; cbn [run_in_order].
  - apply only_logs_ret.
  - destruct (tasks !! i) as [t|] eqn:Ht; [|apply IH].
    apply only_logs_bind; [exact (Hall i t Ht)|]. intros x. apply IH.
Qed.

Lemma only_logs_gather (tasks : list (M A)) (sched : list nat) :
  (forall i t, tasks !! i = Some t -> only_logs t) -> only_logs (gather tasks sched).
Proof.
  intros Hall. unfold gather. apply only_logs_bind; [apply only_logs_run_in_order, Hall|].
  intros slots. apply only_logs_ret.
Qed.

End GatherTrace.

Section BatchTrace.
Import Scrape Trace.

Lemma only_logs_process_urls (net : ItemDetails.network) (sched : list nat) (urls : list string) :
  only_logs (ItemDetails.process_urls net sched urls).
Proof.
  unfold ItemDetails.process_urls. apply only_logs_gather. intros i t Ht.
  rewrite list_lookup_imap in Ht. destruct (urls !! i); [|discriminate].
  injection Ht as <-. apply only_logs_scrape_item_details.
Qed.

Lemma only_logs_process_urls_from (net : XImage.network) (urls : list string) :
  forall i acc, only_logs (XImage.process_urls_from net i urls acc).
Proof.
  induction urls as [|url urls IH]; intros i acc; cbn [XImage.process_urls_from].
  - apply only_logs_ret.
  - apply only_logs_bind; [apply only_logs_scrape_item_details|]. intros d. apply IH.
Qed.

Lemma only_logs_replace_x_raw_image_urls (df : list XImage.row) (net : XImage.network) :
  only_logs (XImage.replace_x_raw_image_urls df net).
Proof.
  unfold XImage.replace_x_raw_image_urls. case_match; [apply only_logs_ret|].
  apply only_logs_bind; [apply only_logs_process_urls_from|]. intros results. apply only_logs_ret.
Qed.

End BatchTrace.

(** X8: the retry decorator on [scrape_item_details] never retries: the
    function catches every exception itself and leaves with
    [sys.exit(1)], which the decorator lets through.  Whatever the later
    requests would give, the page is requested once, the process never
    sleeps, and the call only writes log lines. *)
Theorem scrape_item_details_never_retries (net net' : nat -> Scrape.fetched) (url : string) :
  net' 1%nat = net 1%nat ->
  Scrape.scrape_item_details net' url = Scrape.scrape_item_details net url
  /\ Scrape.scrape_item_details net url = Scrape.scrape_call (net 1%nat) url
  /\ Tenacity.sleeps (Scrape.scrape_item_details net url).2 = []
  /\ Trace.only_logs (Scrape.scrape_item_details net url)
  /\ forall e, (Scrape.scrape_item_details net url).1 <> Raise e.
Proof.
  intros H. rewrite !scrape_item_details_first_call, H.
  split; [reflexivity|]. split; [reflexivity|].
  split; [apply only_logs_sleeps, only_logs_scrape_call|].
  split; [apply only_logs_scrape_call|].
  intros e. destruct (scrape_call_outcome (net 1%nat) url) as [[d ->] | ->]; discriminate.
Qed.

Lemma scrape_item_details_never_retries_witness :
  Scrape.scrape_item_details
    (fun k => match k with
              | 1%nat => Scrape.Response 503 Fixtures.empty_page
              | _ => Scrape.Response 200 Fixtures.good_page
              end) "u"
  = Scrape.scrape_item_details (fun _ => Scrape.Response 503 Fixtures.empty_page) "u".
Proof.
  apply (scrape_item_details_never_retries
           (fun _ => Scrape.Response 503 Fixtures.empty_page)
           (fun k => match k with
                     | 1%nat => Scrape.Response 503 Fixtures.empty_page
                     | _ => Scrape.Response 200 Fixtures.good_page
                     end) "u").
  reflexivity.
Defined.

Ltac in_list := repeat first [apply list_elem_of_here | apply list_elem_of_further].

Section Keys.
Import Bs4 Scrape ItemDetails.

Lemma dom_item_details_column_names :
  dom item_details_column_names = (list_to_set columns : gset string).
Proof.
  unfold item_details_column_names, columns. rewrite dom_list_to_map_L.
  cbn [fmap list_fmap fst]. apply set_eq. intros x.
  rewrite !elem_of_list_to_set, !elem_of_cons, !elem_of_nil. tauto.
Qed.

(** Writing a column of the dictionary adds no key. *)
Lemma keys_insert (d : gmap string string) (k v : string) :
  dom d = dom item_details_column_names -> k ∈ columns ->
  dom (<[k := v]> d) = dom item_details_column_names.
Proof.
  intros Hd Hk. rewrite dom_insert_L, Hd, dom_item_details_column_names.
  rewrite <- (elem_of_list_to_set (C := gset string)) in Hk.
  apply subseteq_union_1_L, singleton_subseteq_l, Hk.
Qed.

Lemma keys_copy_field (label field : string) (values names : gmap string string) :
  dom names = dom item_details_column_names -> field ∈ columns ->
  dom (copy_field label field values names) = dom item_details_column_names.
Proof.
  intros Hd Hk. unfold copy_field. destruct (values !! label); [apply keys_insert|]; assumption.
Qed.

Lemma keys_assign_values (values names : gmap string string) :
  dom names = dom item_details_column_names ->
  dom (assign_values values names) = dom item_details_column_names.
Proof.
  intros H. unfold assign_values.
  repeat (apply keys_copy_field; [|unfold columns; in_list]).
  destruct (values !! "NC Code"); [apply keys_insert; [|unfold columns; in_list]|]; assumption.
Qed.

Lemma keys_element_step (element : node) (st st' : gmap string string * gmap string string) :
  dom st.1 = dom item_details_column_names ->
  (element_step element st).1 = Return st' ->
  dom st'.1 = dom item_details_column_names.
Proof.
  destruct st as [names values]. cbn [fst]. intros H. unfold element_step.
  destruct (is_tag element); [|intros [= <-]; assumption].
  destruct (find element "h3" _).
  - destruct (split " Effective Date: " (strip (text element))) as [|x [|y l]];
      [discriminate | discriminate |].
    intros [= <-]. cbn [fst].
    apply keys_insert; [apply keys_insert|]; [assumption | unfold columns; in_list..].
  - destruct (class_is_row element); [|intros [= <-]; assumption].
    destruct (List.filter _ _) as [|a [|b [|c [|d [|? ?]]]]];
      intros [= <-]; assumption.
Qed.

Lemma keys_product_image (soup : node) (names names' : gmap string string) :
  dom names = dom item_details_column_names ->
  (product_image soup names).1 = Return names' ->
  dom names' = dom item_details_column_names.
Proof.
  intros H. unfold product_image.
  repeat case_match; try discriminate; intros [= <-];
    try assumption; apply keys_insert; [assumption | unfold columns; in_list].
Qed.

Lemma keys_parse_page (url : string) (soup : node) (d : gmap string string) :
  (parse_page url soup).1 = Return d -> dom d = dom item_details_column_names.
Proof.
  unfold parse_page. case_match.
  - intros [= <-]. reflexivity.
  - rewrite bind_fst.
    destruct (for_each _ element_step _) as [[[names values]|e|m] t] eqn:Hloop;
      cbn [fst]; [|discriminate..].
    rewrite bind_fst.
    destruct (product_image soup names) as [[names'|e|m] t'] eqn:Himg;
      cbn [fst]; [|discriminate..].
    intros [= <-]. apply keys_assign_values.
    apply (keys_product_image soup names); [|rewrite Himg; reflexivity].
    eapply (for_each_invariant (fun st => dom st.1 = dom item_details_column_names)
              _ element_step (item_details_column_names, ∅) (names, values)).
    + intros x s1 s2. apply keys_element_step.
    + reflexivity.
    + rewrite Hloop. reflexivity.
Qed.

Lemma scrape_call_return (r : fetched) (url : string) (d : gmap string string) :
  (scrape_call r url).1 = Return d ->
  exists soup, r = Response 200 soup /\ (parse_page url soup).1 = Return d.
Proof.
  destruct r as [e | status soup]; [discriminate|].
  destruct (Z.eqb_spec status 200) as [-> | Hne].
  - rewrite scrape_call_200.
    destruct (parse_page url soup) as [[d'|e|m] t] eqn:Hp; cbn [fst]; [|discriminate..].
    intros [= <-]. exists soup. split; [reflexivity | rewrite Hp; reflexivity].
  - rewrite (scrape_call_fetch_failed (Response status soup) url); [discriminate|].
    cbn. destruct (Z.eqb_spec status 200); [contradiction | reflexivity].
Qed.

(** What the reads of the columns give. *)
Lemma read_columns_values (d : gmap string string) (l : list string) (row : list string) :
  (mapM (getitem d) l).1 = Return row -> Forall2 (fun k v => d !! k = Some v) l row.
Proof.
  revert row. induction l as [|k l IH]; intros row.
  - intros [= <-]. constructor.
  - rewrite mapM_cons, bind_fst. unfold getitem at 1.
    destruct (d !! k) as [v|] eqn:Hk; cbn [ret raise fst]; [|discriminate].
    rewrite bind_fst. destruct (mapM (getitem d) l).1 as [row'|e|n]; [|discriminate..].
    intros [= <-]. constructor; [exact Hk | apply IH; reflexivity].
Qed.

Lemma mapM_getitem_pure (d : gmap string string) (l : list string) :
  (mapM (getitem d) l).2 = [].
Proof.
  induction l as [|k l IH]; [reflexivity|]. rewrite mapM_cons.
  assert (Hk : getitem d k = (Raise (KeyError ("'" +:+ k +:+ "'")), [])
               \/ exists v, getitem d k = (Return v, []))
    by (unfold getitem; destruct (d !! k); [right; eexists|left]; reflexivity).
  destruct Hk as [-> | [v ->]]; [reflexivity|]. rewrite bind_pure.
  destruct (mapM (getitem d) l) as [[r|e|n] t']; cbn [snd] in IH; subst t'; reflexivity.
Qed.

End Keys.

(** X9: every dictionary that [scrape_item_details] returns has the twelve
    columns as its keys, no more and no less, so the twelve reads of
    [main] never raise [KeyError] and give one value per column. *)
Theorem scraped_record_has_the_columns (net : nat -> Scrape.fetched) (url : string)
    (d : gmap string string) :
  (Scrape.scrape_item_details net url).1 = Return d ->
  dom d = (list_to_set ItemDetails.columns : gset string)
  /\ exists row,
       ItemDetails.read_result d = (Return row, [])
       /\ length row = 12%nat
       /\ Forall2 (fun k v => d !! k = Some v) ItemDetails.columns row.
Proof.
  rewrite scrape_item_details_first_call. intros Hd.
  destruct (scrape_call_return _ _ _ Hd) as (soup & _ & Hp).
  pose proof (keys_parse_page url soup d Hp) as Hdom.
  split; [rewrite Hdom; apply dom_item_details_column_names|].
  destruct (read_columns_return d ItemDetails.columns) as [row Hrow].
  { apply Forall_forall. intros k Hk. apply elem_of_dom. rewrite Hdom.
    rewrite dom_item_details_column_names. apply elem_of_list_to_set. exact Hk. }
  exists row. pose proof (read_columns_values d _ row Hrow) as Hvals.
  split; [|split; [|exact Hvals]].
  - unfold ItemDetails.read_result.
    pose proof (mapM_getitem_pure d ItemDetails.columns) as Ht.
    destruct (mapM (getitem d) ItemDetails.columns) as [o t]. cbn [fst snd] in *. congruence.
  - rewrite <- (Forall2_length _ _ _ Hvals). reflexivity.
Qed.

Lemma scraped_record_has_the_columns_witness :
  exists row,
    ItemDetails.read_result Scrape.item_details_column_names = (Return row, [])
    /\ length row = 12%nat.
Proof.
  destruct (scraped_record_has_the_columns
              (fun _ => Scrape.Response 200 Fixtures.empty_page) "u"
              Scrape.item_details_column_names) as (_ & row & H1 & H2 & _).
  - reflexivity.
  - exists row. split; [exact H1 | exact H2].
Defined.

Section Fields.
Import Bs4 Scrape.

Lemma copy_field_lookup_eq (label field : string) (values names : gmap string string) :
  copy_field label field values names !! field =
  match values !! label with
  | Some v => Some v
  | None => names !! field
  end.
Proof.
  unfold copy_field. destruct (values !! label); [apply lookup_insert_eq | reflexivity].
Qed.

End Fields.

(** X10: "Clean up and assign values": each of the eight copied fields takes
    the value of its label on the page when the page has the label, and
    keeps what it held otherwise; the fields of the heading and of the
    image are left as they are. *)
Theorem assign_values_fields (values names : gmap string string) (label field : string) :
  (label, field) ∈ [ ("Bottle Size", "bottle_size"); ("Proof", "proof");
                      ("Bottles per Case", "bottles_per_case"); ("UPC", "upc");
                      ("Retail Price", "retail_price"); ("Mixed Beverage Price", "mxb_price");
                      ("Case Cost Less Bailment", "case_cost_less_bailment");
                      ("Distiller", "distiller") ] ->
  Scrape.assign_values values names !! field
  = match values !! label with
    | Some v => Some v
    | None => names !! field
    end
  /\ Scrape.assign_values values names !! "brand_name" = names !! "brand_name"
  /\ Scrape.assign_values values names !! "effective_date" = names !! "effective_date"
  /\ Scrape.assign_values values names !! "product_image_url" = names !! "product_image_url".
Proof.
  intros Hin. split; [|split; [|split]].
  - unfold Scrape.assign_values.
    repeat (apply elem_of_cons in Hin as [[= -> ->] | Hin];
            [ repeat (rewrite copy_field_lookup_ne by discriminate);
              rewrite copy_field_lookup_eq;
              destruct (values !! _); [reflexivity|];
              repeat (rewrite copy_field_lookup_ne by discriminate);
              destruct (values !! "NC Code");
              [rewrite lookup_insert_ne by discriminate|]; reflexivity |]).
    inversion Hin.
  - unfold Scrape.assign_values. repeat (rewrite copy_field_lookup_ne by discriminate).
    destruct (values !! "NC Code"); [rewrite lookup_insert_ne by discriminate|]; reflexivity.
  - unfold Scrape.assign_values. repeat (rewrite copy_field_lookup_ne by discriminate).
    destruct (values !! "NC Code"); [rewrite lookup_insert_ne by discriminate|]; reflexivity.
  - unfold Scrape.assign_values. repeat (rewrite copy_field_lookup_ne by discriminate).
    destruct (values !! "NC Code"); [rewrite lookup_insert_ne by discriminate|]; reflexivity.
Qed.

Lemma assign_values_fields_witness :
  Scrape.assign_values {["Proof" := "80"]} Scrape.item_details_column_names !! "proof"
  = Some "80".
Proof.
  destruct (assign_values_fields {["Proof" := "80"]} Scrape.item_details_column_names
              "Proof" "proof") as [H _].
  - apply list_elem_of_further, list_elem_of_here.
  - exact H.
Defined.

(** X11: a heading block whose stripped text holds " Effective Date: " is
    read without an exception: the text before the first occurrence
    becomes the brand name and the piece after it the effective date.
    The text is stripped before it is cut, so a heading that ends with
    the delimiter is not covered. *)
Theorem heading_with_delimiter_is_read (element : Bs4.node)
    (names values : gmap string string) :
  Bs4.is_tag element = true ->
  is_Some (Bs4.find element "h3" [("class", "mt-5 pt-3")]) ->
  contains " Effective Date: " (strip (Bs4.text element)) = true ->
  exists brand date rest,
    split " Effective Date: " (strip (Bs4.text element)) = brand :: date :: rest
    /\ Scrape.element_step element (names, values)
       = (Return (<["effective_date" := date]> (<["brand_name" := brand]> names), values), []).
Proof.
  intros Htag [h3 Hh3] Hc.
  destruct (split_present " Effective Date: " (strip (Bs4.text element))
              ltac:(discriminate) Hc) as (brand & date & rest & Hs).
  exists brand, date, rest. split; [exact Hs|].
  unfold Scrape.element_step. rewrite Htag, Hh3, Hs. reflexivity.
Qed.

Lemma heading_with_delimiter_is_read_witness :
  exists rest,
    split " Effective Date: "
      (strip (Bs4.text (Fixtures.heading_block "Brand X Effective Date: 05/01/2025")))
    = "Brand X" :: "05/01/2025" :: rest.
Proof.
  destruct (heading_with_delimiter_is_read
              (Fixtures.heading_block "Brand X Effective Date: 05/01/2025") ∅ ∅)
    as (brand & date & rest & Hs & _).
  - reflexivity.
  - eexists. reflexivity.
  - reflexivity.
  - exists rest. rewrite Hs. vm_compute in Hs. injection Hs as <- <- _. reflexivity.
Defined.

Section ImageUrl.
Import Bs4 Scrape.




End ImageUrl.



(** X13: the upload of scrape_item_details.py catches its own failure: when
    the batch returns and the upload to the bucket fails, the script goes
    on to load the file that is in the bucket into the warehouse and ends
    with status 0, having uploaded nothing. *)
Theorem failed_upload_is_followed_by_load (sv : ItemDetails.services)
    (net : ItemDetails.network) (sched : list nat) (urls : list string)
    (results : list (gmap string string)) (e : exn) :
  ItemDetails.item_details_urls sv = inr urls ->
  (ItemDetails.process_urls net sched urls).1 = Return results ->
  ItemDetails.upload_error sv = Some e ->
  ItemDetails.load_error sv = None ->
  ItemDetails.script sv net sched
  = (Return tt,
     Query ItemDetails.query :: (ItemDetails.process_urls net sched urls).2
     ++ [Load "item_details"])
  /\ exit_status (ItemDetails.script sv net sched).1 = 0
  /\ forall blob, Upload blob ∉ (ItemDetails.script sv net sched).2.
Proof.
  intros Hurls Hres Hup Hload.
  assert (Hcols : Forall ItemDetails.has_columns results).
  { destruct (process_urls_cases net sched urls) as [(results' & Hr & HF) | [Hx _]];
      [|congruence].
    assert (results' = results) as -> by congruence.
    apply (batch_results_have_columns net urls results HF). }
  assert (Hread : forall rows,
            exists rows',
              for_each results
                (fun result rows => row ← ItemDetails.read_result result; ret (rows ++ [row]))
                rows = (Return rows', [])).
  { clear -Hcols. induction Hcols as [|d results Hd _ IH]; intros rows.
    - eexists. reflexivity.
    - cbn [for_each]. destruct (read_columns_return d _ Hd) as [row Hrow].
      assert (Hr : ItemDetails.read_result d = (Return row, [])).
      { pose proof (mapM_getitem_pure d ItemDetails.columns) as Hpure.
        unfold ItemDetails.read_result.
        destruct (mapM (getitem d) ItemDetails.columns) as [o t]. cbn [fst snd] in *.
        congruence. }
      rewrite Hr, bind_pure, bind_ret. apply IH. }
  destruct (Hread []) as [rows Hrows].
  assert (Hmain : ItemDetails.main sv net sched
                  = (Return tt,
                     [Query ItemDetails.query]
                     ++ (ItemDetails.process_urls net sched urls).2
                     ++ [] ++ [] ++ [Load "item_details"])).
  { unfold ItemDetails.main.
    eapply bind_eq; [unfold ItemDetails.bigquery_to_df; rewrite Hurls; reflexivity|].
    eapply bind_eq;
      [destruct (ItemDetails.process_urls net sched urls) as [o t];
       cbn [fst snd] in *; subst o; reflexivity|].
    eapply bind_eq; [exact Hrows|].
    eapply bind_eq;
      [unfold ItemDetails.df_to_gcloud_storage_bucket; rewrite Hup; reflexivity|].
    unfold ItemDetails.load_csv_to_bigquery. rewrite Hload. reflexivity. }
  assert (Hs : ItemDetails.script sv net sched
               = (Return tt,
                  Query ItemDetails.query :: (ItemDetails.process_urls net sched urls).2
                  ++ [Load "item_details"])).
  { unfold ItemDetails.script. rewrite Hmain. reflexivity. }
  split; [exact Hs|]. split; [rewrite Hs; reflexivity|].
  intros blob Hin. rewrite Hs in Hin. cbn [snd] in Hin.
  apply elem_of_cons in Hin as [Hin | Hin]; [discriminate Hin|].
  apply elem_of_app in Hin as [Hin | Hin].
  - revert Hin. apply (only_logs_not_in _ _ (only_logs_process_urls net sched urls)). reflexivity.
  - apply list_elem_of_singleton in Hin. discriminate Hin.
Qed.

Lemma failed_upload_is_followed_by_load_witness :
  exit_status (ItemDetails.script
                 (ItemDetails.Services (inr ["u"]) (Some (ServiceError "forbidden")) None)
                 (Fixtures.always Fixtures.empty_page) []).1 = 0.
Proof.
  destruct (outcome_returns
              (ItemDetails.process_urls (Fixtures.always Fixtures.empty_page) [] ["u"]).1)
    as [results Hres]; [vm_compute; reflexivity|].
  destruct (failed_upload_is_followed_by_load
              (ItemDetails.Services (inr ["u"]) (Some (ServiceError "forbidden")) None)
              (Fixtures.always Fixtures.empty_page) [] ["u"]
              results (ServiceError "forbidden")) as (_ & H & _).
  - reflexivity.
  - exact Hres.
  - reflexivity.
  - reflexivity.
  - exact H.
Defined.

Lemma bind_assoc {A B C : Type} (c : M A) (f : A -> M B) (g : B -> M C) :
  (c ≫= f) ≫= g = c ≫= (fun a => f a ≫= g).
Proof.
  destruct c as [[a|e|n] t]; [|reflexivity..].
  rewrite !bind_return. destruct (f a) as [[b|e|n] t']; cbn [fst snd]; [|reflexivity..].
  rewrite !bind_return. cbn [fst snd]. rewrite app_assoc. reflexivity.
Qed.

Lemma Query_inj (a b : string) : Query a = Query b -> a = b.
Proof. intros H. injection H as H. exact H. Qed.

Section ImageLoop.
Import Scrape XImage.

Lemma valid_urls_none (df : list row) :
  Forall (fun r => valid_url r = false) df ->
  omap item_details_url (List.filter valid_url df) = [].
Proof.
  induction 1 as [|r df Hr _ IH]; [reflexivity|].
  cbn [List.filter]. rewrite Hr. exact IH.
Qed.

Lemma valid_urls_length (df : list row) :
  length (omap item_details_url (List.filter valid_url df))
  = length (List.filter valid_url df).
Proof.
  induction df as [|[code [url|]] df IH]; [reflexivity | |].
  - cbn [List.filter]. destruct (valid_url (Row code (Some url))); [|exact IH].
    cbn [omap list_omap item_details_url length]. f_equal. exact IH.
  - exact IH.
Qed.

Lemma process_urls_from_length (net : network) (urls : list string) :
  forall i acc results,
  (process_urls_from net i urls acc).1 = Return results ->
  length results = (length acc + length urls)%nat.
Proof.
  induction urls as [|url urls IH]; intros i acc results; cbn [process_urls_from].
  - intros [= <-]. cbn [length]. lia.
  - rewrite bind_fst. destruct (scrape_item_details (net i) url).1; [|discriminate..].
    intros H. rewrite (IH _ _ _ H), length_app. cbn [length]. lia.
Qed.

(** One request of the pass fails: the pass leaves with status 1. *)
Lemma process_urls_from_exit (net : network) (urls : list string) :
  forall i acc j url,
  urls !! j = Some url ->
  (scrape_call (net (i + j)%nat 1%nat) url).1 = SysExit 1 ->
  (process_urls_from net i urls acc).1 = SysExit 1.
Proof.
  induction urls as [|url0 urls IH]; intros i acc j url Hj Hx; [discriminate Hj|].
  cbn [process_urls_from]. rewrite bind_fst. unfold scrape_item_details.
  rewrite scrape_item_details_first_call.
  destruct (scrape_call_outcome (net i 1%nat) url0) as [[d Hd] | Hd]; rewrite Hd; [|reflexivity].
  destruct j as [|j].
  - injection Hj as <-. rewrite Nat.add_0_r in Hx. congruence.
  - apply (IH (S i) _ j url Hj). rewrite Nat.add_succ_l, <- Nat.add_succ_r. exact Hx.
Qed.

Lemma replace_x_raw_image_urls_exit (df : list row) (net : network) (j : nat) (url : string) :
  omap item_details_url (List.filter valid_url df) !! j = Some url ->
  fetch_failed (net j 1%nat) = true ->
  (replace_x_raw_image_urls df net).1 = SysExit 1.
Proof.
  intros Hj Hf. unfold replace_x_raw_image_urls.
  destruct (omap item_details_url (List.filter valid_url df)) as [|u us] eqn:E;
    [discriminate Hj|].
  rewrite bind_fst. unfold process_urls.
  rewrite (process_urls_from_exit net (u :: us) 0 [] j url Hj); [reflexivity|].
  apply scrape_call_fetch_failed. exact Hf.
Qed.

(** The statement of a pair starts with the line feed of the template,
    so it is never the ETL statement. *)
Lemma statement_is_not_etl (c u : string) : statement c u <> etl_query.
Proof.
  unfold statement, replace.
  assert (Hq : exists rest, update_query = String "010"%char rest) by (eexists; reflexivity).
  destruct Hq as [rest ->].
  cbn [replace_go]. replace (String.prefix "{image_url}" (String "010" rest)) with false
    by reflexivity.
  cbn [replace_go]. replace (String.prefix "{nc_code}"
                               (String "010" (replace_go "{image_url}" u 0 rest))) with false
    by reflexivity.
  discriminate.
Qed.

(** The module-level statement is no statement of the loop and not the
    ETL statement. *)
Lemma statement_is_not_query (c u : string) : statement c u <> query.
Proof.
  unfold statement, replace.
  assert (Hq : exists rest, update_query = String "010"%char rest) by (eexists; reflexivity).
  destruct Hq as [rest ->].
  cbn [replace_go]. replace (String.prefix "{image_url}" (String "010" rest)) with false
    by reflexivity.
  cbn [replace_go]. replace (String.prefix "{nc_code}"
                               (String "010" (replace_go "{image_url}" u 0 rest))) with false
    by reflexivity.
  discriminate.
Qed.

Lemma query_is_not_etl : query <> etl_query.
Proof. discriminate. Qed.

(** The script when the module-level statement is answered: that
    statement, one turn of the loop, the ETL statement. *)
Lemma script_unfold (fuel : nat) (df : list row) (world : nat -> network) (sink : warehouse) :
  script (S fuel) (inr df) world sink
  = ((st' ← loop_body df world sink (State false 0);
      _ ← run_query sink etl_query; ret (Some st')).1,
     Query query
     :: (st' ← loop_body df world sink (State false 0);
         _ ← run_query sink etl_query; ret (Some st')).2).
Proof.
  unfold script, bigquery_to_df. rewrite bind_assoc.
  unfold emit at 1. rewrite bind_return, bind_ret, while_loop_once, bind_assoc.
  cbn [app]. f_equal; [f_equal|f_equal; f_equal];
    (destruct (loop_body df world sink (State false 0)) as [[st'|e|n] t]; [|reflexivity..];
     rewrite (bind_return st' t), (bind_return st' t), bind_ret; reflexivity).
Qed.

End ImageLoop.

(** X14: the two lists that [replace_x_raw_image_urls] returns have the same
    length, the number of rows of the table with a url that is neither
    NULL, nor empty, nor blank: the [zip] of the update loop drops
    nothing. *)
Theorem replaced_lists_have_equal_length (df : list XImage.row) (net : XImage.network)
    (nc_code_list image_url_list : list string) :
  (XImage.replace_x_raw_image_urls df net).1 = Return (nc_code_list, image_url_list) ->
  length nc_code_list = length (List.filter XImage.valid_url df)
  /\ length image_url_list = length (List.filter XImage.valid_url df)
  /\ length (zip nc_code_list image_url_list) = length (List.filter XImage.valid_url df).
Proof.
  rewrite <- valid_urls_length. unfold XImage.replace_x_raw_image_urls.
  destruct (omap XImage.item_details_url (List.filter XImage.valid_url df)) as [|u us] eqn:E.
  - intros [= <- <-]. repeat split; reflexivity.
  - rewrite bind_fst. unfold XImage.process_urls.
    destruct (XImage.process_urls_from net 0 (u :: us) []).1 as [results|e|n] eqn:Hr;
      [|discriminate..].
    apply process_urls_from_length in Hr. cbn [length Nat.add] in Hr.
    intros [= <- <-]. rewrite length_zip_with, !length_fmap, Hr. cbn [length]. lia.
Qed.

Lemma replaced_lists_have_equal_length_witness :
  exists nc_code_list image_url_list,
    (XImage.replace_x_raw_image_urls
       (Fixtures.one_row ++ [XImage.Row "NC-0002" None; XImage.Row "NC-0003" (Some "  ")])
       (Fixtures.always Fixtures.empty_page)).1
    = Return (nc_code_list, image_url_list)
    /\ length nc_code_list = 1%nat /\ length image_url_list = 1%nat.
Proof.
  destruct (outcome_returns
              (XImage.replace_x_raw_image_urls
                 (Fixtures.one_row ++ [XImage.Row "NC-0002" None; XImage.Row "NC-0003" (Some "  ")])
                 (Fixtures.always Fixtures.empty_page)).1) as [[l1 l2] H];
    [vm_compute; reflexivity|].
  exists l1, l2. split; [exact H|].
  destruct (replaced_lists_have_equal_length _ _ _ _ H) as (H1 & H2 & _).
  split; [exact H1 | exact H2].
Defined.

(** X15: a table without a row to scrape: nothing is requested, no update is
    sent and the flag is set after one turn of the loop.  The statements
    the script sends are the module-level query and, after the loop, the
    ETL statement, and the script ends as the ETL statement does. *)
Theorem table_without_urls_sends_no_update (fuel : nat) (df : list XImage.row)
    (world : nat -> XImage.network) (sink : XImage.warehouse) :
  (1 <= fuel)%nat ->
  Forall (fun r => XImage.valid_url r = false) df ->
  XImage.replace_x_raw_image_urls df (world 0%nat) = (Return ([], []), [])
  /\ XImage.while_loop fuel df world sink (XImage.State false 0)
     = (Return (Some (XImage.State true 1)), [])
  /\ XImage.script fuel (inr df) world sink
     = (match sink XImage.etl_query with
        | Some e => Raise e
        | None => Return (Some (XImage.State true 1))
        end,
        [Query XImage.query; Query XImage.etl_query])
  /\ forall c u, Query (XImage.statement c u) ∉ (XImage.script fuel (inr df) world sink).2.
Proof.
  intros Hfuel Hdf. destruct fuel as [|fuel]; [lia|].
  assert (Hr : forall net, XImage.replace_x_raw_image_urls df net = (Return ([], []), [])).
  { intros net. unfold XImage.replace_x_raw_image_urls. rewrite (valid_urls_none df Hdf).
    reflexivity. }
  assert (Hbody : XImage.loop_body df world sink (XImage.State false 0)
                  = (Return (XImage.State true 1), [])).
  { unfold XImage.loop_body. cbn [XImage.passes].
    rewrite (Hr (world 0%nat)), bind_pure. cbn [existsb]. rewrite bind_ret.
    cbn [zip zip_with XImage.update_loop]. rewrite bind_ret. reflexivity. }
  assert (Hscript : XImage.script (S fuel) (inr df) world sink
                    = (match sink XImage.etl_query with
                       | Some e => Raise e
                       | None => Return (Some (XImage.State true 1))
                       end,
                       [Query XImage.query; Query XImage.etl_query])).
  { rewrite script_unfold, Hbody, bind_pure.
    unfold XImage.run_query. destruct (sink XImage.etl_query); reflexivity. }
  split; [apply Hr|]. split; [rewrite while_loop_once, Hbody; reflexivity|].
  split; [exact Hscript|].
  intros c u Hin. rewrite Hscript in Hin. cbn [snd] in Hin.
  apply elem_of_cons in Hin as [Hin | Hin].
  - apply Query_inj in Hin. exact (statement_is_not_query c u Hin).
  - apply list_elem_of_singleton, Query_inj in Hin. exact (statement_is_not_etl c u Hin).
Qed.

Lemma table_without_urls_sends_no_update_witness :
  XImage.script 3 (inr [XImage.Row "NC-0002" None; XImage.Row "NC-0003" (Some "  ")])
    Fixtures.stuck Fixtures.accepting
  = (Return (Some (XImage.State true 1)), [Query XImage.query; Query XImage.etl_query]).
Proof.
  destruct (table_without_urls_sends_no_update 3
              [XImage.Row "NC-0002" None; XImage.Row "NC-0003" (Some "  ")]
              Fixtures.stuck Fixtures.accepting) as (_ & _ & H & _).
  - lia.
  - repeat constructor.
  - exact H.
Defined.



(** X17: a request that fails inside the loop of replace_x_image_urls.py is
    not caught by the handler of the loop: the process leaves with
    status 1.  By then it has sent the module-level query and written
    log lines, nothing else: no update and no ETL statement are sent. *)
Theorem failed_fetch_in_loop_exits_with_status_one (fuel : nat) (df : list XImage.row)
    (world : nat -> XImage.network) (sink : XImage.warehouse) (j : nat) (url : string) :
  (1 <= fuel)%nat ->
  omap XImage.item_details_url (List.filter XImage.valid_url df) !! j = Some url ->
  Scrape.fetch_failed (world 0%nat j 1%nat) = true ->
  XImage.script fuel (inr df) world sink
  = (SysExit 1, Query XImage.query :: (XImage.replace_x_raw_image_urls df (world 0%nat)).2)
  /\ exit_status (XImage.script fuel (inr df) world sink).1 = 1
  /\ Trace.only_logs (XImage.replace_x_raw_image_urls df (world 0%nat))
  /\ (forall sql, Query sql ∈ (XImage.script fuel (inr df) world sink).2 -> sql = XImage.query)
  /\ (Query XImage.etl_query ∉ (XImage.script fuel (inr df) world sink).2)
  /\ forall c u, Query (XImage.statement c u) ∉ (XImage.script fuel (inr df) world sink).2.
Proof.
  intros Hfuel Hj Hf. destruct fuel as [|fuel]; [lia|].
  pose proof (replace_x_raw_image_urls_exit df (world 0%nat) j url Hj Hf) as Hr.
  pose proof (only_logs_replace_x_raw_image_urls df (world 0%nat)) as Hlogs.
  assert (Hscript : XImage.script (S fuel) (inr df) world sink
                    = (SysExit 1,
                       Query XImage.query
                       :: (XImage.replace_x_raw_image_urls df (world 0%nat)).2)).
  { rewrite script_unfold. unfold XImage.loop_body. cbn [XImage.passes].
    destruct (XImage.replace_x_raw_image_urls df (world 0%nat)) as [o t].
    cbn [fst snd] in *. subst o. reflexivity. }
  assert (Hsent : forall sql, Query sql ∈ (XImage.script (S fuel) (inr df) world sink).2
                              -> sql = XImage.query).
  { intros sql Hin. rewrite Hscript in Hin. cbn [snd] in Hin.
    apply elem_of_cons in Hin as [Hin | Hin]; [exact (Query_inj _ _ Hin)|].
    exfalso. revert Hin. apply (only_logs_not_in _ _ Hlogs). reflexivity. }
  split; [exact Hscript|]. split; [rewrite Hscript; reflexivity|].
  split; [exact Hlogs|]. split; [exact Hsent|]. split.
  - intros Hin. apply Hsent in Hin. symmetry in Hin. exact (query_is_not_etl Hin).
  - intros c u Hin. apply Hsent in Hin. exact (statement_is_not_query c u Hin).
Qed.

Lemma failed_fetch_in_loop_exits_with_status_one_witness :
  exit_status (XImage.script 1 (inr Fixtures.one_row)
                 (fun _ => Fixtures.first_refused) Fixtures.accepting).1 = 1.
Proof.
  destruct (failed_fetch_in_loop_exits_with_status_one 1 Fixtures.one_row
              (fun _ => Fixtures.first_refused) Fixtures.accepting
              0 "https://abc2.nc.gov/pricing/details/1") as (_ & H & _).
  - lia.
  - reflexivity.
  - reflexivity.
  - exact H.
Defined.

(** X18: the dash that is put into the code loses nothing: the result is one
    character longer than the value read from the page, and two
    different values never give the same code. *)
Theorem nc_code_with_dash_injective (v w : string) :
  String.length (Scrape.nc_code_with_dash v) = S (String.length v)
  /\ (Scrape.nc_code_with_dash v = Scrape.nc_code_with_dash w -> v = w).
Proof.
  split.
  - destruct v as [|a [|b rest]]; [reflexivity | reflexivity |].
    rewrite nc_code_with_dash_long. reflexivity.
  - destruct v as [|a [|b rest]], w as [|a' [|b' rest']];
      rewrite ?nc_code_with_dash_long; cbn;
      intros H; try discriminate H; try reflexivity;
      injection H; intros; subst; try discriminate; reflexivity.
Qed.

Section PricingRows.
Import Bs4 PricingSite.

Implicit Types (columns : gmap string (list (option string))) (values : list string).

Lemma append_value_ok (k : string) values (i : nat) columns (l : list (option string))
    (v : string) :
  columns !! k = Some l -> values !! i = Some v ->
  append_value k values i columns = (Return (<[k := l ++ [Some v]]> columns), []).
Proof. intros Hk Hi. unfold append_value, getitem, index. rewrite Hk, Hi. reflexivity. Qed.

Lemma append_value_short (k : string) values (i : nat) columns (l : list (option string)) :
  columns !! k = Some l -> values !! i = None ->
  append_value k values i columns = (Raise out_of_range, []).
Proof. intros Hk Hi. unfold append_value, getitem, index. rewrite Hk, Hi. reflexivity. Qed.

Lemma append_ok (k : string) (v : option string) columns (l : list (option string)) :
  columns !! k = Some l -> append k v columns = (Return (<[k := l ++ [v]]> columns), []).
Proof. intros Hk. unfold append, getitem. rewrite Hk. reflexivity. Qed.

Lemma rectangular_lookup (n : nat) columns (k : string) :
  rectangular n columns -> k ∈ column_names ->
  exists l, columns !! k = Some l /\ length l = n.
Proof. intros H Hk. unfold rectangular in H. rewrite Forall_forall in H. exact (H k Hk). Qed.

Lemma rectangular_init : rectangular 0 quarterly_pricing_list_column_names.
Proof. repeat constructor; eexists; split; reflexivity. Qed.

(** The ten appends of a product row, as the loop body has them. *)
Lemma tag_step_data_row (tag_element : node) columns (product_category : option string)
    (onclick_attr : string) :
  is_tag tag_element = true ->
  find tag_element "h5" [] = None ->
  class_is tag_element ["row"; "font-weight-bold"] = false ->
  class_is tag_element ["list-generic"; "row"] = true ->
  get tag_element "onclick" = Some (AttrStr onclick_attr) ->
  onclick_attr <> "" ->
  tag_step tag_element (columns, product_category)
  = (let values := inner (split LF (text tag_element)) in
     columns ← append_value "nc_code" values 0 columns;
     columns ← append_value "supplier" values 1 columns;
     columns ← append_value "brand_name" values 2 columns;
     columns ← append_value "age" values 3 columns;
     columns ← append_value "proof" values 4 columns;
     columns ← append_value "size" values 5 columns;
     columns ← append_value "retail_price" values 6 columns;
     columns ← append_value "mxb_price" values 7 columns;
     columns ← append "product_category" product_category columns;
     columns ← append "item_details_url"
                 (Some ("https://abc2.nc.gov"
                        +:+ replace "'" "" (replace "window.location = '" "" onclick_attr)))
                 columns;
     ret (columns, product_category)).
Proof.
  intros Htag Hh5 Hheader Hrow Honclick Hne. unfold tag_step.
  rewrite Htag, Hh5, Hheader, Hrow, Honclick.
  destruct (String.eqb_spec onclick_attr ""); [contradiction | reflexivity].
Qed.

End PricingRows.

Ltac through_inserts :=
  repeat (rewrite lookup_insert_ne by discriminate); try rewrite lookup_insert_eq;
  first [eassumption | reflexivity].

Ltac append_values :=
  repeat (erewrite append_value_ok; [rewrite bind_pure | through_inserts | reflexivity]).

Section PricingFrame.
Import Bs4 PricingSite.

Implicit Types (columns : gmap string (list (option string))) (values : list string).

(** A row with its eight values: one cell is appended to every column. *)
Lemma row_block_ok (n : nat) columns (product_category : option string) (url : string)
    (v0 v1 v2 v3 v4 v5 v6 v7 : string) (rest : list string) :
  rectangular n columns ->
  exists columns',
    (let values := v0 :: v1 :: v2 :: v3 :: v4 :: v5 :: v6 :: v7 :: rest in
     columns ← append_value "nc_code" values 0 columns;
     columns ← append_value "supplier" values 1 columns;
     columns ← append_value "brand_name" values 2 columns;
     columns ← append_value "age" values 3 columns;
     columns ← append_value "proof" values 4 columns;
     columns ← append_value "size" values 5 columns;
     columns ← append_value "retail_price" values 6 columns;
     columns ← append_value "mxb_price" values 7 columns;
     columns ← append "product_category" product_category columns;
     columns ← append "item_details_url" (Some url) columns;
     ret (columns, product_category))
    = (Return (columns', product_category), [])
    /\ Forall2 (fun k cell => exists l, columns !! k = Some l /\ length l = n
                                        /\ columns' !! k = Some (l ++ [cell]))
         column_names
         [Some v0; Some v1; Some v2; Some v3; Some v4; Some v5; Some v6; Some v7;
          product_category; Some url].
Proof.
  intros H.
  destruct (rectangular_lookup n columns "nc_code" H ltac:(unfold column_names; in_list))
    as (l0 & H0 & L0).
  destruct (rectangular_lookup n columns "supplier" H ltac:(unfold column_names; in_list))
    as (l1 & H1 & L1).
  destruct (rectangular_lookup n columns "brand_name" H ltac:(unfold column_names; in_list))
    as (l2 & H2 & L2).
  destruct (rectangular_lookup n columns "age" H ltac:(unfold column_names; in_list))
    as (l3 & H3 & L3).
  destruct (rectangular_lookup n columns "proof" H ltac:(unfold column_names; in_list))
    as (l4 & H4 & L4).
  destruct (rectangular_lookup n columns "size" H ltac:(unfold column_names; in_list))
    as (l5 & H5 & L5).
  destruct (rectangular_lookup n columns "retail_price" H ltac:(unfold column_names; in_list))
    as (l6 & H6 & L6).
  destruct (rectangular_lookup n columns "mxb_price" H ltac:(unfold column_names; in_list))
    as (l7 & H7 & L7).
  destruct (rectangular_lookup n columns "product_category" H
              ltac:(unfold column_names; in_list)) as (l8 & H8 & L8).
  destruct (rectangular_lookup n columns "item_details_url" H
              ltac:(unfold column_names; in_list)) as (l9 & H9 & L9).
  cbv zeta. eexists. split.
  - append_values.
    erewrite append_ok; [rewrite bind_pure | through_inserts].
    erewrite append_ok; [rewrite bind_pure | through_inserts].
    reflexivity.
  - unfold column_names.
    repeat (constructor; [eexists; split; [eassumption|]; split; [assumption|];
                          through_inserts |]).
    constructor.
Qed.

(** A row with fewer than eight values: the first missing one raises. *)
Lemma row_block_short (n : nat) columns (product_category : option string) (url : string)
    values :
  rectangular n columns ->
  (length values < 8)%nat ->
  (columns ← append_value "nc_code" values 0 columns;
   columns ← append_value "supplier" values 1 columns;
   columns ← append_value "brand_name" values 2 columns;
   columns ← append_value "age" values 3 columns;
   columns ← append_value "proof" values 4 columns;
   columns ← append_value "size" values 5 columns;
   columns ← append_value "retail_price" values 6 columns;
   columns ← append_value "mxb_price" values 7 columns;
   columns ← append "product_category" product_category columns;
   columns ← append "item_details_url" (Some url) columns;
   ret (columns, product_category))
  = (Raise out_of_range, []).
Proof.
  intros H Hlen.
  destruct (rectangular_lookup n columns "nc_code" H ltac:(unfold column_names; in_list))
    as (l0 & H0 & L0).
  destruct (rectangular_lookup n columns "supplier" H ltac:(unfold column_names; in_list))
    as (l1 & H1 & L1).
  destruct (rectangular_lookup n columns "brand_name" H ltac:(unfold column_names; in_list))
    as (l2 & H2 & L2).
  destruct (rectangular_lookup n columns "age" H ltac:(unfold column_names; in_list))
    as (l3 & H3 & L3).
  destruct (rectangular_lookup n columns "proof" H ltac:(unfold column_names; in_list))
    as (l4 & H4 & L4).
  destruct (rectangular_lookup n columns "size" H ltac:(unfold column_names; in_list))
    as (l5 & H5 & L5).
  destruct (rectangular_lookup n columns "retail_price" H ltac:(unfold column_names; in_list))
    as (l6 & H6 & L6).
  destruct (rectangular_lookup n columns "mxb_price" H ltac:(unfold column_names; in_list))
    as (l7 & H7 & L7).
  destruct values as [|v0 [|v1 [|v2 [|v3 [|v4 [|v5 [|v6 [|v7 rest]]]]]]]];
    [| | | | | | | | cbn [length] in Hlen; lia];
    append_values;
    (erewrite append_value_short; [reflexivity | through_inserts | reflexivity]).
Qed.

End PricingFrame.

Section PricingLoop.
Import Bs4 PricingSite.

Implicit Types (columns : gmap string (list (option string))) (values : list string).

Lemma row_rectangular (n : nat) columns columns' (cells : list (option string)) :
  Forall2 (fun k cell => exists l, columns !! k = Some l /\ length l = n
                                   /\ columns' !! k = Some (l ++ [cell]))
    column_names cells ->
  rectangular (S n) columns'.
Proof.
  intros H. unfold rectangular. apply Forall_forall. intros k Hk.
  apply list_elem_of_lookup in Hk as [i Hi].
  destruct (Forall2_lookup_l _ _ _ _ _ H Hi) as (cell & _ & l & _ & Hl & Hk').
  exists (l ++ [cell]). split; [exact Hk'|]. rewrite length_app. cbn [length]. lia.
Qed.

(** The category after an element: the heading it announces, else the
    category before it. *)
Lemma heading_step (tag_element : node) (product_category : option string) :
  match heading_of tag_element with
  | Some t => Some t
  | None => product_category
  end
  = if is_tag tag_element then
      match find tag_element "h5" [] with
      | Some h5_element => Some (text h5_element)
      | None => product_category
      end
    else product_category.
Proof.
  unfold heading_of. destruct (is_tag tag_element); [|reflexivity].
  destruct (find tag_element "h5" []); reflexivity.
Qed.

(** What one turn of the loop does to a frame of [n] rows. *)
Lemma tag_step_cases (n : nat) (tag_element : node) columns
    (product_category : option string) :
  rectangular n columns ->
  tag_step tag_element (columns, product_category)
  = (Return (columns, match heading_of tag_element with
                      | Some t => Some t
                      | None => product_category
                      end), [])
  \/ (exists columns',
        tag_step tag_element (columns, product_category)
        = (Return (columns', product_category), [])
        /\ heading_of tag_element = None
        /\ rectangular (S n) columns')
  \/ tag_step tag_element (columns, product_category) = (Raise out_of_range, [])
  \/ exists msg, tag_step tag_element (columns, product_category) = (Raise (TypeError msg), []).
Proof.
  intros Hrect. rewrite heading_step.
  destruct (is_tag tag_element) eqn:Htag; [|left; unfold tag_step; rewrite Htag; reflexivity].
  destruct (find tag_element "h5" []) as [h5|] eqn:Hh5;
    [left; unfold tag_step; rewrite Htag, Hh5; reflexivity|].
  destruct (class_is tag_element ["row"; "font-weight-bold"]) eqn:Hheader;
    [left; unfold tag_step; rewrite Htag, Hh5, Hheader; reflexivity|].
  destruct (class_is tag_element ["list-generic"; "row"]) eqn:Hrow;
    [|left; unfold tag_step; rewrite Htag, Hh5, Hheader, Hrow; reflexivity].
  destruct (get tag_element "onclick") as [[onclick_attr | [|x xs]]|] eqn:Honclick;
    [ | left; unfold tag_step; rewrite Htag, Hh5, Hheader, Hrow, Honclick; reflexivity
      | right; right; right; eexists; unfold tag_step;
        rewrite Htag, Hh5, Hheader, Hrow, Honclick; reflexivity
      | left; unfold tag_step; rewrite Htag, Hh5, Hheader, Hrow, Honclick; reflexivity ].
  destruct (String.eqb_spec onclick_attr "") as [-> | Hne];
    [left; unfold tag_step; rewrite Htag, Hh5, Hheader, Hrow, Honclick; reflexivity|].
  rewrite (tag_step_data_row tag_element columns product_category onclick_attr
             Htag Hh5 Hheader Hrow Honclick Hne).
  cbv zeta. set (values := inner (split LF (text tag_element))).
  destruct (le_lt_dec 8 (length values)) as [Hlen | Hlen].
  - right. left.
    destruct values as [|v0 [|v1 [|v2 [|v3 [|v4 [|v5 [|v6 [|v7 rest]]]]]]]];
      try (cbn [length] in Hlen; lia).
    destruct (row_block_ok n columns product_category
                ("https://abc2.nc.gov"
                 +:+ replace "'" "" (replace "window.location = '" "" onclick_attr))
                v0 v1 v2 v3 v4 v5 v6 v7 rest Hrect) as (columns' & Hblock & Hcells).
    exists columns'. split; [exact Hblock|]. split.
    + unfold heading_of. rewrite Htag, Hh5. reflexivity.
    + exact (row_rectangular n columns columns' _ Hcells).
  - right. right. left. apply (row_block_short n); assumption.
Qed.

(** The loop over the elements: the frame stays rectangular, it grows by
    at most one row per element, no effect is left, and the category is
    the one of the last heading met. *)
Lemma tag_loop_cases (l : list node) :
  forall (n : nat) columns (product_category : option string),
  rectangular n columns ->
  (exists columns' m,
     for_each l tag_step (columns, product_category)
     = (Return (columns',
                foldl (fun c e => match heading_of e with Some t => Some t | None => c end)
                      product_category l), [])
     /\ rectangular m columns' /\ (n <= m <= n + length l)%nat)
  \/ for_each l tag_step (columns, product_category) = (Raise out_of_range, [])
  \/ exists msg, for_each l tag_step (columns, product_category) = (Raise (TypeError msg), []).
Proof.
  induction l as [|e l IH]; intros n columns cat Hrect.
  - left. exists columns, n. split; [reflexivity|]. split; [exact Hrect | cbn [length]; lia].
  - cbn [for_each foldl].
    destruct (tag_step_cases n e columns cat Hrect)
      as [Hs | [(columns1 & Hs & Hh & Hrect1) | [Hs | [msg Hs]]]]; rewrite Hs.
    + rewrite bind_pure.
      destruct (IH n columns (match heading_of e with Some t => Some t | None => cat end) Hrect)
        as [(columns' & m & Hl & Hm & Hb) | [Hl | [msg Hl]]];
        rewrite Hl; [left | right; left; reflexivity | right; right; eauto].
      exists columns', m. split; [reflexivity|]. split; [exact Hm | cbn [length]; lia].
    + rewrite bind_pure, Hh.
      destruct (IH (S n) columns1 cat Hrect1)
        as [(columns' & m & Hl & Hm & Hb) | [Hl | [msg Hl]]];
        rewrite Hl; [left | right; left; reflexivity | right; right; eauto].
      exists columns', m. split; [reflexivity|]. split; [exact Hm | cbn [length]; lia].
    + right. left. reflexivity.
    + right. right. exists msg. reflexivity.
Qed.

Lemma for_each_app {A S} (l1 l2 : list A) (body : A -> S -> M S) (s : S) :
  for_each (l1 ++ l2) body s = (s' ← for_each l1 body s; for_each l2 body s').
Proof.
  revert s. induction l1 as [|x l1 IH]; intros s.
  - cbn [app for_each]. rewrite bind_ret. reflexivity.
  - cbn [app for_each]. rewrite bind_assoc.
    destruct (body x s) as [[s1|e|n] t]; [|reflexivity..].
    rewrite !(bind_return s1 t), IH. reflexivity.
Qed.

Lemma check_bucket_access_eq (sv : services) :
  check_bucket_access sv
  = (Return (match bucket_error sv with Some _ => false | None => true end), []).
Proof. unfold check_bucket_access. destruct (bucket_error sv); reflexivity. Qed.

Lemma df_to_gcloud_bigquery_fst (sv : services) (blob_name : string) :
  exists b, (df_to_gcloud_bigquery sv blob_name).1 = Return b.
Proof. unfold df_to_gcloud_bigquery. destruct (upload_error sv); eexists; reflexivity. Qed.

Lemma create_list_cases (r : Scrape.fetched) :
  (create_list_from_abc_request r).1 =
  match r with
  | Scrape.GetRaises e => Raise e
  | Scrape.Response _ soup =>
      match find_all soup "div" [("class", "container table-responsive")] with
      | [] => Raise out_of_range
      | [product_listing_divs] => Return (contents_of product_listing_divs)
      | _ :: _ :: _ => SysExit 1
      end
  end.
Proof.
  destruct r as [e | status soup]; [reflexivity|]. unfold create_list_from_abc_request.
  destruct (find_all soup "div" _) as [|t [|t' ts]]; reflexivity.
Qed.

Lemma convert_cases (abc_list : list node) :
  (exists columns n,
     convert_abc_list_to_df abc_list = (Return columns, [])
     /\ rectangular n columns /\ (n <= length abc_list)%nat)
  \/ convert_abc_list_to_df abc_list = (Raise out_of_range, [])
  \/ exists msg, convert_abc_list_to_df abc_list = (Raise (TypeError msg), []).
Proof.
  unfold convert_abc_list_to_df.
  destruct (tag_loop_cases abc_list 0 _ None rectangular_init)
    as [(columns & m & Hl & Hm & Hb) | [Hl | [msg Hl]]]; rewrite Hl.
  - left. exists columns, m. split; [rewrite bind_pure; reflexivity|].
    split; [exact Hm | lia].
  - right. left. reflexivity.
  - right. right. exists msg. reflexivity.
Qed.

End PricingLoop.

Section PricingConvert.
Import Bs4 PricingSite.

(** What the loop over the elements before a row has made, when the
    conversion of these elements returns. *)
Lemma convert_return_loop (before : list node)
    (columns : gmap string (list (option string))) :
  (convert_abc_list_to_df before).1 = Return columns ->
  exists n,
    for_each before tag_step (quarterly_pricing_list_column_names, None)
    = (Return (columns,
               foldl (fun c e => match heading_of e with Some t => Some t | None => c end)
                     None before), [])
    /\ rectangular n columns /\ (n <= length before)%nat.
Proof.
  unfold convert_abc_list_to_df.
  destruct (tag_loop_cases before 0 _ None rectangular_init)
    as [(columns' & m & Hl & Hm & Hb) | [Hl | [msg Hl]]]; rewrite Hl;
    [|discriminate..].
  rewrite bind_pure. intros [= <-]. exists m. split; [reflexivity|]. split; [exact Hm | lia].
Qed.

End PricingConvert.

(** X19: the dictionary that [convert_abc_list_to_df] returns can always be
    made into a frame: its ten columns have the same length, at most one
    row for each element of the list, and the conversion leaves no
    effect. *)
Theorem pricing_frame_is_rectangular (abc_list : list Bs4.node)
    (columns : gmap string (list (option string))) :
  (PricingSite.convert_abc_list_to_df abc_list).1 = Return columns ->
  PricingSite.convert_abc_list_to_df abc_list = (Return columns, [])
  /\ exists n,
       PricingSite.rectangular n columns
       /\ (n <= length abc_list)%nat
       /\ forall k, k ∈ PricingSite.column_names ->
            exists l, columns !! k = Some l /\ length l = n.
Proof.
  intros H. destruct (convert_cases abc_list)
    as [(columns' & n & Hc & Hrect & Hn) | [Hc | [msg Hc]]];
    rewrite Hc in H |- *; [|discriminate..].
  injection H as <-. split; [reflexivity|].
  exists n. split; [exact Hrect|]. split; [exact Hn|].
  intros k Hk. exact (rectangular_lookup n columns' k Hrect Hk).
Qed.

Lemma pricing_frame_is_rectangular_witness :
  exists columns,
    PricingSite.convert_abc_list_to_df
      [MoreFixtures.category_block "Bourbon"; MoreFixtures.header_block;
       MoreFixtures.product_block "123" MoreFixtures.whiskey]
    = (Return columns, []).
Proof.
  destruct (outcome_returns
              (PricingSite.convert_abc_list_to_df
                 [MoreFixtures.category_block "Bourbon"; MoreFixtures.header_block;
                  MoreFixtures.product_block "123" MoreFixtures.whiskey]).1)
    as [columns H]; [vm_compute; reflexivity|].
  exists columns. exact (proj1 (pricing_frame_is_rectangular _ _ H)).
Defined.

Lemma product_row_is_appended_free (n : nat) (tag_element : Bs4.node)
    (columns : gmap string (list (option string))) (product_category : option string)
    (onclick_attr : string) (v0 v1 v2 v3 v4 v5 v6 v7 : string) (rest : list string) :
  Bs4.is_tag tag_element = true ->
  Bs4.find tag_element "h5" [] = None ->
  PricingSite.class_is tag_element ["list-generic"; "row"] = true ->
  Bs4.get tag_element "onclick" = Some (Bs4.AttrStr onclick_attr) ->
  onclick_attr <> "" ->
  PricingSite.inner (split LF (Bs4.text tag_element))
  = v0 :: v1 :: v2 :: v3 :: v4 :: v5 :: v6 :: v7 :: rest ->
  PricingSite.rectangular n columns ->
  exists columns',
    PricingSite.tag_step tag_element (columns, product_category)
    = (Return (columns', product_category), [])
    /\ Forall2 (fun k cell => exists l, columns !! k = Some l /\ length l = n
                                        /\ columns' !! k = Some (l ++ [cell]))
         PricingSite.column_names
         [Some v0; Some v1; Some v2; Some v3; Some v4; Some v5; Some v6; Some v7;
          product_category;
          Some ("https://abc2.nc.gov"
                +:+ replace "'" "" (replace "window.location = '" "" onclick_attr))].
Proof.
  intros Htag Hh5 Hrow Honclick Hne Hvalues Hrect.
  assert (Hheader : PricingSite.class_is tag_element ["row"; "font-weight-bold"] = false).
  { revert Hrow. unfold PricingSite.class_is.
    destruct (Bs4.get tag_element "class") as [[s|l]|]; try discriminate.
    intros Hl. apply bool_decide_eq_true in Hl as ->. reflexivity. }
  rewrite (tag_step_data_row tag_element columns product_category onclick_attr
             Htag Hh5 Hheader Hrow Honclick Hne).
  cbv zeta. rewrite Hvalues.
  exact (row_block_ok n columns product_category _ v0 v1 v2 v3 v4 v5 v6 v7 rest Hrect).
Qed.

(** X20: a product row of the price list: the first eight lines inside its
    text go to the eight value columns, the category is the one in force,
    and the address is the site followed by the [onclick] text without
    its [window.location = '] and without quotes.  One cell is appended
    to each of the ten columns. *)
Theorem product_row_is_appended (n : nat) (tag_element : Bs4.node)
    (columns : gmap string (list (option string))) (product_category : option string)
    (onclick_attr : string) (v0 v1 v2 v3 v4 v5 v6 v7 : string) (rest : list string) :
  Bs4.is_tag tag_element = true ->
  Bs4.find tag_element "h5" [] = None ->
  PricingSite.class_is tag_element ["list-generic"; "row"] = true ->
  Bs4.get tag_element "onclick" = Some (Bs4.AttrStr onclick_attr) ->
  onclick_attr <> "" ->
  PricingSite.inner (split LF (Bs4.text tag_element))
  = v0 :: v1 :: v2 :: v3 :: v4 :: v5 :: v6 :: v7 :: rest ->
  PricingSite.rectangular n columns ->
  exists columns',
    PricingSite.tag_step tag_element (columns, product_category)
    = (Return (columns', product_category), [])
    /\ PricingSite.rectangular (S n) columns'
    /\ Forall2 (fun k cell => exists l, columns !! k = Some l /\ length l = n
                                        /\ columns' !! k = Some (l ++ [cell]))
         PricingSite.column_names
         [Some v0; Some v1; Some v2; Some v3; Some v4; Some v5; Some v6; Some v7;
          product_category;
          Some ("https://abc2.nc.gov"
                +:+ replace "'" "" (replace "window.location = '" "" onclick_attr))].
Proof.
  intros Htag Hh5 Hrow Honclick Hne Hvalues Hrect.
  destruct (product_row_is_appended_free n tag_element columns product_category onclick_attr
              v0 v1 v2 v3 v4 v5 v6 v7 rest Htag Hh5 Hrow Honclick Hne Hvalues Hrect)
    as (columns' & Hstep & Hcells).
  exists columns'. split; [exact Hstep|]. split; [|exact Hcells].
  exact (row_rectangular n columns columns' _ Hcells).
Qed.

Lemma product_row_is_appended_witness :
  exists columns',
    PricingSite.tag_step (MoreFixtures.product_block "123" MoreFixtures.whiskey)
      (PricingSite.quarterly_pricing_list_column_names, Some "Bourbon")
    = (Return (columns', Some "Bourbon"), [])
    /\ columns' !! "item_details_url" = Some [Some "https://abc2.nc.gov/Pricing/Details/123"]
    /\ columns' !! "product_category" = Some [Some "Bourbon"].
Proof.
  destruct (product_row_is_appended 0 (MoreFixtures.product_block "123" MoreFixtures.whiskey)
              PricingSite.quarterly_pricing_list_column_names (Some "Bourbon")
              "window.location = '/Pricing/Details/123'"
              "00-123" "Supplier A" "Brand X" "4" "80" "750ML" "$19.95" "$21.95" [])
    as (columns' & H1 & _ & H3).
  - reflexivity.
  - reflexivity.
  - reflexivity.
  - reflexivity.
  - discriminate.
  - reflexivity.
  - exact rectangular_init.
  - exists columns'. split; [exact H1|].
    pose proof (Forall2_lookup_l _ _ _ 9%nat "item_details_url" H3 eq_refl)
      as (cell9 & Hc9 & l9 & Hl9 & _ & Hk9).
    pose proof (Forall2_lookup_l _ _ _ 8%nat "product_category" H3 eq_refl)
      as (cell8 & Hc8 & l8 & Hl8 & _ & Hk8).
    injection Hc9 as <-. injection Hc8 as <-.
    vm_compute in Hl9, Hl8. injection Hl9 as <-. injection Hl8 as <-.
    split; [rewrite Hk9 | rewrite Hk8]; reflexivity.
Defined.

(** X21: a product row with fewer than eight values stops the conversion with
    [IndexError], wherever it stands in the list and whatever follows it;
    no cell of the row is kept. *)
Theorem short_product_row_raises (before after : list Bs4.node) (tag_element : Bs4.node)
    (columns : gmap string (list (option string))) (onclick_attr : string) :
  (PricingSite.convert_abc_list_to_df before).1 = Return columns ->
  Bs4.is_tag tag_element = true ->
  Bs4.find tag_element "h5" [] = None ->
  PricingSite.class_is tag_element ["list-generic"; "row"] = true ->
  Bs4.get tag_element "onclick" = Some (Bs4.AttrStr onclick_attr) ->
  onclick_attr <> "" ->
  (length (PricingSite.inner (split LF (Bs4.text tag_element))) < 8)%nat ->
  PricingSite.convert_abc_list_to_df (before ++ tag_element :: after)
  = (Raise out_of_range, []).
Proof.
  intros Hbefore Htag Hh5 Hrow Honclick Hne Hlen.
  assert (Hheader : PricingSite.class_is tag_element ["row"; "font-weight-bold"] = false).
  { revert Hrow. unfold PricingSite.class_is.
    destruct (Bs4.get tag_element "class") as [[s|l]|]; try discriminate.
    intros Hl. apply bool_decide_eq_true in Hl as ->. reflexivity. }
  destruct (convert_return_loop before columns Hbefore) as (n & Hloop & Hrect & _).
  unfold PricingSite.convert_abc_list_to_df.
  rewrite for_each_app, Hloop, bind_pure. cbn [for_each].
  rewrite (tag_step_data_row tag_element columns _ onclick_attr
             Htag Hh5 Hheader Hrow Honclick Hne).
  cbv zeta. rewrite (row_block_short n columns _ _ _ Hrect Hlen). reflexivity.
Qed.

Lemma short_product_row_raises_witness :
  PricingSite.convert_abc_list_to_df
    ([MoreFixtures.category_block "Bourbon"]
     ++ MoreFixtures.product_block "124" ["00-124"; "Supplier B"] :: [])
  = (Raise out_of_range, []).
Proof.
  destruct (outcome_returns
              (PricingSite.convert_abc_list_to_df [MoreFixtures.category_block "Bourbon"]).1)
    as [columns H]; [vm_compute; reflexivity|].
  apply (short_product_row_raises [MoreFixtures.category_block "Bourbon"] []
           (MoreFixtures.product_block "124" ["00-124"; "Supplier B"]) columns
           "window.location = '/Pricing/Details/124'").
  - exact H.
  - reflexivity.
  - reflexivity.
  - reflexivity.
  - reflexivity.
  - discriminate.
  - vm_compute. lia.
Defined.

(** X22: every product row is filed under the last heading that stands before
    it in the list, and under [None] when no heading does. *)
Theorem product_row_takes_the_last_heading (before : list Bs4.node) (tag_element : Bs4.node)
    (columns : gmap string (list (option string))) (onclick_attr : string) :
  (PricingSite.convert_abc_list_to_df before).1 = Return columns ->
  Bs4.is_tag tag_element = true ->
  Bs4.find tag_element "h5" [] = None ->
  PricingSite.class_is tag_element ["list-generic"; "row"] = true ->
  Bs4.get tag_element "onclick" = Some (Bs4.AttrStr onclick_attr) ->
  onclick_attr <> "" ->
  (8 <= length (PricingSite.inner (split LF (Bs4.text tag_element))))%nat ->
  exists columns' categories,
    PricingSite.convert_abc_list_to_df (before ++ [tag_element]) = (Return columns', [])
    /\ columns !! "product_category" = Some categories
    /\ columns' !! "product_category"
       = Some (categories
               ++ [foldl (fun c e => match PricingSite.heading_of e with
                                     | Some t => Some t
                                     | None => c
                                     end) None before]).
Proof.
  intros Hbefore Htag Hh5 Hrow Honclick Hne Hlen.
  destruct (convert_return_loop before columns Hbefore) as (n & Hloop & Hrect & _).
  destruct (PricingSite.inner (split LF (Bs4.text tag_element)))
    as [|v0 [|v1 [|v2 [|v3 [|v4 [|v5 [|v6 [|v7 rest]]]]]]]] eqn:Hvalues;
    try (cbn [length] in Hlen; lia).
  destruct (product_row_is_appended_free n tag_element columns
              (foldl (fun c e => match PricingSite.heading_of e with
                                 | Some t => Some t
                                 | None => c
                                 end) None before)
              onclick_attr v0 v1 v2 v3 v4 v5 v6 v7 rest
              Htag Hh5 Hrow Honclick Hne Hvalues Hrect) as (columns' & Hstep & Hcells).
  pose proof (Forall2_lookup_l _ _ _ 8%nat "product_category" Hcells eq_refl)
    as (cell & Hc & categories & Hl & _ & Hk).
  injection Hc as <-.
  exists columns', categories. split; [|split; [exact Hl | exact Hk]].
  unfold PricingSite.convert_abc_list_to_df.
  rewrite for_each_app, Hloop, bind_pure. cbn [for_each].
  rewrite Hstep, bind_pure, bind_ret. reflexivity.
Qed.

Lemma product_row_takes_the_last_heading_witness :
  exists columns' categories,
    PricingSite.convert_abc_list_to_df
      ([MoreFixtures.category_block "Bourbon"; MoreFixtures.category_block "Rum";
        MoreFixtures.header_block]
       ++ [MoreFixtures.product_block "123" MoreFixtures.whiskey])
    = (Return columns', [])
    /\ columns' !! "product_category" = Some (categories ++ [Some "Rum"]).
Proof.
  destruct (outcome_returns
              (PricingSite.convert_abc_list_to_df
                 [MoreFixtures.category_block "Bourbon"; MoreFixtures.category_block "Rum";
                  MoreFixtures.header_block]).1)
    as [columns H]; [vm_compute; reflexivity|].
  destruct (product_row_takes_the_last_heading
              [MoreFixtures.category_block "Bourbon"; MoreFixtures.category_block "Rum";
               MoreFixtures.header_block]
              (MoreFixtures.product_block "123" MoreFixtures.whiskey) columns
              "window.location = '/Pricing/Details/123'" H)
    as (columns' & categories & H1 & _ & H3).
  - reflexivity.
  - reflexivity.
  - reflexivity.
  - reflexivity.
  - discriminate.
  - vm_compute. lia.
  - exists columns', categories. split; [exact H1 | exact H3].
Defined.

Section PricingSkips.
Import Bs4 PricingSite.

Lemma tag_step_skip (x : node) (st : gmap string (list (option string)) * option string) :
  is_tag x = false
  \/ (find x "h5" [] = None
      /\ (class_is x ["row"; "font-weight-bold"] = true
          \/ class_is x ["list-generic"; "row"] = false
          \/ get x "onclick" = None
          \/ get x "onclick" = Some (AttrStr ""))) ->
  tag_step x st = ret st.
Proof.
  destruct st as [columns product_category]. unfold tag_step.
  intros [Htag | [Hh5 H]]; [rewrite Htag; reflexivity|].
  destruct (is_tag x); [|reflexivity]. rewrite Hh5.
  destruct (class_is x ["row"; "font-weight-bold"]); [reflexivity|].
  destruct H as [H | [H | [H | H]]]; [discriminate H | rewrite H; reflexivity | |];
    (destruct (class_is x ["list-generic"; "row"]); [rewrite H|]; reflexivity).
Qed.

End PricingSkips.

(** X23: text between the blocks, the header row, blocks of another class and
    product rows without an [onclick] leave no mark: the conversion gives
    the same result with and without them. *)
Theorem skipped_elements_change_nothing (before after : list Bs4.node) (x : Bs4.node) :
  Bs4.is_tag x = false
  \/ (Bs4.find x "h5" [] = None
      /\ (PricingSite.class_is x ["row"; "font-weight-bold"] = true
          \/ PricingSite.class_is x ["list-generic"; "row"] = false
          \/ Bs4.get x "onclick" = None
          \/ Bs4.get x "onclick" = Some (Bs4.AttrStr ""))) ->
  PricingSite.convert_abc_list_to_df (before ++ x :: after)
  = PricingSite.convert_abc_list_to_df (before ++ after).
Proof.
  intros H. unfold PricingSite.convert_abc_list_to_df.
  rewrite !for_each_app.
  destruct (for_each before PricingSite.tag_step
              (PricingSite.quarterly_pricing_list_column_names, None)) as [[st|e|n] t];
    [|reflexivity..].
  rewrite !(bind_return st t). cbn [for_each].
  rewrite (tag_step_skip x st H), bind_ret. reflexivity.
Qed.

Lemma skipped_elements_change_nothing_witness :
  PricingSite.convert_abc_list_to_df
    ([MoreFixtures.category_block "Bourbon"]
     ++ MoreFixtures.header_block :: [MoreFixtures.product_block "123" MoreFixtures.whiskey])
  = PricingSite.convert_abc_list_to_df
      ([MoreFixtures.category_block "Bourbon"]
       ++ [MoreFixtures.product_block "123" MoreFixtures.whiskey]).
Proof.
  apply (skipped_elements_change_nothing [MoreFixtures.category_block "Bourbon"]
           [MoreFixtures.product_block "123" MoreFixtures.whiskey] MoreFixtures.header_block).
  right. split; [reflexivity|]. left. reflexivity.
Defined.

(** X24: the script of scrape_pricing_site.py does nothing at all when the
    bucket cannot be reached, and then ends with status 0.  Otherwise it
    ends with status 1 exactly when the request raises, or the page does
    not hold exactly one price table, or a row of the table stops the
    conversion, or the load into the warehouse fails.  A failed upload
    changes nothing. *)
Theorem pricing_script_exit_status (sv : PricingSite.services) :
  (PricingSite.bucket_error sv <> None -> PricingSite.script sv = (Return None, []))
  /\ (exit_status (PricingSite.script sv).1 = 0 \/ exit_status (PricingSite.script sv).1 = 1)
  /\ (exit_status (PricingSite.script sv).1 <> 0 <->
      PricingSite.bucket_error sv = None
      /\ ((exists e, PricingSite.page sv = Scrape.GetRaises e)
          \/ (exists status soup,
                PricingSite.page sv = Scrape.Response status soup
                /\ length (Bs4.find_all soup "div" [("class", "container table-responsive")])
                   <> 1%nat)
          \/ (exists status soup table,
                PricingSite.page sv = Scrape.Response status soup
                /\ Bs4.find_all soup "div" [("class", "container table-responsive")] = [table]
                /\ ((exists e, (PricingSite.convert_abc_list_to_df
                                  (Bs4.contents_of table)).1 = Raise e)
                    \/ is_Some (PricingSite.load_error sv))))).
Proof.
  unfold PricingSite.script. rewrite check_bucket_access_eq, bind_pure.
  destruct (PricingSite.bucket_error sv) as [eb|] eqn:Hb.
  { split; [reflexivity|]. split; [left; reflexivity|].
    split; [intros H; exfalso; apply H; reflexivity | intros [H _]; discriminate H]. }
  split; [intros H; exfalso; apply H; reflexivity|].
  rewrite bind_fst, create_list_cases.
  destruct (PricingSite.page sv) as [e | status soup] eqn:Hpage.
  { cbn [exit_status]. split; [right; reflexivity|].
    split; [intros _; split; [reflexivity | left; eauto] | discriminate]. }
  destruct (Bs4.find_all soup "div" [("class", "container table-responsive")])
    as [|table [|table' tables]] eqn:Hfind.
  - cbn [exit_status]. split; [right; reflexivity|].
    split; [intros _ | discriminate]. split; [reflexivity|]. right. left.
    exists status, soup. split; [reflexivity|]. rewrite Hfind. discriminate.
  - rewrite bind_fst.
    destruct (convert_cases (Bs4.contents_of table))
      as [(columns & n & Hc & _) | [Hc | [msg Hc]]]; rewrite Hc; cbn [fst].
    + rewrite bind_fst.
      destruct (df_to_gcloud_bigquery_fst sv "nc-abc-bucket/abc_pricing_list.csv") as [b ->].
      rewrite bind_fst. unfold PricingSite.load_csv_to_bigquery.
      destruct (PricingSite.load_error sv) as [el|] eqn:Hload; cbn [fst emit raise exit_status].
      * split; [right; reflexivity|]. split; [intros _ | discriminate].
        split; [reflexivity|]. right. right. exists status, soup, table.
        split; [reflexivity|]. split; [exact Hfind|]. right. eauto.
      * split; [left; reflexivity|]. split; [intros H; contradiction|].
        intros [_ [[e He] | [(s & sp & [= <- <-] & Hlen) | (s & sp & tb & [= <- <-] & Hf & Hx)]]].
        -- discriminate He.
        -- rewrite Hfind in Hlen. contradiction.
        -- rewrite Hfind in Hf. injection Hf as <-. rewrite Hc in Hx.
           destruct Hx as [[e He] | [e He]]; discriminate.
    + cbn [exit_status]. split; [right; reflexivity|]. split; [intros _ | discriminate].
      split; [reflexivity|]. right. right. exists status, soup, table.
      split; [reflexivity|]. split; [exact Hfind|]. left. rewrite Hc. eauto.
    + cbn [exit_status]. split; [right; reflexivity|]. split; [intros _ | discriminate].
      split; [reflexivity|]. right. right. exists status, soup, table.
      split; [reflexivity|]. split; [exact Hfind|]. left. rewrite Hc. eauto.
  - cbn [exit_status]. split; [right; reflexivity|].
    split; [intros _ | discriminate]. split; [reflexivity|]. right. left.
    exists status, soup. split; [reflexivity|]. rewrite Hfind. cbn [length]. lia.
Qed.
